(** * Transfer-learning toolkit: dataset partitioning, preprocessing guard,
      subject grouping, label maps, annotation tables, the classifier head
      and the training, prediction and export entry points.

    A shallow embedding of the Python sources

      - [notebooks/e2e_workflows/data_utils.py]
      - [tlt/datasets/image_classification/pytorch_custom_image_classification_dataset.py]
      - [tlt/models/image_classification/torchvision_image_classification_model.py]
      - [tlt/models/tf_model.py]
      - [tests/pytorch_tests/unit/test_datasets.py]

    Python values are a small tagged union, exceptions are explicit results,
    mutable instance fields are records threaded through the calls, and
    external collaborators (the operating system, pandas, scikit-learn,
    torch) are Section variables constrained only by their documented
    contracts.

    The models come first ([Py], [Dataset], [DataUtils], [TorchvisionModel],
    [HubModel], [StandIn], [TFModel]); the facts about them follow, one
    module per subject. *)

From Stdlib Require Import ZArith Floats Uint63 Ascii String DecimalString
  DecimalZ.
From stdpp Require Import gmap strings list sorting.

Set Warnings "-inexact-float,-register-all".
Open Scope Z_scope.

(* ================================================================== *)
(** ** Python values, exceptions and results                           *)
(* ================================================================== *)

Module Py.

(** The fragment of Python's object universe the modelled code inspects. *)
Inductive pyval :=
| PyNone
| PyBool (b : bool)
| PyInt (z : Z)
| PyFloat (f : float)
| PyStr (s : string)
| PyList (l : list pyval).

(** [bool(v)]: the truth value used by [if v:]. *)
Definition truthy (v : pyval) : bool :=
  match v with
  | PyNone => false
  | PyBool b => b
  | PyInt z => negb (z =? 0)
  | PyFloat f => negb (PrimFloat.eqb f 0%float)
  | PyStr s => negb (String.eqb s "")
  | PyList l => match l with [] => false | _ => true end
  end.

(** [isinstance(v, float)], [isinstance(v, list)], [isinstance(v, int)]
    ([bool] is a subclass of [int]). *)
Definition isinstance_float (v : pyval) : bool :=
  match v with PyFloat _ => true | _ => false end.

Definition isinstance_list (v : pyval) : bool :=
  match v with PyList _ => true | _ => false end.

Definition isinstance_int (v : pyval) : bool :=
  match v with PyInt _ | PyBool _ => true | _ => false end.

(** [v is None] and [v == "literal"]. *)
Definition is_none (v : pyval) : bool :=
  match v with PyNone => true | _ => false end.

Definition eq_str (v : pyval) (s : string) : bool :=
  match v with PyStr t => String.eqb t s | _ => false end.

(** [type(v).__name__] and [str(type(v))]. *)
Definition type_name (v : pyval) : string :=
  match v with
  | PyNone => "NoneType"
  | PyBool _ => "bool"
  | PyInt _ => "int"
  | PyFloat _ => "float"
  | PyStr _ => "str"
  | PyList _ => "list"
  end.

Definition type_repr (v : pyval) : string :=
  "<class '" +:+ type_name v +:+ "'>".

(** The string ["\n"]. *)
Definition newline : string := String (ascii_of_nat 10) EmptyString.

(** [repr] of an [int]: its decimal digits, with a leading minus sign. *)
Definition repr_int (z : Z) : string := NilZero.string_of_int (Z.to_int z).

(** [len(l)] as a Python integer. *)
Definition len {A} (l : list A) : Z := Z.of_nat (length l).

(** [range(a, b)] as the list of its elements. *)
Definition range (a b : Z) : list Z :=
  (λ i : nat, a + Z.of_nat i) <$> seq 0 (Z.to_nat (b - a)).

(** [l[a:b]] with Python's slice semantics: negative bounds count from the
    end, and both bounds are clamped to [0 .. len(l)]. *)
Definition slice_bound {A} (l : list A) (i : Z) : nat :=
  Z.to_nat (Z.min (len l) (Z.max 0 (if i <? 0 then i + len l else i))).

Definition slice {A} (l : list A) (a b : Z) : list A :=
  let lo := slice_bound l a in
  let hi := slice_bound l b in
  take (hi - lo) (drop lo l).

(** Conversions between [int] and [float].  [float_of_int] is exact below
    [2^53] (every length met here); [int_of_float] truncates toward zero and
    is undefined on infinities and NaN, where Python raises. *)
Definition float_of_int (z : Z) : float := PrimFloat.of_uint63 (Uint63.of_Z z).

Definition int_of_float (f : float) : option Z :=
  match Prim2SF f with
  | S754_zero _ => Some 0
  | S754_finite s m e =>
      let v := if 0 <=? e then Z.shiftl (Z.pos m) e else Z.shiftr (Z.pos m) (- e) in
      Some (if s then - v else v)
  | S754_infinity _ | S754_nan => None
  end.

(** Exceptions: the class and the message [str(e)].  [StateError] stands
    for the errors the design calls state errors, whose Python class it
    leaves open. *)
Inductive exn_class :=
| TypeError | ValueError | OverflowError | FileNotFoundError | StateError
| Warning.

Record exception := Exn { exn_class_of : exn_class; exn_msg : string }.

Inductive result (A : Type) :=
| Ok (a : A)
| Raise (e : exception).
Arguments Ok {A} a.
Arguments Raise {A} e.

End Py.
Import Py.

(* ================================================================== *)
(** ** Dataset partitioning and the preprocessing guard                *)
(* ================================================================== *)

Module Dataset.

(** The tag [_validation_type]. *)
Inductive validation_type := Recall | DefinedSplit | ShuffleSplit.

Definition validation_type_str (t : validation_type) : string :=
  match t with
  | Recall => "recall"
  | DefinedSplit => "defined_split"
  | ShuffleSplit => "shuffle_split"
  end.

(** The dictionary [{'image_size': ..., 'batch_size': ...}] kept in
    [_preprocessed]. *)
Record preprocessing := Preprocessing { image_size : Z; batch_size : Z }.

(** [repr] of that dictionary (keys in insertion order). *)
Definition repr_preprocessing (p : preprocessing) : string :=
  "{'image_size': " +:+ repr_int (image_size p) +:+
  ", 'batch_size': " +:+ repr_int (batch_size p) +:+ "}".

(** The instance fields initialised by
    [PyTorchCustomImageClassificationDataset.__init__] that the partition
    engine and the guard read and write.  [_dataset_len] is
    [len(self._dataset)]. *)
Record dataset := Dataset {
  _dataset_len : Z;
  _preprocessed : option preprocessing;
  _train_indices : option (list Z);
  _validation_indices : option (list Z);
  _test_indices : option (list Z);
  _validation_type : validation_type
}.

Definition set_preprocessed (p : option preprocessing) (d : dataset) : dataset :=
  Dataset (_dataset_len d) p (_train_indices d) (_validation_indices d)
          (_test_indices d) (_validation_type d).

Definition set_partition (tr va te : option (list Z)) (t : validation_type)
    (d : dataset) : dataset :=
  Dataset (_dataset_len d) (_preprocessed d) tr va te t.

(** [__init__] (lines 72-88 of the custom dataset): nothing preprocessed, no
    index subsets, validation type ['recall']. *)
Definition init (n : Z) : dataset :=
  Dataset n None None None None Recall.

(** The state the unit test [test_defined_split] observes after loading a
    catalog dataset with [split=['train', 'test']]: [n_train] leading train
    indices, the rest test indices, no validation subset. *)
Definition defined_split (n n_train : Z) : dataset :=
  Dataset n None (Some (range 0 n_train)) None (Some (range n_train n)) DefinedSplit.

(** A method of the dataset: it returns or raises, and leaves a state. *)
Definition M (A : Type) : Type := dataset → result A * dataset.

Definition msg_floats : string := "Percentage arguments must be floats.".
Definition msg_sum : string :=
  "Sum of percentage arguments must be less than or equal to 1.".
Definition msg_preprocessed (p : preprocessing) : string :=
  "Data has already been preprocessed: " +:+ repr_preprocessing p.

Section Engine.

(** The seeded pseudo-random permutation of [0 .. n-1] supplied by the
    framework ([seed], [n]). *)
Variable randperm : option Z → Z → list Z.

(** Modelled from the spec: the method [shuffle_split] of the dataset base
    class [tlt/datasets/pytorch_dataset.py], which is not among the sources.
    Section 4.1: the three percentages must be floats, their sum must be at
    most 1.0, the full index range is partitioned "using the fractions
    directly", a test subset is assigned when a test fraction is supplied and
    left as before otherwise, [validation_type] becomes ['shuffle_split'] and
    the preprocessing state is untouched.  The sizes are fractions of the
    whole dataset length, as [test_defined_split] fixes them
    (60000 samples, fractions .6/.2/.2, sizes 36000/12000/12000). *)
Definition shuffle_split (train_pct val_pct test_pct : pyval) (seed : option Z)
    : M unit := λ d,
  match train_pct, val_pct, test_pct with
  | PyFloat tr, PyFloat va, PyFloat te =>
      if negb (PrimFloat.leb (tr + va + te)%float 1%float)
      then (Raise (Exn ValueError msg_sum), d)
      else
        let length := _dataset_len d in
        match int_of_float (tr * float_of_int length)%float,
              int_of_float (va * float_of_int length)%float,
              int_of_float (te * float_of_int length)%float with
        | Some train_size, Some val_size, Some test_size =>
            let dataset_indices := randperm seed length in
            let train := slice dataset_indices 0 train_size in
            let val := slice dataset_indices train_size (train_size + val_size) in
            let test :=
              if truthy test_pct
              then Some (slice dataset_indices (train_size + val_size)
                               (train_size + val_size + test_size))
              else _test_indices d in
            (Ok (), set_partition (Some train) (Some val) test ShuffleSplit d)
        | _, _, _ =>
            (* [int()] of an infinite or undefined product *)
            (Raise (Exn OverflowError "cannot convert float to integer"), d)
        end
  | _, _, _ => (Raise (Exn TypeError msg_floats), d)
  end.

(** Modelled from the spec: the method [preprocess] of the same absent base
    class.  Section 4.2: a dataset that already holds a configuration rejects
    every further call with a message embedding that configuration; otherwise
    [image_size] and [batch_size] must be positive integers, and on success
    the pair is recorded. *)
Definition preprocess (image_size batch_size : pyval) : M unit := λ d,
  match _preprocessed d with
  | Some cfg => (Raise (Exn StateError (msg_preprocessed cfg)), d)
  | None =>
      match image_size, batch_size with
      | PyInt i, PyInt b =>
          if i <? 1
          then (Raise (Exn ValueError "image_size must be a positive integer"), d)
          else if b <? 1
          then (Raise (Exn ValueError "batch_size must be a positive integer"), d)
          else (Ok (), set_preprocessed (Some (Preprocessing i b)) d)
      | PyInt _, _ =>
          (Raise (Exn ValueError "batch_size must be a positive integer"), d)
      | _, _ =>
          (Raise (Exn ValueError "image_size must be a positive integer"), d)
      end
  end.

(** The two user-invoked operations, and a client's sequence of them.  A
    call that raises leaves the state it reached; the client goes on. *)
Inductive call :=
| CallPreprocess (image_size batch_size : pyval)
| CallShuffleSplit (train_pct val_pct test_pct : pyval) (seed : option Z).

Definition run_call (c : call) : M unit :=
  match c with
  | CallPreprocess i b => preprocess i b
  | CallShuffleSplit tr va te s => shuffle_split tr va te s
  end.

Definition run_calls (cs : list call) (d : dataset) : dataset :=
  foldl (λ d c, (run_call c d).2) d cs.

(** What the partition looks like to a caller. *)
Definition pairwise_disjoint (tr va te : list Z) : Prop :=
  (∀ i, i ∈ tr → i ∉ va) ∧ (∀ i, i ∈ tr → i ∉ te) ∧ (∀ i, i ∈ va → i ∉ te).

(** The end-to-end example read literally: after the call the three subsets
    have 36000, 12000 and 12000 indices, are pairwise disjoint, and every
    index still comes from the former train range [0 .. 49999]. *)
Definition repartition_within_train_range : Prop :=
  ∃ d1 tr va te,
    shuffle_split (PyFloat 0.6) (PyFloat 0.2) (PyFloat 0.2) (Some 10)
                  (defined_split 60000 50000) = (Ok (), d1) ∧
    _train_indices d1 = Some tr ∧ _validation_indices d1 = Some va ∧
    _test_indices d1 = Some te ∧
    len tr = 36000 ∧ len va = 12000 ∧ len te = 12000 ∧
    NoDup tr ∧ NoDup va ∧ NoDup te ∧ pairwise_disjoint tr va te ∧
    (∀ i, i ∈ tr ++ va ++ te → i ∈ range 0 50000) ∧
    _validation_type (defined_split 60000 50000) = DefinedSplit ∧
    _validation_type d1 = ShuffleSplit.

End Engine.

(** The contract of the framework's permutation: a rearrangement of
    [0 .. n-1], whatever the seed. *)
Definition is_randperm (randperm : option Z → Z → list Z) : Prop :=
  ∀ seed n, randperm seed n ≡ₚ range 0 n.

(** A stand-in generator that leaves the order alone. *)
Definition identity_perm (seed : option Z) (n : Z) : list Z := range 0 n.

End Dataset.

(* ================================================================== *)
(** ** [data_utils.py]: subject grouping, physical split, annotations  *)
(* ================================================================== *)

Module DataUtils.

(** *** String primitives *)

(** [s.split(sep)] for a one-character separator: never empty. *)
Fixpoint str_split (sep : ascii) (s : string) : list string :=
  match s with
  | EmptyString => [EmptyString]
  | String c s' =>
      if Ascii.eqb c sep then EmptyString :: str_split sep s'
      else match str_split sep s' with
           | [] => [String c EmptyString]
           | t :: ts => String c t :: ts
           end
  end.

(** [sep.join(l)]. *)
Fixpoint str_join (sep : string) (l : list string) : string :=
  match l with
  | [] => ""
  | x :: l' => match l' with [] => x | _ => x +:+ sep +:+ str_join sep l' end
  end.

(** [s[1:]]. *)
Definition str_tail (s : string) : string :=
  match s with EmptyString => "" | String _ t => t end.

Fixpoint str_endswith (c : ascii) (s : string) : bool :=
  match s with
  | EmptyString => false
  | String x t => match t with EmptyString => Ascii.eqb x c | _ => str_endswith c t end
  end.

(** [c in s]. *)
Fixpoint str_contains (c : ascii) (s : string) : bool :=
  match s with
  | EmptyString => false
  | String x t => Ascii.eqb x c || str_contains c t
  end.

(** [os.path.join(a, b)] (posixpath). *)
Definition path_join (a b : string) : string :=
  if String.prefix "/" b then b
  else if String.eqb a "" || str_endswith "/" a then a +:+ b
  else a +:+ "/" +:+ b.

(** [fns.sort()]: ascending by code points. *)
Definition sort (fns : list string) : list string :=
  merge_sort (λ a b : string, String.leb a b) fns.

(** *** Subject keys *)

(** [get_subject_id] (lines 66-69). *)
Definition get_subject_id (image_name : string) : string :=
  let image_name := default "" (last (str_split "/" image_name)) in
  let patient_id := str_tail (str_join "" (take 2 (str_split "_" image_name))) in
  patient_id.

(** The comprehension of line 45,
    [fns_root = ['_'.join(x.split('_')[:2]) for x in fns]], and its body. *)
Definition fns_root_of (x : string) : string :=
  str_join "_" (take 2 (str_split "_" x)).

Definition fns_root (fns : list string) : list string := fns_root_of <$> fns.

(** *** [defaultdict(list)], in insertion order *)

Definition fdict := list (string * list string).

(** [d[k].append(v)]. *)
Fixpoint dict_append (k v : string) (d : fdict) : fdict :=
  match d with
  | [] => [(k, [v])]
  | (k', vs) :: d' =>
      if decide (k' = k) then (k', vs ++ [v]) :: d'
      else (k', vs) :: dict_append k v d'
  end.

(** [d.get(k)] and [list(d.keys())]. *)
Fixpoint dict_get (k : string) (d : fdict) : option (list string) :=
  match d with
  | [] => None
  | (k', vs) :: d' => if decide (k' = k) then Some vs else dict_get k d'
  end.

Definition dict_keys (d : fdict) : list string := d.*1.

(** Lines 48-50: the dictionary built from [zip(fns_root, fns)]. *)
Definition fns_dict (fns : list string) : fdict :=
  foldl (λ d '(i, j), dict_append i j d) [] (zip (fns_root fns) fns).

(** *** What is copied *)

(** The files the samples stand for, in the order they are copied. *)
Definition files_of (d : fdict) (samples : list string) : list string :=
  samples ≫= λ k, default [] (dict_get k d).

(** The copies made for a list of files. *)
Definition copies (src_dir tgt_dir : string) (files : list string)
    : list (string * string) :=
  (λ f, (path_join src_dir f, path_join tgt_dir f)) <$> files.

(** *** Label maps *)

Section LabelMap.
Context {V : Type} `{Countable V}.

(** [Series.unique()]: the distinct values in order of first appearance. *)
Fixpoint unique_from (seen : list V) (l : list V) : list V :=
  match l with
  | [] => []
  | x :: l' =>
      if decide (x ∈ seen) then unique_from seen l'
      else x :: unique_from (x :: seen) l'
  end.

Definition unique (l : list V) : list V := unique_from [] l.

(** The loop of lines 122-124, over the enumerated values. *)
Definition enumerate_maps (values : list V) : gmap V nat * gmap nat V :=
  foldl (λ '(label_map, reverse_label_map) '(i, v),
           (<[v := i]> label_map, <[i := v]> reverse_label_map))
        (∅, ∅)
        (imap pair values).

(** [label2map] (lines 120-126), on the label column. *)
Definition label2map (column : list V) : gmap V nat * gmap nat V :=
  enumerate_maps (unique column).

End LabelMap.

(** *** The annotation table *)

(** A row of the annotation frame, restricted to the three columns the code
    selects by [label_column], [data_column] and [patient_id]. *)
Record row := Row { label_of : string; data_of : string; patient_of : string }.

(** The body of the loop of lines 104-115 for subject [i]: the rows of [i]
    give the joined annotation and the distinct labels; a single label is
    kept, several labels give the placeholder when a subject list was
    passed, and otherwise a [Warning] object is built and dropped. *)
Definition aggregate (df : list row) (patient_id_list : option (list string))
    (df_new : list row) (i : string) : list row :=
  let annotation :=
    str_join " " (data_of <$> filter (λ r, patient_of r = i) df) in
  let temp_labels := unique (label_of <$> filter (λ r, patient_of r = i) df) in
  if decide (length temp_labels = 1%nat)
  then df_new ++ [Row (default "" (head temp_labels)) annotation i]
  else
    match patient_id_list with
    | Some _ => df_new ++ [Row "Normal" annotation i]
    | None => let _ := Exn Warning "Conflict in labelling ...." in df_new
    end.

(** The row a subject contributes, if any. *)
Definition resolved (df : list row) (patient_id_list : option (list string))
    (i : string) : option row :=
  let rows := filter (λ r, patient_of r = i) df in
  let annotation := str_join " " (data_of <$> rows) in
  match unique (label_of <$> rows) with
  | [l] => Some (Row l annotation i)
  | _ => match patient_id_list with
         | Some _ => Some (Row "Normal" annotation i)
         | None => None
         end
  end.

(** One label's share of a run: the names listed in its folder, and the
    files copied to its train and to its test folder. *)
Record label_split := LabelSplit {
  ls_label : string;
  ls_fns : list string;
  ls_train : list string;
  ls_test : list string
}.

(** The copies of one label: train files into [tgt/train/label], test files
    into [tgt/test/label], each from [src/label]. *)
Definition label_copies (src_folder tgt_folder : string) (r : label_split)
    : list (string * string) :=
  copies (path_join src_folder (ls_label r))
         (path_join (path_join tgt_folder "train") (ls_label r)) (ls_train r) ++
  copies (path_join src_folder (ls_label r))
         (path_join (path_join tgt_folder "test") (ls_label r)) (ls_test r).

(** *** Effects *)

Section System.

(** The state of the operating system, and the calls made on it. *)
Context {World : Type}.
Variable os_listdir : string → World → result (list string) * World.
Variable os_makedirs : string → World → result unit * World.
Variable shutil_copy2 : string → string → World → result unit * World.
Variable pd_read_csv : string → World → result (list row) * World.

(** [sklearn.model_selection.train_test_split(keys, test_size, random_state)]. *)
Variable train_test_split :
  list string → float → Z → result (list string * list string).

(** What a run leaves behind: the system state, the files copied (source
    and target path, in order) and the argument tuples handed to [print]. *)
Record sys := Sys {
  os_state : World;
  copied : list (string * string);
  printed : list (list pyval)
}.

Definition IO (A : Type) : Type := sys → result A * sys.

Definition ret {A} (a : A) : IO A := λ s, (Ok a, s).

Definition raise {A} (e : exception) : IO A := λ s, (Raise e, s).

Definition bind {A B} (m : IO A) (k : A → IO B) : IO B := λ s,
  match m s with
  | (Ok a, s') => k a s'
  | (Raise e, s') => (Raise e, s')
  end.

Notation "'let*' x ':=' m 'in' k" := (bind m (λ x, k))
  (at level 10, x pattern, m at level 100, k at level 200).

Definition lift_pure {A} (r : result A) : IO A := λ s, (r, s).

Definition lift_os {A} (f : World → result A * World) : IO A := λ s,
  let '(r, w) := f (os_state s) in (r, Sys w (copied s) (printed s)).

(** [for x in l: body(x)]. *)
Fixpoint for_each {A} (l : list A) (body : A → IO unit) : IO unit :=
  match l with
  | [] => ret ()
  | x :: l' => let* _ := body x in for_each l' body
  end.

Definition print (args : list pyval) : IO unit := λ s,
  (Ok (), Sys (os_state s) (copied s) (printed s ++ [args])).

Definition listdir (path : string) : IO (list string) :=
  lift_os (os_listdir path).

Definition makedirs_exist_ok (path : string) : IO unit :=
  lift_os (os_makedirs path).

(** [shutil.copy2(src, tgt)]; a copy that returns is recorded. *)
Definition copy2 (src tgt : string) : IO unit := λ s,
  match shutil_copy2 src tgt (os_state s) with
  | (Ok _, w) => (Ok (), Sys w (copied s ++ [(src, tgt)]) (printed s))
  | (Raise e, w) => (Raise e, Sys w (copied s) (printed s))
  end.

(** [copy_files_src_to_tgt] (lines 29-35).  [fns_dict.get(sample)] is
    [None] for a missing key, and iterating over it raises. *)
Definition copy_files_src_to_tgt (samples : list string) (fns_dict : fdict)
    (src_folder tgt_folder : string) : IO unit :=
  for_each samples (λ sample,
    match dict_get sample fns_dict with
    | None => raise (Exn TypeError "'NoneType' object is not iterable")
    | Some files_to_copy =>
        for_each files_to_copy (λ _file,
          let src_fn := path_join src_folder _file in
          let tgt_fn := path_join tgt_folder _file in
          copy2 src_fn tgt_fn)
    end).

(** The body of the loop over labels (lines 43-62). *)
Definition split_label (src_folder tgt_folder label : string) : IO unit :=
  let* fns := listdir (path_join src_folder label) in
  let fns := sort fns in
  let* _ := print [PyStr (newline +:+ "Creating default dict for stratifying "
                            +:+ "the subject in " +:+ label +:+ ".")] in
  let fns_dict := fns_dict fns in
  let* (train_samples, test_samples) :=
    lift_pure (train_test_split (dict_keys fns_dict) 0.2%float 100) in
  let src_dir := path_join src_folder label in
  let tgt_dir := path_join (path_join tgt_folder "train") label in
  let* _ := makedirs_exist_ok tgt_dir in
  let* _ := copy_files_src_to_tgt train_samples fns_dict src_dir tgt_dir in
  let tgt_dir := path_join (path_join tgt_folder "test") label in
  let* _ := makedirs_exist_ok tgt_dir in
  let* _ := copy_files_src_to_tgt test_samples fns_dict src_dir tgt_dir in
  print [PyStr ("Done splitting the files for label = " +:+ label +:+ newline)].

(** [split_images] (lines 38-63). *)
Definition split_images (src_folder tgt_folder : string) : IO unit :=
  let* labels := listdir src_folder in
  let* _ := print [PyStr "Number of labels = "; PyInt (len labels)] in
  let* _ := print [PyStr ("Labels are: " +:+ newline); PyList (PyStr <$> labels)] in
  let* _ := for_each labels (split_label src_folder tgt_folder) in
  print [PyStr "Done splitting the data. Output data is here: "; PyStr tgt_folder].

(** Lines 98-100: the names of all images, label folder by label folder. *)
Fixpoint extend_listings (image_data_folder : string) (labels : list string)
    (image_name_list : list string) : IO (list string) :=
  match labels with
  | [] => ret image_name_list
  | label :: labels' =>
      let* names := listdir (path_join image_data_folder label) in
      extend_listings image_data_folder labels' (image_name_list ++ names)
  end.

(** [read_annotation_file] (lines 82-117). *)
Definition read_annotation_file (folder file_name : string)
    (patient_id_list : option (list string)) (image_data_folder : string)
    : IO (list row * gmap string nat * gmap nat string) :=
  let df_path := path_join folder file_name in
  let* df := lift_os (pd_read_csv df_path) in
  let '(label_map, reverse_label_map) := label2map (label_of <$> df) in
  let* df :=
    match patient_id_list with
    | Some ids => ret (filter (λ r, patient_of r ∈ ids) df)
    | None =>
        let* labels := listdir image_data_folder in
        let* image_name_list := extend_listings image_data_folder labels [] in
        ret (filter (λ r, patient_of r ∈ sort (unique (get_subject_id <$> image_name_list))) df)
    end in
  let df_new := foldl (aggregate df patient_id_list) [] (unique (patient_of <$> df)) in
  ret (df_new, label_map, reverse_label_map).

(** Lines 75-77: the subject ids of the files of each folder in turn. *)
Fixpoint collect_patient_ids (folder_pth : string) (fldrs : list string)
    (patient_id_list : list string) : IO (list string) :=
  match fldrs with
  | [] => ret patient_id_list
  | fldr :: fldrs' =>
      let* fs := listdir (path_join folder_pth fldr) in
      collect_patient_ids folder_pth fldrs'
        (patient_id_list ++ (get_subject_id <$> fs))
  end.

(** [create_patient_id_list] (lines 72-79); [np.unique] gives the sorted
    distinct values. *)
Definition create_patient_id_list (image_data_folder folder : string)
    : IO (list string) :=
  let folder_pth := path_join folder image_data_folder in
  let* fldrs := listdir folder_pth in
  let* patient_id_list := collect_patient_ids folder_pth fldrs [] in
  ret (sort (unique patient_id_list)).

(** [create_train_test_set] (lines 129-137). *)
Definition create_train_test_set (df : list row) (patient_id_list : list string)
    : result (list row * list row) :=
  match train_test_split patient_id_list 0.33%float 42 with
  | Raise e => Raise e
  | Ok (train_label, test_label) =>
      let df_test := filter (λ r, patient_of r ∈ test_label) df in
      let df_train := filter (λ r, patient_of r ∈ train_label) df in
      Ok (df_train, df_test)
  end.

(** [split_annotation] (lines 140-159): the annotation table is read with no
    subject list, the subject ids come from the image folders, and only the
    train part is returned. *)
Definition split_annotation (folder file_name image_data_folder : string)
    : IO (list row) :=
  let patient_id_list := None in
  let* (df, label_map, reverse_label_map) :=
    read_annotation_file folder file_name patient_id_list image_data_folder in
  let* patient_id_list := create_patient_id_list image_data_folder folder in
  let* (df_train, df_test) :=
    lift_pure (create_train_test_set df patient_id_list) in
  ret df_train.

(** *** Runs that return *)

(** [fns] is what listing [dir] returned at some point. *)
Definition listed_at (dir : string) (fns : list string) : Prop :=
  ∃ w w', os_listdir dir w = (Ok fns, w').

(** The listings a loop over folders went through. *)
Definition listings_of (parent : string) (fldrs : list string)
    (listings : list (list string)) : Prop :=
  Forall2 (λ fldr fns, listed_at (path_join parent fldr) fns)
          fldrs listings.

(** The rows [read_annotation_file] aggregates: those of the listed
    subjects, or of the subjects that have an image. *)
Definition kept_rows (df : list row) (patient_id_list : option (list string))
    (image_data_folder : string) (kept : list row) : Prop :=
  match patient_id_list with
  | Some ids => kept = filter (λ r, patient_of r ∈ ids) df
  | None =>
      ∃ labels listings,
        listed_at image_data_folder labels ∧
        listings_of image_data_folder labels listings ∧
        kept = filter (λ r, patient_of r ∈ get_subject_id <$> concat listings) df
  end.

(** How one label was processed: its folder was listed, the keys of the
    dictionary were split, and the files of each part were copied. *)
Definition label_outcome (src_folder : string) (r : label_split) : Prop :=
  listed_at (path_join src_folder (ls_label r)) (ls_fns r) ∧
  ∃ tr te,
    train_test_split (dict_keys (fns_dict (sort (ls_fns r)))) 0.2%float 100
      = Ok (tr, te) ∧
    ls_train r = files_of (fns_dict (sort (ls_fns r))) tr ∧
    ls_test r = files_of (fns_dict (sort (ls_fns r))) te.

(** A run that returned: the labels were listed, and the copies made are,
    label after label, those of [rs]. *)
Definition run_of (src_folder tgt_folder : string) (s s' : sys)
    (rs : list label_split) : Prop :=
  ∃ labels w,
    os_listdir src_folder (os_state s) = (Ok labels, w) ∧
    ls_label <$> rs = labels ∧
    copied s' = copied s ++ concat (label_copies src_folder tgt_folder <$> rs).

(** Totality: every listed file is copied once, to one of the two folders. *)
Definition split_is_total (src_folder tgt_folder : string) (s s' : sys)
    : Prop :=
  ∃ rs, run_of src_folder tgt_folder s s' rs ∧
    Forall (λ r,
      listed_at (path_join src_folder (ls_label r)) (ls_fns r) ∧
      ls_train r ++ ls_test r ≡ₚ ls_fns r ∧
      ∀ f, f ∈ ls_fns r →
           (f ∈ ls_train r ∧ f ∉ ls_test r) ∨ (f ∈ ls_test r ∧ f ∉ ls_train r)) rs.

(** No leakage within a label folder: the names listed in it that have
    the same first two ['_']-separated tokens all go the same way. *)
Definition split_keeps_groups_together (src_folder tgt_folder : string)
    (s s' : sys) : Prop :=
  ∃ rs, run_of src_folder tgt_folder s s' rs ∧
    Forall (λ r,
      listed_at (path_join src_folder (ls_label r)) (ls_fns r) ∧
      ∀ f, f ∈ ls_fns r →
        (∀ g, g ∈ ls_fns r →
              take 2 (str_split "_" g) = take 2 (str_split "_" f) →
              g ∈ ls_train r ∧ g ∉ ls_test r) ∨
        (∀ g, g ∈ ls_fns r →
              take 2 (str_split "_" g) = take 2 (str_split "_" f) →
              g ∈ ls_test r ∧ g ∉ ls_train r)) rs.

(** A system call that returns in every state. *)
Definition always_returns {A} (f : World → result A * World) : Prop :=
  ∀ w, ∃ a w', f w = (Ok a, w').

(** The conditions under which nothing in a run can raise: the label
    folders are listed, folders are created, files are copied, and the keys
    of every label folder are split. *)
Definition run_can_proceed (src_folder : string) (s : sys) : Prop :=
  (∃ labels w,
     os_listdir src_folder (os_state s) = (Ok labels, w) ∧
     ∀ label, label ∈ labels → ∀ w1, ∃ fns w2 tr te,
       os_listdir (path_join src_folder label) w1 = (Ok fns, w2) ∧
       train_test_split (dict_keys (fns_dict (sort fns))) 0.2%float 100
         = Ok (tr, te)) ∧
  (∀ path, always_returns (os_makedirs path)) ∧
  (∀ src tgt, always_returns (shutil_copy2 src tgt)).

End System.

(** The contract of [train_test_split]: when it returns, the two lists
    together are a rearrangement of the input. *)
Definition is_train_test_split
    (train_test_split : list string → float → Z → result (list string * list string))
    : Prop :=
  ∀ keys test_size random_state tr te,
    train_test_split keys test_size random_state = Ok (tr, te) →
    tr ++ te ≡ₚ keys.

(** Nothing else touches the folders during a run: a folder that is listed
    twice gives the same names twice. *)
Definition stable_listing {World}
    (os_listdir : string → World → result (list string) * World) : Prop :=
  ∀ path w1 w1' w2 w2' fns1 fns2,
    os_listdir path w1 = (Ok fns1, w1') →
    os_listdir path w2 = (Ok fns2, w2') → fns1 = fns2.

End DataUtils.

(* ================================================================== *)
(** ** [torchvision_image_classification_model.py]: [train]             *)
(* ================================================================== *)

Module TorchvisionModel.

Section Train.

(** Handles of the framework: the network, the optimizer, the training
    history and the dataset object. *)
Context {TorchModel Optimizer History ImageDataset : Type}.

(** The instance fields [train] reads and writes. *)
Record model := Model {
  _model : option TorchModel;
  _optimizer : option Optimizer;
  _num_classes : option Z;
  _distributed : pyval;
  _device : pyval;
  _enable_auto_mixed_precision : pyval;
  _history : History
}.

Definition set_device (v : pyval) (self : model) : model :=
  Model (_model self) (_optimizer self) (_num_classes self) (_distributed self)
        v (_enable_auto_mixed_precision self) (_history self).

Definition set_enable_auto_mixed_precision (v : pyval) (self : model) : model :=
  Model (_model self) (_optimizer self) (_num_classes self) (_distributed self)
        (_device self) v (_history self).

Definition set_distributed (v : pyval) (self : model) : model :=
  Model (_model self) (_optimizer self) (_num_classes self) v
        (_device self) (_enable_auto_mixed_precision self) (_history self).

(** The arguments of [train] (line 125). *)
Record train_args := TrainArgs {
  dataset : ImageDataset;
  output_dir : pyval;
  epochs : pyval;
  initial_checkpoints : pyval;
  do_eval : pyval;
  early_stopping : pyval;
  lr_decay : pyval;
  seed : pyval;
  extra_layers : pyval;
  ipex_optimize : pyval;
  distributed : pyval;
  hostfile : pyval;
  nnodes : pyval;
  nproc_per_node : pyval;
  use_horovod : pyval;
  hvd_start_timeout : pyval;
  enable_auto_mixed_precision : pyval;
  device : pyval
}.

(** The module-level flag [is_hpu_available] and [PlatformUtil().cpu_type],
    which may raise. *)
Variable is_hpu_available : bool.
Variable cpu_type : result string.

(** [self._check_train_inputs(...)] of the base class: it returns or raises,
    and assigns no field. *)
Variable _check_train_inputs : train_args → option exception.

(** Lines 220-265: the model is fetched, checkpoints are loaded and the
    model is fitted by the framework; [ipex_optimize] and
    [enable_auto_mixed_precision] as the lines above left them. *)
Variable fit : train_args → pyval → pyval → model → result History * model.

(** The first layer of [extra_layers] that is not an [int]. *)
Definition first_non_int (layers : list pyval) : option pyval :=
  List.find (λ layer, negb (isinstance_int layer)) layers.

Definition msg_extra_layers : string :=
  "The extra_layers parameter must be a list of ints but found ".

(** [train] (lines 125-265), up to the call of the framework. *)
Definition train (a : train_args) (self : model) : result History * model :=
  match _check_train_inputs a with
  | Some e => (Raise e, self)
  | None =>
      (* Only change the device if one is passed in *)
      let '(self, ipex_optimize) :=
        if eq_str (device a) "hpu" && negb is_hpu_available
        then (set_device (PyStr "cpu") self, ipex_optimize a)
        else if eq_str (device a) "hpu" && is_hpu_available
        then (set_device (device a) self, PyBool false)
        else if eq_str (device a) "cpu"
        then (set_device (device a) self, ipex_optimize a)
        else (self, ipex_optimize a) in
      (* The model may have been initialized with hpu *)
      let '(self, ipex_optimize) :=
        if eq_str (_device self) "hpu" && negb is_hpu_available
        then (set_device (PyStr "cpu") self, ipex_optimize)
        else if eq_str (_device self) "hpu" && is_hpu_available
        then (self, if truthy ipex_optimize then PyBool false else ipex_optimize)
        else (self, ipex_optimize) in
      let enable_auto_mixed_precision :=
        if is_none (enable_auto_mixed_precision a)
        then match cpu_type with
             | Ok t => PyBool (String.eqb t "SPR")
             | Raise _ => PyNone
             end
        else enable_auto_mixed_precision a in
      let self := set_enable_auto_mixed_precision enable_auto_mixed_precision self in
      let self := set_distributed (distributed a) self in
      if truthy (extra_layers a)
      then
        match extra_layers a with
        | PyList layers =>
            match first_non_int layers with
            | Some layer =>
                (Raise (Exn TypeError (msg_extra_layers +:+ "a list containing "
                                         +:+ type_repr layer)), self)
            | None => fit a ipex_optimize enable_auto_mixed_precision self
            end
        | other =>
            (Raise (Exn TypeError (msg_extra_layers +:+ type_repr other)), self)
        end
      else fit a ipex_optimize enable_auto_mixed_precision self
  end.

(** [extra_layers] is a list whose elements are all [int]s. *)
Definition is_int_list (v : pyval) : bool :=
  match v with
  | PyList layers => forallb isinstance_int layers
  | _ => false
  end.

(** The value [train] stores in [_enable_auto_mixed_precision]. *)
Definition resolved_mixed_precision (a : train_args) : pyval :=
  if is_none (enable_auto_mixed_precision a)
  then match cpu_type with
       | Ok t => PyBool (String.eqb t "SPR")
       | Raise _ => PyNone
       end
  else enable_auto_mixed_precision a.

End Train.

(** A model not yet trained, on a CPU, and a call that asks for distributed
    training with mixed precision and passes a string as [extra_layers]. *)
Definition fresh_model : @model unit unit (list Z) :=
  Model None None None (PyBool false) (PyStr "cpu") PyNone [].

Definition example_args (extra_layers : pyval) : @train_args unit :=
  TrainArgs () (PyStr "/tmp/output") (PyInt 1) PyNone (PyBool true)
            (PyBool false) (PyBool true) PyNone extra_layers (PyBool true)
            (PyBool true) PyNone (PyInt 1) (PyInt 1) (PyBool false) (PyInt 30)
            (PyBool true) PyNone.

Definition example_train (extra_layers : pyval)
    : result (list Z) * @model unit unit (list Z) :=
  train false (Ok "SPR") (λ _, None)
        (λ _ _ _ self, (Ok (_history self), self))
        (example_args extra_layers) fresh_model.

(** *** [predict] *)

Section Predict.

Context {TorchModel Optimizer History Samples Predictions : Type}.

Variable is_hpu_available : bool.
Variable cpu_type : result string.

(** [str(v)], as [format] prints a value. *)
Variable py_str : pyval → string.

(** Lines 424-452: the forward pass, on the downloaded model when the
    instance has none, and the selection of what is returned. *)
Variable infer :
  Samples → pyval → pyval → @model TorchModel Optimizer History →
  result Predictions * @model TorchModel Optimizer History.

Definition return_types : list string := ["class"; "probabilities"; "scores"].

Definition isinstance_str (v : pyval) : bool :=
  match v with PyStr _ => true | _ => false end.

(** [return_type in return_types]. *)
Definition in_return_types (return_type : pyval) : bool :=
  existsb (eq_str return_type) return_types.

Definition msg_return_type (return_type : pyval) : string :=
  "Invalid return_type (" +:+ py_str return_type
    +:+ "). Expected one of ['class', 'probabilities', 'scores'].".

(** [predict] (lines 377-452), up to the forward pass. *)
Definition predict (input_samples : Samples)
    (return_type enable_auto_mixed_precision device : pyval)
    (self : @model TorchModel Optimizer History)
    : result Predictions * @model TorchModel Optimizer History :=
  if negb (isinstance_str return_type) || negb (in_return_types return_type)
  then (Raise (Exn ValueError (msg_return_type return_type)), self)
  else
    let enable_auto_mixed_precision :=
      if is_none enable_auto_mixed_precision
      then match cpu_type with
           | Ok t => PyBool (String.eqb t "SPR")
           | Raise _ => PyNone
           end
      else enable_auto_mixed_precision in
    let self := set_enable_auto_mixed_precision enable_auto_mixed_precision self in
    (* Only change the device if one is passed in *)
    let self :=
      if eq_str device "hpu" && negb is_hpu_available
      then set_device (PyStr "cpu") self
      else if eq_str device "hpu" && is_hpu_available
      then set_device device self
      else if eq_str device "cpu"
      then set_device device self
      else self in
    (* The model may have been initialized with hpu *)
    let self :=
      if eq_str (_device self) "hpu" && negb is_hpu_available
      then set_device (PyStr "cpu") self
      else self in
    infer input_samples return_type enable_auto_mixed_precision self.

End Predict.

(** A call for a Gaudi device with two extra layers, on a machine that has
    one. *)
Definition hpu_args : @train_args unit :=
  TrainArgs () (PyStr "/tmp/output") (PyInt 1) PyNone (PyBool true)
            (PyBool false) (PyBool true) PyNone (PyList [PyInt 1024; PyInt 512])
            (PyBool true) (PyBool false) PyNone (PyInt 1) (PyInt 1)
            (PyBool false) (PyInt 30) PyNone (PyStr "hpu").

End TorchvisionModel.

(* ================================================================== *)
(** ** [torchvision_image_classification_model.py]: [_get_hub_model]   *)
(* ================================================================== *)

Module HubModel.
Import TorchvisionModel.

(** The [torch.nn] modules the code builds or looks into.  A [Sequential]
    keeps its children under their names, as [torch] does; [Block] is any
    other layer, with the [requires_grad] flag of its parameters. *)
Inductive module :=
| Linear (in_features out_features : Z) (requires_grad : bool)
| ReLU (inplace : bool)
| Sequential (children : list (string * module))
| Block (kind : string) (requires_grad : bool).

(** A network: its child modules by attribute name. *)
Abbreviation net := (gmap string module).

(** What [torch], the hub or IPEX can raise here. *)
Inductive error :=
| AttributeError (attr : string)
| IndexError
| NotSubscriptable
| External (e : exception).

Inductive outcome (A : Type) :=
| Done (a : A)
| Failed (e : error).
Arguments Done {A} a.
Arguments Failed {A} e.

(** [for param in m.parameters(): param.requires_grad = False]. *)
Fixpoint freeze (m : module) : module :=
  match m with
  | Linear i o _ => Linear i o false
  | ReLU b => ReLU b
  | Sequential l => Sequential (List.map (λ c, (c.1, freeze c.2)) l)
  | Block k _ => Block k false
  end.

(** No parameter of [m] requires a gradient; every parameter does. *)
Fixpoint frozen (m : module) : bool :=
  match m with
  | Linear _ _ g => negb g
  | ReLU _ => true
  | Sequential l => forallb (λ c, frozen c.2) l
  | Block _ g => negb g
  end.

Fixpoint trainable (m : module) : bool :=
  match m with
  | Linear _ _ g => g
  | ReLU _ => true
  | Sequential l => forallb (λ c, trainable c.2) l
  | Block _ g => g
  end.

(** [getattr(m, name)] on a network, [m.attr] on a container, [m[idx]] with
    an [int], [m[0:idx]] and [m.in_features]. *)
Definition getattr (m : net) (name : string) : outcome module :=
  match m !! name with
  | Some c => Done c
  | None => Failed (AttributeError name)
  end.

Definition child (m : module) (attr : string) : outcome module :=
  match m with
  | Sequential l =>
      match List.find (λ c, String.eqb c.1 attr) l with
      | Some c => Done c.2
      | None => Failed (AttributeError attr)
      end
  | _ => Failed (AttributeError attr)
  end.

Definition getitem (m : module) (idx : Z) : outcome module :=
  match m with
  | Sequential l =>
      if (- len l <=? idx) && (idx <? len l)
      then match l !! Z.to_nat (idx mod len l) with
           | Some c => Done c.2
           | None => Failed IndexError
           end
      else Failed IndexError
  | _ => Failed NotSubscriptable
  end.

Definition getslice (m : module) (a b : Z) : outcome (list (string * module)) :=
  match m with
  | Sequential l => Done (slice l a b)
  | _ => Failed NotSubscriptable
  end.

Definition in_features (m : module) : outcome Z :=
  match m with
  | Linear i _ _ => Done i
  | _ => Failed (AttributeError "in_features")
  end.

(** The output size of a [Linear] layer. *)
Definition out_features (m : module) : option Z :=
  match m with
  | Linear _ o _ => Some o
  | _ => None
  end.

(** [classifier.append(m)]: the new child is named by its position. *)
Definition append (classifier : list (string * module)) (m : module)
    : list (string * module) :=
  classifier ++ [(repr_int (len classifier), m)].

(** The loop over [extra_layers] (lines 90-93 and 105-108). *)
Fixpoint add_layers (classifier : list (string * module)) (num_features : Z)
    (extra_layers : list Z) : list (string * module) * Z :=
  match extra_layers with
  | [] => (classifier, num_features)
  | layer :: extra_layers' =>
      let classifier := append classifier (Linear num_features layer true) in
      let classifier := append classifier (ReLU true) in
      add_layers classifier layer extra_layers'
  end.

(** [if extra_layers:] for [None] or a list of integers. *)
Definition layers_of (extra_layers : option (list Z)) : option (list Z) :=
  match extra_layers with
  | Some (layer :: extra_layers') => Some (layer :: extra_layers')
  | _ => None
  end.

(** A head from [num_features] inputs to [num_classes] outputs: [Linear]
    layers whose sizes follow on from one another, with a [ReLU] after each
    but the last. *)
Fixpoint chained (num_features : Z) (head : list module) (num_classes : Z)
    : bool :=
  match head with
  | [Linear i o _] => (i =? num_features) && (o =? num_classes)
  | Linear i o _ :: ReLU _ :: head' =>
      (i =? num_features) && chained o head' num_classes
  | _ => false
  end.

Section GetHubModel.

Context {Optimizer History : Type}.

(** The fields set by the constructors: the name of the model, the
    fine-tuning flag and the entry [classification_layer] of the model's
    configuration, a name alone or a name and an index. *)
Variable _model_name : string.
Variable _do_fine_tuning : pyval.
Variable _classification_layer : string * option Z.

(** The hub download, the optimizer class applied to the parameters of a
    network, and [ipex.optimize] with [dtype=torch.bfloat16] or [None]. *)
Variable _model_downloader : string → outcome net.
Variable _optimizer_class : net → outcome Optimizer.
Variable ipex : net → Optimizer → bool → outcome (net * Optimizer).

Definition set_model (v : option net) (self : @model net Optimizer History)
    : @model net Optimizer History :=
  Model v (_optimizer self) (_num_classes self) (_distributed self)
        (_device self) (_enable_auto_mixed_precision self) (_history self).

Definition set_optimizer (v : option Optimizer)
    (self : @model net Optimizer History) : @model net Optimizer History :=
  Model (_model self) v (_num_classes self) (_distributed self)
        (_device self) (_enable_auto_mixed_precision self) (_history self).

Definition set_num_classes (v : option Z)
    (self : @model net Optimizer History) : @model net Optimizer History :=
  Model (_model self) (_optimizer self) v (_distributed self)
        (_device self) (_enable_auto_mixed_precision self) (_history self).

(** The attribute the new head is stored under. *)
Definition head_attribute : string :=
  match _classification_layer with
  | (_, Some _) => "classifier"
  | (name, None) => name
  end.

(** The layer [num_features] is read from (lines 86-88 and 96-100). *)
Definition old_classifier (m : net) : outcome module :=
  match _classification_layer with
  | (name, Some idx) =>
      match getattr m name with
      | Done base_model => getitem base_model idx
      | Failed e => Failed e
      end
  | (name, None) =>
      match getattr m name with
      | Done classifier =>
          if String.eqb name "heads" then child classifier "head"
          else Done classifier
      | Failed e => Failed e
      end
  end.

(** Lines 84-110, on the network [self._model] refers to: the error
    raised, if any, and the network as the lines leave it. *)
Definition replace_classifier (num_classes : Z)
    (extra_layers : option (list Z)) (m : net) : option error * net :=
  match _classification_layer with
  | (name, Some idx) =>
      match getattr m name with
      | Failed e => (Some e, m)
      | Done base_model =>
          match getitem base_model idx with
          | Failed e => (Some e, m)
          | Done classifier =>
              match getslice base_model 0 idx with
              | Failed e => (Some e, m)
              | Done kept =>
                  let m := <["classifier" := Sequential kept]> m in
                  match in_features classifier with
                  | Failed e => (Some e, m)
                  | Done num_features =>
                      let '(layers, num_features) :=
                        match layers_of extra_layers with
                        | Some extra_layers =>
                            add_layers kept num_features extra_layers
                        | None => (kept, num_features)
                        end in
                      let layers :=
                        append layers (Linear num_features num_classes true) in
                      (None, <["classifier" := Sequential layers]> m)
                  end
              end
          end
      end
  | (name, None) =>
      match getattr m name with
      | Failed e => (Some e, m)
      | Done classifier =>
          match (if String.eqb name "heads"
                 then match child classifier "head" with
                      | Done head => in_features head
                      | Failed e => Failed e
                      end
                 else in_features classifier) with
          | Failed e => (Some e, m)
          | Done num_features =>
              match layers_of extra_layers with
              | Some extra_layers =>
                  let '(layers, num_features) :=
                    add_layers [] num_features extra_layers in
                  let layers :=
                    append layers (Linear num_features num_classes true) in
                  (None, <[name := Sequential layers]> m)
              | None =>
                  let classifier :=
                    Sequential (append [] (Linear num_features num_classes true)) in
                  (None, <[name := classifier]> m)
              end
          end
      end
  end.

(** [_get_hub_model] (lines 76-123): what it returns or raises, and the
    instance after the call. *)
Definition _get_hub_model (num_classes : Z) (ipex_optimize : pyval)
    (extra_layers : option (list Z)) (self : @model net Optimizer History)
    : outcome (net * option Optimizer) * @model net Optimizer History :=
  match _model self with
  | Some m =>
      (Done (m, _optimizer self), set_num_classes (Some num_classes) self)
  | None =>
      match _model_downloader _model_name with
      | Failed e => (Failed e, self)
      | Done m =>
          let m := if negb (truthy _do_fine_tuning) then freeze <$> m else m in
          match replace_classifier num_classes extra_layers m with
          | (Some e, m) => (Failed e, set_model (Some m) self)
          | (None, m) =>
              let self := set_model (Some m) self in
              match _optimizer_class m with
              | Failed e => (Failed e, self)
              | Done o =>
                  let self := set_optimizer (Some o) self in
                  if truthy ipex_optimize && negb (truthy (_distributed self))
                  then
                    let ipex_dtype := truthy (_enable_auto_mixed_precision self) in
                    match ipex m o ipex_dtype with
                    | Failed e => (Failed e, self)
                    | Done (m, o) =>
                        let self := set_optimizer (Some o)
                                      (set_model (Some m) self) in
                        (Done (m, Some o),
                         set_num_classes (Some num_classes) self)
                    end
                  else (Done (m, Some o),
                        set_num_classes (Some num_classes) self)
              end
          end
      end
  end.

(** The network the optimizer class is applied to: the download, frozen
    unless the model is fine-tuned, with its classifier replaced. *)
Definition built (num_classes : Z) (extra_layers : option (list Z))
    (m : net) : Prop :=
  ∃ base,
    _model_downloader _model_name = Done base ∧
    replace_classifier num_classes extra_layers
      (if negb (truthy _do_fine_tuning) then freeze <$> base else base)
      = (None, m).

End GetHubModel.

(** A network with a seven-layer classifier, as the VGG models have, and
    one with a single output layer, as the ResNet models have. *)
Definition example_vgg : net :=
  {[ "features" := Block "Conv2d" true;
     "avgpool" := Block "AdaptiveAvgPool2d" true;
     "classifier" :=
       Sequential [("0", Linear 25088 4096 true); ("1", ReLU true);
                   ("2", Block "Dropout" true); ("3", Linear 4096 4096 true);
                   ("4", ReLU true); ("5", Block "Dropout" true);
                   ("6", Linear 4096 1000 true)] ]}.

Definition example_resnet : net :=
  {[ "layer4" := Block "Bottleneck" true;
     "fc" := Linear 2048 1000 true ]}.

Definition example_hub (name : string) : outcome net :=
  if String.eqb name "vgg11" then Done example_vgg
  else if String.eqb name "resnet50" then Done example_resnet
  else Failed (External (Exn ValueError name)).

Definition example_self : @model net string (list Z) :=
  Model None None None (PyBool false) (PyStr "cpu") PyNone [].

(** A call on a VGG that is not fine-tuned and does not go through IPEX;
    the optimizer class and IPEX are stand-ins. *)
Definition example_get_hub_model (_classification_layer : string * option Z)
    (num_classes : Z) (extra_layers : option (list Z))
    (self : @model net string (list Z))
    : outcome (net * option string) * @model net string (list Z) :=
  _get_hub_model "vgg11" (PyBool false) _classification_layer example_hub
    (λ _, Done "SGD") (λ m o _, Done (m, o))
    num_classes (PyBool false) extra_layers self.

(** The network built for three classes with one extra layer of size 512,
    and the one a configuration that points at a dropout layer leaves. *)
Definition example_built : net :=
  <[ "classifier" :=
       Sequential [("0", Linear 25088 4096 false); ("1", ReLU true);
                   ("2", Block "Dropout" false); ("3", Linear 4096 4096 false);
                   ("4", ReLU true); ("5", Block "Dropout" false);
                   ("6", Linear 4096 512 true); ("7", ReLU true);
                   ("8", Linear 512 3 true)] ]> (freeze <$> example_vgg).

Definition example_half_built : net :=
  <[ "classifier" :=
       Sequential [("0", Linear 25088 4096 false); ("1", ReLU true)] ]>
    (freeze <$> example_vgg).

(** The instance after each of the two calls. *)
Definition example_after : @model net string (list Z) :=
  Model (Some example_built) (Some "SGD") (Some 3) (PyBool false)
        (PyStr "cpu") PyNone [].

Definition example_after_failure : @model net string (list Z) :=
  Model (Some example_half_built) None None (PyBool false)
        (PyStr "cpu") PyNone [].

End HubModel.

(* ================================================================== *)
(** ** Stand-ins for concrete runs                                     *)
(* ================================================================== *)

Module StandIn.
Import DataUtils.

(** A stand-in system for concrete runs: a fixed table from folders to
    listings; creating folders and copying always succeed. *)
Definition table_listdir (tree : fdict) (path : string) (w : unit)
    : result (list string) * unit :=
  match dict_get path tree with
  | Some names => (Ok names, w)
  | None => (Raise (Exn FileNotFoundError path), w)
  end.

Definition table_makedirs (path : string) (w : unit) : result unit * unit :=
  (Ok (), w).

Definition table_copy2 (src tgt : string) (w : unit) : result unit * unit :=
  (Ok (), w).

(** A stand-in split that keeps the order: the last fifth (rounded up) is
    the test part, and an empty train part is an error. *)
Definition ordered_split (keys : list string) (test_size : float)
    (random_state : Z) : result (list string * list string) :=
  let n_test := Z.to_nat ((len keys + 4) / 5) in
  let n_train := (length keys - n_test)%nat in
  if decide (n_train = 0%nat)
  then Raise (Exn ValueError "the resulting train set will be empty")
  else Ok (take n_train keys, drop n_train keys).

Definition example_tree : fdict :=
  [("data", ["Benign"; "Malignant"]);
   ("data/Benign", ["P2_R_DM_CC.jpg"; "P1_L_CM_MLO.jpg"; "P3_L_CM_CC.jpg";
                    "P1_L_DM_MLO.jpg"; "P2_R_CM_CC.jpg"]);
   ("data/Malignant", ["P4_R_CM_CC.jpg"; "P5_L_CM_MLO.jpg"; "P4_R_DM_CC.jpg"])].

(** Two files of one subject id under two grouping keys, and one grouping
    key under two labels. *)
Definition leak_tree : fdict :=
  [("data", ["Benign"; "Malignant"]);
   ("data/Benign", ["P1_23_x.jpg"; "P12_3_x.jpg"]);
   ("data/Malignant", ["P2_L_y.jpg"; "P1_23_y.jpg"])].

Definition example_run : result unit * @sys unit :=
  split_images (table_listdir example_tree) table_makedirs table_copy2
               ordered_split "data" "out" (Sys () [] []).

(** The state the example run ends in. *)
Definition example_final : @sys unit := Eval vm_compute in example_run.2.

(** A table read from the annotation file, and the image folders. *)
Definition example_table : list row :=
  [Row "Malignant" "irregular mass" "1L";
   Row "Benign" "no change" "1L";
   Row "Benign" "clear" "2R";
   Row "Benign" "cyst" "9X"].

Definition example_images : fdict :=
  [("images", ["Benign"; "Malignant"]);
   ("images/Benign", ["P2_R_DM_CC.jpg"]);
   ("images/Malignant", ["P1_L_CM_MLO.jpg"; "P1_L_DM_MLO.jpg"])].

Definition table_read_csv (df : list row) (path : string) (w : unit)
    : result (list row) * unit := (Ok df, w).

Definition example_read (patient_id_list : option (list string))
    : result (list row * gmap string nat * gmap nat string) * @sys unit :=
  read_annotation_file (table_listdir example_images)
    (table_read_csv example_table)
    "annotation" "annotation.csv" patient_id_list "images" (Sys () [] []).

Definition rows_of {A B} (r : result (list row * A * B)) : option (list row) :=
  match r with Ok (rows, _, _) => Some rows | Raise _ => None end.

(** What the two reads of [example_table] return. *)
Definition example_rows_inference : list row :=
  [Row "Normal" "irregular mass no change" "1L"; Row "Benign" "clear" "2R"].

Definition example_rows_training : list row := [Row "Benign" "clear" "2R"].

Definition example_maps : gmap string nat * gmap nat string :=
  label2map (label_of <$> example_table).

(** A table with one row per visit, and image folders under an absolute
    path. *)
Definition example_visits : list row :=
  [Row "Malignant" "irregular mass" "1L";
   Row "Malignant" "growth" "1L";
   Row "Benign" "clear" "2R";
   Row "Benign" "cyst" "3L";
   Row "Malignant" "spiculated" "4R";
   Row "Benign" "none" "9X"].

Definition example_abs_images : fdict :=
  [("/images", ["Benign"; "Malignant"]);
   ("/images/Benign", ["P2_R_DM_CC.jpg"; "P3_L_CM_CC.jpg"]);
   ("/images/Malignant",
    ["P1_L_CM_MLO.jpg"; "P1_L_DM_MLO.jpg"; "P4_R_CM_CC.jpg"])].

Definition example_train_frame : list row :=
  [Row "Malignant" "irregular mass growth" "1L";
   Row "Benign" "clear" "2R";
   Row "Benign" "cyst" "3L"].

(** A dictionary of two subjects, for [copy_files_src_to_tgt]. *)
Definition example_dict : fdict :=
  [("P1_L", ["P1_L_CM_MLO.jpg"; "P1_L_DM_MLO.jpg"]); ("P2_R", ["P2_R_CM_CC.jpg"])].

End StandIn.

(* ================================================================== *)
(** ** [tf_model.py]: [export] and [set_auto_mixed_precision]          *)
(* ================================================================== *)

Module TFModel.
Import DataUtils StandIn.

Section SavedModel.

Context {World KerasModel : Type}.

(** [verify_directory] and [validate_model_name] of the toolkit's file
    utilities, the file system, and [model.save]. *)
Variable verify_directory : string → World → result unit * World.
Variable validate_model_name : string → result string.
Variable os_path_exists : string → World → bool.
Variable os_listdir : string → World → result (list string) * World.
Variable save : KerasModel → string → World → result unit * World.

Local Notation "'let*' x ':=' m 'in' k" := (bind m (λ x, k))
  (at level 10, x pattern, m at level 100, k at level 200).

Definition path_exists (path : string) : @IO World bool := λ s,
  (Ok (os_path_exists path (os_state s)), s).

(** [export] (lines 136-168). *)
Definition export (_model : option KerasModel) (model_name output_dir : string)
    : @IO World string :=
  match _model with
  | Some model =>
      let* _ := lift_os (verify_directory output_dir) in
      let* val_model_name := lift_pure (validate_model_name model_name) in
      let saved_model_dir := path_join output_dir val_model_name in
      let* found := path_exists saved_model_dir in
      let* used :=
        if found
        then let* entries := listdir os_listdir saved_model_dir in
             ret (negb (len entries =? 0))
        else ret false in
      let* saved_model_dir :=
        if used
        then let* entries := listdir os_listdir saved_model_dir in
             ret (path_join saved_model_dir (repr_int (len entries + 1)))
        else ret (path_join saved_model_dir "1") in
      let* _ := lift_os (save model saved_model_dir) in
      let* _ := print [PyStr "Saved model directory:"; PyStr saved_model_dir] in
      ret saved_model_dir
  | None =>
      raise (Exn ValueError
        "Unable to export the model, because it hasn't been loaded or trained yet")
  end.

End SavedModel.

(** *** [set_auto_mixed_precision] *)

Section MixedPrecision.

(** [tf.version.VERSION], [int(s)] on a string, and
    [PlatformUtil(args=None).cpu_type], which may raise. *)
Variable VERSION : option string.
Variable int_of_str : string → result Z.
Variable cpu_type : result string.

(** What a call leaves behind: the argument tuples handed to [print] and
    the dictionaries handed to
    [tf.config.optimizer.set_experimental_options]. *)
Record tf_state := TFState {
  tf_printed : list (list pyval);
  tf_options : list (list (string * pyval))
}.

Definition tf_print (args : list pyval) (st : tf_state) : tf_state :=
  TFState (tf_printed st ++ [args]) (tf_options st).

Definition set_experimental_options (options : list (string * pyval))
    (st : tf_state) : tf_state :=
  TFState (tf_printed st) (tf_options st ++ [options]).

Definition isinstance_bool (v : pyval) : bool :=
  match v with PyBool _ => true | _ => false end.

(** Lines 108-115: the major and minor version, [0] and [0] when the
    version has no dot. *)
Definition tf_version : result (Z * Z) :=
  match VERSION with
  | Some version =>
      if str_contains "." version
      then
        let tf_version_list := str_split "." version in
        if 1 <? len tf_version_list
        then
          match int_of_str (default "" (tf_version_list !! 0%nat)) with
          | Raise e => Raise e
          | Ok tf_major_version =>
              match int_of_str (default "" (tf_version_list !! 1%nat)) with
              | Raise e => Raise e
              | Ok tf_minor_version => Ok (tf_major_version, tf_minor_version)
              end
          end
        else Ok (0, 0)
      else Ok (0, 0)
  | None => Ok (0, 0)
  end.

Definition msg_version : string :=
  "Warning: Auto mixed precision requires TensorFlow 2.9.0 or later (found "
    +:+ default "None" VERSION +:+ ").".

(** [set_auto_mixed_precision] (lines 97-134). *)
Definition set_auto_mixed_precision (enable_auto_mixed_precision : pyval)
    (st : tf_state) : result unit * tf_state :=
  if negb (is_none enable_auto_mixed_precision)
     && negb (isinstance_bool enable_auto_mixed_precision)
  then (Raise (Exn TypeError
          "Invalid type for enable_auto_mixed_precision. Expected None or a bool."),
        st)
  else
    match tf_version with
    | Raise e => (Raise e, st)
    | Ok (tf_major_version, tf_minor_version) =>
        let auto_mixed_precision_supported :=
          (tf_major_version =? 2) && (9 <=? tf_minor_version)
          || (2 <? tf_major_version) in
        let '(enable_auto_mixed_precision, st) :=
          if is_none enable_auto_mixed_precision
          then match cpu_type with
               | Ok t => (PyBool (String.eqb t "SPR"), st)
               | Raise e =>
                   (PyBool false,
                    if auto_mixed_precision_supported
                    then tf_print [PyStr "Unable to determine the CPU type:";
                                   PyStr (exn_msg e)] st
                    else st)
               end
          else if negb auto_mixed_precision_supported
          then (enable_auto_mixed_precision, tf_print [PyStr msg_version] st)
          else (enable_auto_mixed_precision, st) in
        if auto_mixed_precision_supported
        then
          let st :=
            if truthy enable_auto_mixed_precision
            then tf_print [PyStr "Enabling auto_mixed_precision_mkl"] st
            else st in
          (Ok (), set_experimental_options
                    [("auto_mixed_precision_mkl", enable_auto_mixed_precision)] st)
        else (Ok (), st)
    end.

End MixedPrecision.

(** A model exported twice before, in the table of a stand-in system. *)
Definition example_exports : fdict := [("out/resnet_v1_50", ["1"; "2"])].

Definition example_export : result string * @sys unit :=
  export (λ _ w, (Ok (), w)) Ok
         (λ path _, bool_decide (is_Some (dict_get path example_exports)))
         (table_listdir example_exports) (λ _ _ w, (Ok (), w))
         (Some ()) "resnet_v1_50" "out" (Sys () [] []).

End TFModel.

(* ------------------------------------------------------------------ *)
(** *** Ranges and slices                                               *)
(* ------------------------------------------------------------------ *)

Module PyFacts.

Lemma len_nonneg {A} (l : list A) : 0 ≤ len l.
Proof. unfold len. lia. Qed.

Lemma len_app {A} (l k : list A) : len (l ++ k) = len l + len k.
Proof. unfold len. rewrite length_app. lia. Qed.

Lemma len_range a b : len (range a b) = Z.max 0 (b - a).
Proof. unfold len, range. rewrite length_fmap, length_seq. lia. Qed.

Lemma elem_of_range a b i : i ∈ range a b ↔ a ≤ i < b.
Proof.
  unfold range. rewrite list_elem_of_fmap. split.
  - intros (k & -> & Hk). apply elem_of_seq in Hk. lia.
  - intros Hi. exists (Z.to_nat (i - a)). split; [lia|].
    apply elem_of_seq. lia.
Qed.

Lemma NoDup_range a b : NoDup (range a b).
Proof.
  unfold range. apply NoDup_fmap_2; [|apply NoDup_seq].
  intros x y Hxy. lia.
Qed.

Lemma slice_bound_inside {A} (l : list A) i :
  0 ≤ i ≤ len l → slice_bound l i = Z.to_nat i.
Proof.
  intros Hi. unfold slice_bound.
  destruct (Z.ltb_spec i 0); [lia|]. f_equal. lia.
Qed.

Lemma slice_inside {A} (l : list A) a b :
  0 ≤ a ≤ b → b ≤ len l →
  slice l a b = take (Z.to_nat b - Z.to_nat a) (drop (Z.to_nat a) l).
Proof.
  intros Ha Hb. unfold slice.
  rewrite !slice_bound_inside by lia. done.
Qed.

Lemma len_slice {A} (l : list A) a b :
  0 ≤ a ≤ b → b ≤ len l → len (slice l a b) = b - a.
Proof.
  intros Ha Hb. rewrite slice_inside by done.
  unfold len in *. rewrite length_take, length_drop. lia.
Qed.

Lemma slice_app {A} (l : list A) a b c :
  0 ≤ a ≤ b → b ≤ c → c ≤ len l →
  slice l a b ++ slice l b c = slice l a c.
Proof.
  intros Ha Hb Hc. rewrite !slice_inside by lia.
  replace (drop (Z.to_nat b) l)
    with (drop (Z.to_nat b - Z.to_nat a) (drop (Z.to_nat a) l)).
  - rewrite take_take_drop. f_equal. lia.
  - rewrite drop_drop. f_equal. lia.
Qed.

Lemma slice_all {A} (l : list A) : slice l 0 (len l) = l.
Proof.
  rewrite slice_inside by (pose proof (len_nonneg l); lia).
  simpl. rewrite Nat.sub_0_r. apply firstn_all2. unfold len. lia.
Qed.

(** On floats, [1 < s] excludes [s <= 1]. *)
Lemma float_gt_one_not_le (s : float) :
  PrimFloat.ltb 1%float s = true → PrimFloat.leb s 1%float = false.
Proof.
  rewrite FloatAxioms.ltb_spec, FloatAxioms.leb_spec.
  change (Prim2SF 1%float) with (S754_finite false 4503599627370496 (-52)).
  unfold SFltb, SFleb, SFcompare.
  destruct (Prim2SF s) as [sg|sg| |sg m e]; try destruct sg; try done.
  rewrite (Z.compare_antisym e (-52)).
  destruct (e ?= -52); cbv [CompOpp]; try done.
  change (PosDef.Pos.compare_cont Eq 4503599627370496 m)
    with (Pos.compare_cont Eq 4503599627370496 m).
  rewrite (ZC4 4503599627370496 m).
  change (PosDef.Pos.compare_cont Eq m 4503599627370496)
    with (Pos.compare_cont Eq m 4503599627370496).
  destruct (Pos.compare_cont Eq m 4503599627370496); cbv [CompOpp]; done.
Qed.

End PyFacts.

(* ------------------------------------------------------------------ *)
(** *** The partition engine and the guard                              *)
(* ------------------------------------------------------------------ *)

Module DatasetFacts.
Import Dataset PyFacts.

Section Calls.

Variable randperm : option Z → Z → list Z.

(** A call with three floats whose sum is at most one and whose sizes are
    finite takes the partitioning branch. *)
Lemma shuffle_split_ok d tr va te seed ntr nva nte :
  PrimFloat.leb (tr + va + te)%float 1%float = true →
  int_of_float (tr * float_of_int (_dataset_len d))%float = Some ntr →
  int_of_float (va * float_of_int (_dataset_len d))%float = Some nva →
  int_of_float (te * float_of_int (_dataset_len d))%float = Some nte →
  shuffle_split randperm (PyFloat tr) (PyFloat va) (PyFloat te) seed d =
    (Ok (),
     set_partition
       (Some (slice (randperm seed (_dataset_len d)) 0 ntr))
       (Some (slice (randperm seed (_dataset_len d)) ntr (ntr + nva)))
       (if truthy (PyFloat te)
        then Some (slice (randperm seed (_dataset_len d)) (ntr + nva) (ntr + nva + nte))
        else _test_indices d)
       ShuffleSplit d).
Proof.
  intros Hsum Htr Hva Hte. unfold shuffle_split.
  rewrite Hsum, Htr, Hva, Hte. reflexivity.
Qed.

(** The run of the unit test [test_defined_split]. *)
Lemma defined_split_run :
  shuffle_split randperm (PyFloat 0.6) (PyFloat 0.2) (PyFloat 0.2) (Some 10)
                (defined_split 60000 50000) =
    (Ok (),
     set_partition
       (Some (slice (randperm (Some 10) 60000) 0 36000))
       (Some (slice (randperm (Some 10) 60000) 36000 48000))
       (Some (slice (randperm (Some 10) 60000) 48000 60000))
       ShuffleSplit (defined_split 60000 50000)).
Proof.
  rewrite (shuffle_split_ok _ _ _ _ _ 36000 12000 12000).
  - reflexivity.
  - vm_compute. reflexivity.
  - cbn [_dataset_len defined_split]. vm_compute. reflexivity.
  - cbn [_dataset_len defined_split]. vm_compute. reflexivity.
  - cbn [_dataset_len defined_split]. vm_compute. reflexivity.
Qed.

Lemma shuffle_split_preprocessed tr va te seed d :
  _preprocessed (shuffle_split randperm tr va te seed d).2 = _preprocessed d.
Proof.
  unfold shuffle_split.
  destruct tr, va, te; try reflexivity.
  destruct (negb _); [reflexivity|].
  repeat (destruct (int_of_float _); try reflexivity).
Qed.

Lemma preprocess_locked i b d cfg :
  _preprocessed d = Some cfg →
  preprocess i b d = (Raise (Exn StateError (msg_preprocessed cfg)), d).
Proof. intros H. unfold preprocess. rewrite H. reflexivity. Qed.

Lemma run_calls_locked cs d cfg :
  _preprocessed d = Some cfg →
  _preprocessed (run_calls randperm cs d) = Some cfg.
Proof.
  revert d. induction cs as [|c cs IH]; intros d Hd; [exact Hd|].
  unfold run_calls. cbn [foldl]. apply IH.
  destruct c as [i b|tr va te seed]; cbn [run_call].
  - rewrite (preprocess_locked _ _ _ _ Hd). exact Hd.
  - rewrite shuffle_split_preprocessed. exact Hd.
Qed.

(** C2.  A call to [shuffle_split] in which one of the three percentages is
    not a float raises with the message "Percentage arguments must be
    floats."; a call with three floats whose sum exceeds 1.0 raises with the
    message "Sum of percentage arguments must be less than or equal to 1.";
    either way the dataset is left exactly as it was. *)
Theorem shuffle_split_rejects_bad_percentages
    (train_pct val_pct test_pct : pyval) (seed : option Z) (d : dataset) :
  (isinstance_float train_pct && isinstance_float val_pct
     && isinstance_float test_pct = false →
   ∃ e, shuffle_split randperm train_pct val_pct test_pct seed d = (Raise e, d) ∧
        exn_msg e = "Percentage arguments must be floats.") ∧
  (∀ a b c : float,
     train_pct = PyFloat a → val_pct = PyFloat b → test_pct = PyFloat c →
     PrimFloat.ltb 1%float (a + b + c)%float = true →
     ∃ e, shuffle_split randperm train_pct val_pct test_pct seed d = (Raise e, d) ∧
          exn_msg e = "Sum of percentage arguments must be less than or equal to 1.").
Proof.
  split.
  - intros Hty. exists (Exn TypeError msg_floats). split; [|reflexivity].
    unfold shuffle_split.
    destruct train_pct, val_pct, test_pct; try reflexivity; discriminate Hty.
  - intros a b c -> -> -> Hsum.
    exists (Exn ValueError msg_sum). split; [|reflexivity].
    unfold shuffle_split. rewrite (float_gt_one_not_le _ Hsum). reflexivity.
Qed.

(** C3.  Once a [preprocess] call has succeeded, its two arguments are the
    recorded configuration; whatever calls follow, the recorded
    configuration stays the same, and every later [preprocess], with any
    arguments, raises with the message "Data has already been preprocessed: "
    followed by that configuration, leaving the state as it was. *)
Theorem preprocess_single_use (i b : pyval) (d d1 : dataset) :
  preprocess i b d = (Ok (), d1) →
  ∃ cfg,
    i = PyInt (image_size cfg) ∧ b = PyInt (batch_size cfg) ∧
    _preprocessed d1 = Some cfg ∧
    ∀ (cs : list call) (i' b' : pyval),
      _preprocessed (run_calls randperm cs d1) = Some cfg ∧
      ∃ e, preprocess i' b' (run_calls randperm cs d1)
             = (Raise e, run_calls randperm cs d1) ∧
           exn_msg e = "Data has already been preprocessed: "
                         +:+ repr_preprocessing cfg.
Proof.
  unfold preprocess at 1.
  destruct (_preprocessed d) eqn:Hd; [discriminate|].
  destruct i as [| |iz| | |]; try (destruct b; discriminate).
  destruct b as [| |bz| | |]; try discriminate.
  destruct (iz <? 1); [discriminate|].
  destruct (bz <? 1); [discriminate|].
  intros [= <-]. exists (Preprocessing iz bz).
  repeat split; try reflexivity.
  - apply run_calls_locked. reflexivity.
  - exists (Exn StateError (msg_preprocessed (Preprocessing iz bz))).
    split; [|reflexivity].
    apply preprocess_locked, run_calls_locked. reflexivity.
Qed.

End Calls.

Section Partition.

Variable randperm : option Z → Z → list Z.
Hypothesis randperm_perm : is_randperm randperm.

Lemma len_randperm seed n : 0 ≤ n → len (randperm seed n) = n.
Proof.
  intros Hn. unfold len. rewrite (Permutation_length (randperm_perm seed n)).
  fold (len (range 0 n)). rewrite len_range. lia.
Qed.

(** The three slices of the example put together are the whole shuffle. *)
Lemma defined_split_slices :
  slice (randperm (Some 10) 60000) 0 36000 ++
  slice (randperm (Some 10) 60000) 36000 48000 ++
  slice (randperm (Some 10) 60000) 48000 60000 = randperm (Some 10) 60000.
Proof.
  pose proof (len_randperm (Some 10) 60000 ltac:(lia)) as Hlen.
  rewrite slice_app by lia. rewrite slice_app by lia.
  rewrite <- Hlen at 2. apply slice_all.
Qed.

(** C1 (as amended).  On a 60000-sample dataset defined as 50000 train and
    10000 test indices, [shuffle_split(.6, .2, .2, seed=10)] succeeds and
    yields 36000 train, 12000 validation and 12000 test indices, free of
    repetitions and pairwise disjoint; together they are a rearrangement of
    the whole index range [0 .. 59999], so every index of the former test
    range is reassigned; the validation type goes from ['defined_split'] to
    ['shuffle_split'] and the preprocessing state is untouched. *)
Theorem shuffle_split_after_defined_split :
  ∃ d1 tr va te,
    shuffle_split randperm (PyFloat 0.6) (PyFloat 0.2) (PyFloat 0.2) (Some 10)
                  (defined_split 60000 50000) = (Ok (), d1) ∧
    _train_indices d1 = Some tr ∧ _validation_indices d1 = Some va ∧
    _test_indices d1 = Some te ∧
    len tr = 36000 ∧ len va = 12000 ∧ len te = 12000 ∧
    NoDup tr ∧ NoDup va ∧ NoDup te ∧ pairwise_disjoint tr va te ∧
    tr ++ va ++ te ≡ₚ range 0 60000 ∧
    (∀ i, i ∈ range 50000 60000 → i ∈ tr ++ va ++ te) ∧
    _validation_type (defined_split 60000 50000) = DefinedSplit ∧
    _validation_type d1 = ShuffleSplit ∧
    _preprocessed d1 = _preprocessed (defined_split 60000 50000).
Proof.
  pose proof (len_randperm (Some 10) 60000 ltac:(lia)) as Hlen.
  pose proof defined_split_slices as Hcover.
  pose proof (randperm_perm (Some 10) 60000) as Hperm.
  set (idx := randperm (Some 10) 60000) in *.
  assert (NoDup (slice idx 0 36000 ++ slice idx 36000 48000
                   ++ slice idx 48000 60000)) as Hnd.
  { rewrite Hcover, Hperm. apply NoDup_range. }
  apply NoDup_app in Hnd as (Htr & Hdis1 & Hnd).
  apply NoDup_app in Hnd as (Hva & Hdis2 & Hte).
  eexists _, _, _, _. split; [apply defined_split_run|].
  fold idx. cbn [set_partition _train_indices _validation_indices
                 _test_indices _validation_type _preprocessed defined_split].
  repeat split; try done.
  - rewrite len_slice; lia.
  - rewrite len_slice; lia.
  - rewrite len_slice; lia.
  - intros i Hi Hi'. apply (Hdis1 i Hi). apply elem_of_app. by left.
  - intros i Hi Hi'. apply (Hdis1 i Hi). apply elem_of_app. by right.
  - by rewrite Hcover.
  - intros i Hi. rewrite Hcover, Hperm. apply elem_of_range.
    apply elem_of_range in Hi. lia.
Qed.

End Partition.

Lemma identity_perm_is_randperm : is_randperm identity_perm.
Proof. intros seed n. reflexivity. Qed.

(** C1, witness: the stand-in generator meets the contract, and the call of
    the example then succeeds with the sizes of the unit test. *)
Lemma shuffle_split_after_defined_split_witness :
  is_randperm identity_perm ∧
  ∃ d1 tr va te,
    shuffle_split identity_perm (PyFloat 0.6) (PyFloat 0.2) (PyFloat 0.2)
                  (Some 10) (defined_split 60000 50000) = (Ok (), d1) ∧
    _train_indices d1 = Some tr ∧ _validation_indices d1 = Some va ∧
    _test_indices d1 = Some te ∧
    len tr = 36000 ∧ len va = 12000 ∧ len te = 12000.
Proof.
  split; [exact identity_perm_is_randperm|].
  destruct (shuffle_split_after_defined_split identity_perm
              identity_perm_is_randperm)
    as (d1 & tr & va & te & H1 & H2 & H3 & H4 & H5 & H6 & H7 & _).
  exists d1, tr, va, te. repeat split; assumption.
Defined.

(** Three pairwise disjoint index lists of 36000, 12000 and 12000 distinct
    indices do not fit in a range of 50000. *)
Lemma train_range_too_small (tr va te : list Z) :
  len tr = 36000 → len va = 12000 → len te = 12000 →
  NoDup tr → NoDup va → NoDup te → pairwise_disjoint tr va te →
  ¬ ∀ i, i ∈ tr ++ va ++ te → i ∈ range 0 50000.
Proof.
  intros Htr Hva Hte Ntr Nva Nte (D1 & D2 & D3) Hin.
  assert (NoDup (tr ++ va ++ te)) as Hnd.
  { apply NoDup_app. split_and!; [done| |].
    - intros i Hi [?|?]%elem_of_app; [by apply (D1 i)|by apply (D2 i)].
    - apply NoDup_app. split_and!; done. }
  pose proof (submseteq_length _ _ (NoDup_submseteq _ _ Hnd Hin)) as Hle.
  pose proof (len_range 0 50000) as Hr.
  unfold len in *. rewrite !length_app in Hle. lia.
Qed.

(** C1, as stated, fails.  No permutation of the 60000 indices lets 36000 +
    12000 + 12000 pairwise disjoint indices all come from the 50000 indices
    of the former train range: index 59999 is one that must be reassigned,
    and the sizes alone exclude it, whatever the three lists are. *)
Lemma repartition_within_train_range_impossible :
  is_randperm identity_perm ∧
  (¬ ∃ randperm, is_randperm randperm ∧ repartition_within_train_range randperm) ∧
  (¬ ∃ tr va te : list Z,
       len tr = 36000 ∧ len va = 12000 ∧ len te = 12000 ∧
       NoDup tr ∧ NoDup va ∧ NoDup te ∧ pairwise_disjoint tr va te ∧
       ∀ i, i ∈ tr ++ va ++ te → i ∈ range 0 50000).
Proof.
  split; [exact identity_perm_is_randperm|]. split; cycle 1.
  { intros (tr & va & te & H1 & H2 & H3 & H4 & H5 & H6 & H7 & H8).
    by apply (train_range_too_small tr va te). }
  intros (randperm & Hperm & d1 & tr & va & te & Hrun & Htr & Hva & Hte & Hrest).
  destruct Hrest as (_ & _ & _ & _ & _ & _ & _ & Hin & _).
  rewrite defined_split_run in Hrun. injection Hrun as <-.
  cbn [set_partition _train_indices _validation_indices _test_indices] in *.
  injection Htr as <-. injection Hva as <-. injection Hte as <-.
  rewrite (defined_split_slices _ Hperm) in Hin.
  specialize (Hin 59999).
  rewrite (Hperm (Some 10) 60000) in Hin.
  rewrite !elem_of_range in Hin. lia.
Qed.

(** C2, witness: the two calls of [test_shuffle_split_errors]. *)
Lemma shuffle_split_rejects_bad_percentages_witness :
  (∃ e, shuffle_split identity_perm (PyFloat 0.5) (PyFloat 0.5) (PyFloat 0.2)
                      None (init 150) = (Raise e, init 150) ∧
        exn_msg e = "Sum of percentage arguments must be less than or equal to 1.") ∧
  (∃ e, shuffle_split identity_perm (PyInt 1) (PyInt 0) (PyFloat 0)
                      None (init 150) = (Raise e, init 150) ∧
        exn_msg e = "Percentage arguments must be floats.").
Proof.
  split.
  - apply (proj2 (shuffle_split_rejects_bad_percentages identity_perm
                    (PyFloat 0.5) (PyFloat 0.5) (PyFloat 0.2) None (init 150))
             0.5%float 0.5%float 0.2%float); reflexivity.
  - apply (proj1 (shuffle_split_rejects_bad_percentages identity_perm
                    (PyInt 1) (PyInt 0) (PyFloat 0) None (init 150))).
    reflexivity.
Defined.

(** C3, witness: the calls of [test_preprocessing]: [preprocess(224, 8)]
    succeeds on a fresh dataset, and [preprocess(324, 32)], after a
    [shuffle_split], is rejected with the first configuration in the
    message. *)
Lemma preprocess_single_use_witness :
  preprocess (PyInt 224) (PyInt 8) (init 150)
    = (Ok (), set_preprocessed (Some (Preprocessing 224 8)) (init 150)) ∧
  ∃ cfg,
    _preprocessed (set_preprocessed (Some (Preprocessing 224 8)) (init 150))
      = Some cfg ∧
    ∃ e d2,
      preprocess (PyInt 324) (PyInt 32) d2 = (Raise e, d2) ∧
      exn_msg e = "Data has already been preprocessed: "
                    +:+ repr_preprocessing cfg ∧
      repr_preprocessing cfg = "{'image_size': 224, 'batch_size': 8}".
Proof.
  assert (preprocess (PyInt 224) (PyInt 8) (init 150)
    = (Ok (), set_preprocessed (Some (Preprocessing 224 8)) (init 150))) as Hrun
    by reflexivity.
  split; [exact Hrun|].
  destruct (preprocess_single_use identity_perm _ _ _ _ Hrun)
    as (cfg & Hi & Hb & Hcfg & Hlater).
  exists cfg. split; [exact Hcfg|].
  destruct (Hlater [CallShuffleSplit (PyFloat 0.75) (PyFloat 0.25) (PyFloat 0) (Some 10)]
              (PyInt 324) (PyInt 32)) as (_ & e & He & Hmsg).
  eexists e, _. split; [exact He|]. split; [exact Hmsg|].
  injection Hi as Hi. injection Hb as Hb.
  destruct cfg as [ci cb]. cbn in Hi, Hb. subst ci cb. reflexivity.
Defined.

End DatasetFacts.

(* ------------------------------------------------------------------ *)
(** *** Subject keys                                                    *)
(* ------------------------------------------------------------------ *)

Module SubjectKeys.
Import DataUtils.

Lemma append_nil s : "" +:+ s = s.
Proof. reflexivity. Qed.

Lemma append_cons c t s : String c t +:+ s = String c (t +:+ s).
Proof. reflexivity. Qed.

Lemma str_split_nonempty sep s : str_split sep s ≠ [].
Proof.
  destruct s as [|c s]; cbn; [done|].
  destruct (Ascii.eqb c sep); [done|]. by destruct (str_split sep s).
Qed.

(** A string without the separator is its own single token. *)
Lemma str_split_none sep s :
  str_contains sep s = false → str_split sep s = [s].
Proof.
  induction s as [|c s IH]; cbn; [done|].
  destruct (Ascii.eqb c sep); cbn; [done|].
  intros Hs. by rewrite IH.
Qed.

(** A token, the separator, and the rest. *)
Lemma str_split_app sep t s :
  str_contains sep t = false →
  str_split sep (t +:+ String sep s) = t :: str_split sep s.
Proof.
  induction t as [|c t IH].
  - rewrite append_nil. cbn [str_split]. by rewrite Ascii.eqb_refl.
  - rewrite append_cons. cbn [str_split str_contains].
    destruct (Ascii.eqb c sep); cbn [orb]; [done|].
    intros Ht. by rewrite IH.
Qed.

(** No token holds the separator, nor a character the string lacks. *)
Lemma str_split_tokens sep c s :
  (c = sep ∨ str_contains c s = false) →
  Forall (λ t, str_contains c t = false) (str_split sep s).
Proof.
  intros Hc. induction s as [|x s IH]; cbn.
  - by repeat constructor.
  - destruct (Ascii.eqb_spec x sep) as [->|Hx].
    + constructor; [done|]. apply IH.
      destruct Hc as [->|Hc]; [by left|right].
      cbn in Hc. by apply orb_false_elim in Hc as [_ ?].
    + assert (Ascii.eqb x c = false ∧
              (c = sep ∨ str_contains c s = false)) as [Hxc Hc'].
      { destruct Hc as [->|Hc].
        - split; [by apply Ascii.eqb_neq|by left].
        - cbn in Hc. apply orb_false_elim in Hc as [? ?]. by split; [|right]. }
      specialize (IH Hc').
      destruct (str_split sep s) as [|t ts]; cbn.
      * repeat constructor. cbn. by rewrite Hxc.
      * inversion IH; subst. constructor; [|done]. cbn. by rewrite Hxc.
Qed.

Lemma str_contains_app c s t :
  str_contains c (s +:+ t) = str_contains c s || str_contains c t.
Proof.
  induction s as [|x s IH]; [done|].
  rewrite append_cons. cbn [str_contains]. by rewrite IH, orb_assoc.
Qed.

(** Joining tokens and splitting again gives the tokens back. *)
Lemma str_split_join sep l :
  l ≠ [] → Forall (λ t, str_contains sep t = false) l →
  str_split sep (str_join (String sep "") l) = l.
Proof.
  induction l as [|t l IH]; [done|]. intros _ Hl.
  inversion Hl as [|? ? Ht Hl']; subst. cbn [str_join].
  destruct l as [|t' l]; [by apply str_split_none|].
  change (t +:+ String sep "" +:+ str_join (String sep "") (t' :: l))
    with (t +:+ String sep (str_join (String sep "") (t' :: l))).
  rewrite str_split_app by done. f_equal. by apply IH.
Qed.

Lemma str_contains_join c sep l :
  str_contains c sep = false → Forall (λ t, str_contains c t = false) l →
  str_contains c (str_join sep l) = false.
Proof.
  intros Hsep. induction l as [|t l IH]; [done|]. intros Hl.
  inversion Hl as [|? ? Ht Hl']; subst. cbn [str_join].
  destruct l as [|t' l]; [done|].
  rewrite !str_contains_app, Ht, Hsep. cbn. by apply IH.
Qed.

(** Without a directory part, [get_subject_id] works on the name itself. *)
Lemma get_subject_id_plain f :
  str_contains "/" f = false →
  get_subject_id f = str_tail (str_join "" (take 2 (str_split "_" f))).
Proof.
  intros Hf. unfold get_subject_id.
  rewrite (str_split_none "/" f Hf). reflexivity.
Qed.

(** The grouping key keeps the first two tokens recoverable. *)
Lemma fns_root_of_tokens f :
  take 2 (str_split "_" (fns_root_of f)) = take 2 (str_split "_" f).
Proof.
  unfold fns_root_of.
  rewrite (str_split_join "_"%char).
  - by rewrite take_take.
  - pose proof (str_split_nonempty "_" f).
    by destruct (str_split "_" f).
  - apply Forall_take, str_split_tokens. by left.
Qed.

Lemma fns_root_of_plain f :
  str_contains "/" f = false → str_contains "/" (fns_root_of f) = false.
Proof.
  intros Hf. unfold fns_root_of. apply str_contains_join; [done|].
  apply Forall_take, str_split_tokens. by right.
Qed.

(** C6 (as amended).  For a file name without a directory part,
    [get_subject_id] is the concatenation of the first two ['_']-separated
    tokens with its first character removed, while [split_images] groups by
    the first two tokens joined with ['_'], nothing removed.  The subject id
    is a function of the grouping key, so files grouped together share their
    subject id. *)
Theorem subject_id_from_grouping_key (f g : string) :
  str_contains "/" f = false → str_contains "/" g = false →
  get_subject_id f = str_tail (str_join "" (take 2 (str_split "_" f))) ∧
  fns_root [f] = [str_join "_" (take 2 (str_split "_" f))] ∧
  get_subject_id f = get_subject_id (fns_root_of f) ∧
  (fns_root_of f = fns_root_of g → get_subject_id f = get_subject_id g).
Proof.
  intros Hf Hg.
  assert (∀ x, str_contains "/" x = false →
               get_subject_id x = get_subject_id (fns_root_of x)) as Hkey.
  { intros x Hx. rewrite (get_subject_id_plain x Hx).
    rewrite (get_subject_id_plain _ (fns_root_of_plain x Hx)).
    by rewrite fns_root_of_tokens. }
  split; [by apply get_subject_id_plain|].
  split; [done|]. split; [by apply Hkey|].
  intros Hfg. rewrite (Hkey f Hf), (Hkey g Hg). by rewrite Hfg.
Qed.

(** C6, witness: two views of one subject. *)
Lemma subject_id_from_grouping_key_witness :
  get_subject_id "P1_L_CM_MLO.jpg" = "1L" ∧
  fns_root ["P1_L_CM_MLO.jpg"] = ["P1_L"] ∧
  get_subject_id "P1_L_CM_MLO.jpg" = get_subject_id (fns_root_of "P1_L_CM_MLO.jpg") ∧
  (fns_root_of "P1_L_CM_MLO.jpg" = fns_root_of "P1_L_DM_CC.jpg" →
   get_subject_id "P1_L_CM_MLO.jpg" = get_subject_id "P1_L_DM_CC.jpg").
Proof.
  exact (subject_id_from_grouping_key "P1_L_CM_MLO.jpg" "P1_L_DM_CC.jpg"
           eq_refl eq_refl).
Defined.

(** C6, as stated, fails: the key [split_images] groups by is not the
    concatenation of the first two tokens with a character stripped, and it
    differs from the key of [get_subject_id]. *)
Lemma grouping_key_differs :
  fns_root_of "P1_L_CM_MLO.jpg" = "P1_L" ∧
  str_tail (str_join "" (take 2 (str_split "_" "P1_L_CM_MLO.jpg"))) = "1L" ∧
  get_subject_id "P1_L_CM_MLO.jpg" = "1L" ∧
  fns_root_of "P1_L_CM_MLO.jpg" ≠ get_subject_id "P1_L_CM_MLO.jpg".
Proof. repeat split; done. Qed.

(** The grouping keys of [split_images] are finer than the subject ids of
    [get_subject_id]: two names with one subject id can have two grouping
    keys. *)
Theorem subject_id_shared_by_two_keys :
  get_subject_id "P1_23_x.jpg" = get_subject_id "P12_3_x.jpg" ∧
  fns_root_of "P1_23_x.jpg" ≠ fns_root_of "P12_3_x.jpg".
Proof. split; done. Qed.

End SubjectKeys.

(* ------------------------------------------------------------------ *)
(** *** The grouping dictionary                                         *)
(* ------------------------------------------------------------------ *)

Module GroupingFacts.
Import DataUtils.

Lemma zip_fmap_self {A B} (f : A → B) (l : list A) :
  zip (f <$> l) l = (λ x, (f x, x)) <$> l.
Proof. induction l as [|x l IH]; cbn; [done|]. by rewrite IH. Qed.

Lemma fns_dict_fold fns :
  fns_dict fns = foldl (λ d j, dict_append (fns_root_of j) j d) [] fns.
Proof.
  unfold fns_dict, fns_root. rewrite zip_fmap_self, foldl_fmap. done.
Qed.

Lemma fns_dict_snoc fns f :
  fns_dict (fns ++ [f]) = dict_append (fns_root_of f) f (fns_dict fns).
Proof. rewrite !fns_dict_fold. by rewrite foldl_snoc. Qed.

Lemma dict_get_append k k' v d :
  dict_get k (dict_append k' v d) =
    if decide (k' = k) then Some (default [] (dict_get k d) ++ [v])
    else dict_get k d.
Proof.
  induction d as [|[k0 vs] d IH]; cbn.
  - by case_decide.
  - destruct (decide (k0 = k')) as [->|Hne]; cbn.
    + by destruct (decide (k' = k)).
    + rewrite IH. by destruct (decide (k0 = k)), (decide (k' = k)); simplify_eq.
Qed.

Lemma dict_keys_append k v d :
  dict_keys (dict_append k v d) =
    if decide (k ∈ dict_keys d) then dict_keys d else dict_keys d ++ [k].
Proof.
  unfold dict_keys. induction d as [|[k0 vs] d IH]; cbn.
  - rewrite decide_False; [done|]. apply not_elem_of_nil.
  - destruct (decide (k0 = k)) as [->|Hne]; cbn.
    + rewrite decide_True; [done|]. apply list_elem_of_here.
    + rewrite IH. destruct (decide (k ∈ d.*1)) as [Hin|Hin].
      * rewrite decide_True; [done|]. by apply list_elem_of_further.
      * rewrite decide_False; [done|].
        apply not_elem_of_cons. split; [congruence|done].
Qed.

Lemma dict_get_None k d : dict_get k d = None ↔ k ∉ dict_keys d.
Proof.
  unfold dict_keys. induction d as [|[k0 vs] d IH]; cbn.
  - split; [intros _; apply not_elem_of_nil|done].
  - rewrite not_elem_of_cons. case_decide as Hk.
    + split; [done|]. intros [Hne _]. by destruct Hne.
    + rewrite IH. split; [intros ?; split; [congruence|done]|by intros [_ ?]].
Qed.

Lemma dict_values_append k v d :
  concat (dict_append k v d).*2 ≡ₚ concat d.*2 ++ [v].
Proof.
  induction d as [|[k0 vs] d IH]; cbn; [done|].
  case_decide; cbn.
  - rewrite <- !(assoc_L (++)). f_equiv. apply Permutation_app_comm.
  - rewrite IH. by rewrite (assoc_L (++)).
Qed.

Lemma files_of_cons_ne k vs d samples :
  k ∉ samples → files_of ((k, vs) :: d) samples = files_of d samples.
Proof.
  unfold files_of. induction samples as [|x l IH]; [done|].
  rewrite not_elem_of_cons. intros [Hx Hl]. cbn.
  rewrite decide_False by done. f_equal. by apply IH.
Qed.

Lemma files_of_keys d :
  NoDup (dict_keys d) → files_of d (dict_keys d) = concat d.*2.
Proof.
  unfold dict_keys. induction d as [|[k vs] d IH]; [done|].
  intros [Hk Hd]%NoDup_cons.
  change (files_of ((k, vs) :: d) ((k, vs) :: d).*1)
    with (default [] (dict_get k ((k, vs) :: d)) ++ files_of ((k, vs) :: d) d.*1).
  cbn [dict_get]. rewrite decide_True by done.
  rewrite files_of_cons_ne by done. cbn. f_equal. by apply IH.
Qed.

Lemma fns_dict_NoDup fns : NoDup (dict_keys (fns_dict fns)).
Proof.
  induction fns as [|f fns IH] using rev_ind; [constructor|].
  rewrite fns_dict_snoc, dict_keys_append. case_decide; [done|].
  apply NoDup_app. split_and!; [done| |apply NoDup_singleton].
  intros x Hx ->%list_elem_of_singleton. done.
Qed.

Lemma fns_dict_keys fns k : k ∈ dict_keys (fns_dict fns) ↔ k ∈ fns_root fns.
Proof.
  unfold fns_root.
  induction fns as [|f fns IH] using rev_ind; [done|].
  rewrite fns_dict_snoc, dict_keys_append, fmap_app, elem_of_app. cbn.
  rewrite list_elem_of_singleton. case_decide as Hin.
  - rewrite IH. split; [by left|]. intros [?| ->]; [done|]. by apply IH.
  - rewrite elem_of_app, list_elem_of_singleton, IH. done.
Qed.

Lemma fns_dict_get fns k :
  default [] (dict_get k (fns_dict fns)) = filter (λ f, fns_root_of f = k) fns.
Proof.
  induction fns as [|f fns IH] using rev_ind; [done|].
  rewrite fns_dict_snoc, dict_get_append, filter_app, <- IH.
  rewrite filter_cons, filter_nil.
  case_decide; cbn; [done|]. by rewrite (right_id_L [] (++)).
Qed.

Lemma fns_dict_values fns : concat (fns_dict fns).*2 ≡ₚ fns.
Proof.
  induction fns as [|f fns IH] using rev_ind; [done|].
  by rewrite fns_dict_snoc, dict_values_append, IH.
Qed.

(** A file is copied for a list of samples exactly when it is listed and
    its grouping key is one of the samples. *)
Lemma elem_of_files_of fns samples f :
  f ∈ files_of (fns_dict fns) samples ↔ fns_root_of f ∈ samples ∧ f ∈ fns.
Proof.
  unfold files_of. rewrite list_elem_of_bind. split.
  - intros (k & Hf & Hk). rewrite fns_dict_get in Hf.
    apply list_elem_of_filter in Hf as [<- Hf]. done.
  - intros [Hk Hf]. exists (fns_root_of f). split; [|done].
    rewrite fns_dict_get. by apply list_elem_of_filter.
Qed.

(** Any split of the keys into two lists splits the files into two lists. *)
Lemma files_of_split fns tr te :
  tr ++ te ≡ₚ dict_keys (fns_dict fns) →
  files_of (fns_dict fns) tr ++ files_of (fns_dict fns) te ≡ₚ fns.
Proof.
  intros Hperm. unfold files_of. rewrite <- bind_app, Hperm.
  fold (files_of (fns_dict fns) (dict_keys (fns_dict fns))).
  rewrite files_of_keys by apply fns_dict_NoDup. apply fns_dict_values.
Qed.

Lemma split_keys_disjoint fns tr te k :
  tr ++ te ≡ₚ dict_keys (fns_dict fns) → k ∈ tr → k ∉ te.
Proof.
  intros Hperm. pose proof (fns_dict_NoDup fns) as Hnd.
  rewrite <- Hperm in Hnd. apply NoDup_app in Hnd as (_ & Hdis & _).
  apply Hdis.
Qed.

Lemma sort_Permutation fns : sort fns ≡ₚ fns.
Proof. apply merge_sort_Permutation. Qed.

(** Grouping is stable: the dictionary built from the sorted listing holds,
    under every key derived from a listed name, exactly the names with that
    key, in sorted order, and holds no other key. *)
Theorem fns_dict_stable (fns : list string) (k : string) :
  dict_get k (fns_dict (sort fns)) =
    if decide (k ∈ fns_root fns)
    then Some (filter (λ f, fns_root_of f = k) (sort fns))
    else None.
Proof.
  pose proof (fns_dict_get (sort fns) k) as Hget.
  pose proof (fns_dict_keys (sort fns) k) as Hkeys.
  assert (k ∈ fns_root (sort fns) ↔ k ∈ fns_root fns) as Hsort.
  { unfold fns_root. by rewrite sort_Permutation. }
  destruct (dict_get k (fns_dict (sort fns))) as [vs|] eqn:Hk.
  - rewrite decide_True; [by rewrite <- Hget|].
    apply Hsort, Hkeys. destruct (decide (k ∈ dict_keys (fns_dict (sort fns))))
      as [|Hn]; [done|]. apply dict_get_None in Hn. congruence.
  - rewrite decide_False; [done|]. intros Hin.
    apply Hsort, Hkeys in Hin. by apply dict_get_None in Hk.
Qed.

End GroupingFacts.

(* ------------------------------------------------------------------ *)
(** *** The physical split                                              *)
(* ------------------------------------------------------------------ *)

Module SplitFacts.
Import DataUtils StandIn GroupingFacts.

Section Run.

Context {World : Type}.
Variable os_listdir : string → World → result (list string) * World.
Variable os_makedirs : string → World → result unit * World.
Variable shutil_copy2 : string → string → World → result unit * World.
Variable train_test_split :
  list string → float → Z → result (list string * list string).

Lemma bind_Ok {A B} (m : @IO World A) (k : A → @IO World B) s b s' :
  bind m k s = (Ok b, s') → ∃ a s1, m s = (Ok a, s1) ∧ k a s1 = (Ok b, s').
Proof.
  unfold bind. destruct (m s) as [[a|e] s1]; [eauto|discriminate].
Qed.

Lemma listdir_Ok path s fns s1 :
  listdir os_listdir path s = (Ok fns, s1) →
  (∃ w, os_listdir path (os_state s) = (Ok fns, w)) ∧ copied s1 = copied s.
Proof.
  unfold listdir, lift_os.
  destruct (os_listdir path (os_state s)) as [r w]. intros [= -> <-]. eauto.
Qed.

Lemma makedirs_copied path s r s1 :
  makedirs_exist_ok os_makedirs path s = (r, s1) → copied s1 = copied s.
Proof.
  unfold makedirs_exist_ok, lift_os.
  destruct (os_makedirs path (os_state s)) as [r' w]. by intros [= _ <-].
Qed.

Lemma print_copied args (s : @sys World) r s1 :
  print args s = (r, s1) → copied s1 = copied s.
Proof. by intros [= _ <-]. Qed.

Lemma for_each_copy2 src_dir tgt_dir files s s' :
  for_each files (λ _file, copy2 shutil_copy2 (path_join src_dir _file)
                                 (path_join tgt_dir _file)) s = (Ok (), s') →
  copied s' = copied s ++ copies src_dir tgt_dir files.
Proof.
  revert s. induction files as [|f files IH]; intros s; cbn [for_each].
  - intros [= <-]. cbn. by rewrite (right_id_L [] (++)).
  - intros ([] & s1 & Hcopy & Hrest)%bind_Ok.
    rewrite (IH _ Hrest). unfold copy2 in Hcopy.
    destruct (shutil_copy2 _ _ _) as [[[]|e] w]; [|discriminate].
    injection Hcopy as <-. cbn. by rewrite <- (assoc_L (++)).
Qed.

Lemma copy_files_Ok samples d src_dir tgt_dir s s' :
  copy_files_src_to_tgt shutil_copy2 samples d src_dir tgt_dir s = (Ok (), s') →
  copied s' = copied s ++ copies src_dir tgt_dir (files_of d samples).
Proof.
  unfold copy_files_src_to_tgt.
  revert s. induction samples as [|k samples IH]; intros s; cbn [for_each].
  - intros [= <-]. cbn. by rewrite (right_id_L [] (++)).
  - intros ([] & s1 & Hk & Hrest)%bind_Ok.
    rewrite (IH _ Hrest).
    destruct (dict_get k d) as [files|] eqn:Hget; [|discriminate].
    rewrite (for_each_copy2 _ _ _ _ _ Hk).
    unfold files_of, copies. cbn. rewrite Hget. cbn.
    by rewrite fmap_app, (assoc_L (++)).
Qed.

Lemma split_label_Ok src_folder tgt_folder label s s' :
  split_label os_listdir os_makedirs shutil_copy2 train_test_split
              src_folder tgt_folder label s = (Ok (), s') →
  ∃ r, ls_label r = label ∧ label_outcome os_listdir train_test_split src_folder r ∧
       copied s' = copied s ++ label_copies src_folder tgt_folder r.
Proof.
  unfold split_label.
  intros (fns & s1 & Hls & H)%bind_Ok.
  apply bind_Ok in H as ([] & s2 & Hp1 & H).
  apply bind_Ok in H as ([tr te] & s3 & Hsplit & H).
  apply bind_Ok in H as ([] & s4 & Hmk1 & H).
  apply bind_Ok in H as ([] & s5 & Hcp1 & H).
  apply bind_Ok in H as ([] & s6 & Hmk2 & H).
  apply bind_Ok in H as ([] & s7 & Hcp2 & Hp2).
  apply listdir_Ok in Hls as [[w Hls] Hc1].
  apply print_copied in Hp1, Hp2.
  apply makedirs_copied in Hmk1, Hmk2.
  apply copy_files_Ok in Hcp1, Hcp2.
  unfold lift_pure in Hsplit. injection Hsplit as Hsplit <-.
  exists (LabelSplit label fns (files_of (fns_dict (sort fns)) tr)
                     (files_of (fns_dict (sort fns)) te)).
  split; [done|]. split.
  - split; [by exists (os_state s), w|]. by exists tr, te.
  - unfold label_copies. cbn.
    rewrite Hp2, Hcp2, Hmk2, Hcp1, Hmk1, Hp1, Hc1.
    by rewrite <- (assoc_L (++)).
Qed.

Lemma for_each_split_label src_folder tgt_folder labels s s' :
  for_each labels (split_label os_listdir os_makedirs shutil_copy2
                     train_test_split src_folder tgt_folder) s = (Ok (), s') →
  ∃ rs, ls_label <$> rs = labels ∧ Forall (label_outcome os_listdir train_test_split src_folder) rs ∧
        copied s' = copied s ++ concat (label_copies src_folder tgt_folder <$> rs).
Proof.
  revert s. induction labels as [|label labels IH]; intros s; cbn [for_each].
  - intros [= <-]. exists []. cbn. by rewrite (right_id_L [] (++)).
  - intros ([] & s1 & Hlabel & Hrest)%bind_Ok.
    apply split_label_Ok in Hlabel as (r & Hr & Hout & Hc).
    apply IH in Hrest as (rs & Hrs & Houts & Hcs).
    exists (r :: rs). split; [by rewrite fmap_cons, Hr, Hrs|].
    split; [by constructor|].
    rewrite Hcs, Hc. cbn. by rewrite <- (assoc_L (++)).
Qed.

(** The shape of every run of [split_images] that returns. *)
Lemma split_images_Ok src_folder tgt_folder s s' :
  split_images os_listdir os_makedirs shutil_copy2 train_test_split
               src_folder tgt_folder s = (Ok (), s') →
  ∃ rs, run_of os_listdir src_folder tgt_folder s s' rs ∧
        Forall (label_outcome os_listdir train_test_split src_folder) rs.
Proof.
  unfold split_images.
  intros (labels & s1 & Hls & H)%bind_Ok.
  apply bind_Ok in H as ([] & s2 & Hp1 & H).
  apply bind_Ok in H as ([] & s3 & Hp2 & H).
  apply bind_Ok in H as ([] & s4 & Hloop & Hp3).
  apply listdir_Ok in Hls as [[w Hls] Hc1].
  apply print_copied in Hp1, Hp2, Hp3.
  apply for_each_split_label in Hloop as (rs & Hrs & Houts & Hcs).
  exists rs. split; [|done]. exists labels, w.
  split; [done|]. split; [done|].
  by rewrite Hp3, Hcs, Hp2, Hp1, Hc1.
Qed.

Lemma bind_run {A B} (m : @IO World A) (k : A → @IO World B) s a s1 :
  m s = (Ok a, s1) → bind m k s = k a s1.
Proof. intros Hm. unfold bind. by rewrite Hm. Qed.

Lemma for_each_copy2_returns src_dir tgt_dir files s :
  (∀ src tgt, always_returns (shutil_copy2 src tgt)) →
  ∃ s', for_each files (λ _file, copy2 shutil_copy2 (path_join src_dir _file)
                                       (path_join tgt_dir _file)) s = (Ok (), s').
Proof.
  intros Hcopy. revert s. induction files as [|f files IH]; intros s.
  - by exists s.
  - cbn [for_each].
    destruct (Hcopy (path_join src_dir f) (path_join tgt_dir f) (os_state s))
      as ([] & w & Hw).
    erewrite bind_run; [apply IH|]. unfold copy2. by rewrite Hw.
Qed.

Lemma copy_files_returns samples d src_dir tgt_dir s :
  (∀ src tgt, always_returns (shutil_copy2 src tgt)) →
  (∀ k, k ∈ samples → k ∈ dict_keys d) →
  ∃ s', copy_files_src_to_tgt shutil_copy2 samples d src_dir tgt_dir s
          = (Ok (), s').
Proof.
  intros Hcopy. unfold copy_files_src_to_tgt.
  revert s. induction samples as [|k samples IH]; intros s Hkeys.
  - by exists s.
  - cbn [for_each].
    destruct (dict_get k d) as [files|] eqn:Hget.
    + destruct (for_each_copy2_returns src_dir tgt_dir files s Hcopy)
        as [s1 Hs1].
      erewrite bind_run; [|exact Hs1].
      apply IH. intros k' Hk'. apply Hkeys. by apply list_elem_of_further.
    + apply dict_get_None in Hget. destruct Hget.
      apply Hkeys, list_elem_of_here.
Qed.

Hypothesis train_test_split_spec : is_train_test_split train_test_split.

Lemma split_label_returns src_folder tgt_folder label s :
  (∀ w1, ∃ fns w2 tr te,
     os_listdir (path_join src_folder label) w1 = (Ok fns, w2) ∧
     train_test_split (dict_keys (fns_dict (sort fns))) 0.2%float 100
       = Ok (tr, te)) →
  (∀ path, always_returns (os_makedirs path)) →
  (∀ src tgt, always_returns (shutil_copy2 src tgt)) →
  ∃ s', split_label os_listdir os_makedirs shutil_copy2 train_test_split
                    src_folder tgt_folder label s = (Ok (), s').
Proof.
  intros Hls Hmk Hcopy.
  destruct (Hls (os_state s)) as (fns & w2 & tr & te & Hfns & Hsplit).
  pose proof (train_test_split_spec _ _ _ _ _ Hsplit) as Hperm.
  unfold split_label.
  erewrite bind_run; cycle 1.
  { unfold listdir, lift_os. by rewrite Hfns. }
  erewrite bind_run; [|reflexivity].
  erewrite bind_run; cycle 1.
  { unfold lift_pure. by rewrite Hsplit. }
  cbn beta iota.
  match goal with |- ∃ s', bind (makedirs_exist_ok _ ?p) _ ?s0 = _ =>
    destruct (Hmk p (os_state s0)) as ([] & w3 & Hw3);
    erewrite (bind_run (makedirs_exist_ok _ p)); cycle 1;
    [unfold makedirs_exist_ok, lift_os; by rewrite Hw3|] end.
  match goal with |- ∃ s', bind (copy_files_src_to_tgt _ ?l ?d ?a ?b) _ ?s0 = _ =>
    destruct (copy_files_returns l d a b s0 Hcopy) as [s4 Hs4];
    [intros k Hk; rewrite <- Hperm; apply elem_of_app; by left|];
    erewrite (bind_run (copy_files_src_to_tgt _ l d a b)); [|exact Hs4] end.
  match goal with |- ∃ s', bind (makedirs_exist_ok _ ?p) _ ?s0 = _ =>
    destruct (Hmk p (os_state s0)) as ([] & w5 & Hw5);
    erewrite (bind_run (makedirs_exist_ok _ p)); cycle 1;
    [unfold makedirs_exist_ok, lift_os; by rewrite Hw5|] end.
  match goal with |- ∃ s', bind (copy_files_src_to_tgt _ ?l ?d ?a ?b) _ ?s0 = _ =>
    destruct (copy_files_returns l d a b s0 Hcopy) as [s6 Hs6];
    [intros k Hk; rewrite <- Hperm; apply elem_of_app; by right|];
    erewrite (bind_run (copy_files_src_to_tgt _ l d a b)); [|exact Hs6] end.
  eexists. reflexivity.
Qed.

Lemma for_each_split_label_returns src_folder tgt_folder labels s :
  (∀ label, label ∈ labels → ∀ w1, ∃ fns w2 tr te,
     os_listdir (path_join src_folder label) w1 = (Ok fns, w2) ∧
     train_test_split (dict_keys (fns_dict (sort fns))) 0.2%float 100
       = Ok (tr, te)) →
  (∀ path, always_returns (os_makedirs path)) →
  (∀ src tgt, always_returns (shutil_copy2 src tgt)) →
  ∃ s', for_each labels (split_label os_listdir os_makedirs shutil_copy2
                           train_test_split src_folder tgt_folder) s
          = (Ok (), s').
Proof.
  intros Hls Hmk Hcopy. revert s.
  induction labels as [|label labels IH]; intros s.
  - by exists s.
  - cbn [for_each].
    destruct (split_label_returns src_folder tgt_folder label s) as [s1 Hs1];
      [apply Hls, list_elem_of_here|done|done|].
    erewrite bind_run; [|exact Hs1].
    apply IH. intros l Hl. apply Hls. by apply list_elem_of_further.
Qed.

(** Under those conditions [split_images] returns. *)
Lemma split_images_returns src_folder tgt_folder s :
  run_can_proceed os_listdir os_makedirs shutil_copy2 train_test_split src_folder s →
  ∃ s', split_images os_listdir os_makedirs shutil_copy2 train_test_split
                     src_folder tgt_folder s = (Ok (), s').
Proof.
  intros ((labels & w & Hlabels & Hls) & Hmk & Hcopy). unfold split_images.
  erewrite bind_run; cycle 1.
  { unfold listdir, lift_os. by rewrite Hlabels. }
  erewrite bind_run; [|reflexivity].
  erewrite bind_run; [|reflexivity].
  match goal with |- ∃ s', bind (for_each _ _) _ ?s0 = _ =>
    destruct (for_each_split_label_returns src_folder tgt_folder labels s0
                Hls Hmk Hcopy) as [s1 Hs1] end.
  erewrite bind_run; [|exact Hs1].
  eexists. reflexivity.
Qed.

Lemma label_outcome_partition src_folder r :
  label_outcome os_listdir train_test_split src_folder r →
  ls_train r ++ ls_test r ≡ₚ ls_fns r ∧
  ∀ f, (f ∈ ls_train r → f ∈ ls_fns r ∧ f ∉ ls_test r) ∧
       (f ∈ ls_test r → f ∈ ls_fns r ∧ f ∉ ls_train r) ∧
       (f ∈ ls_fns r → f ∈ ls_train r ∨ f ∈ ls_test r).
Proof.
  intros (_ & tr & te & Hsplit & -> & ->).
  apply train_test_split_spec in Hsplit.
  pose proof (files_of_split _ _ _ Hsplit) as Hperm.
  split; [by rewrite Hperm, sort_Permutation|].
  intros f. rewrite !elem_of_files_of. split_and!.
  - intros [Hk Hf]. split; [by rewrite <- sort_Permutation|].
    intros [Hk' _]. by apply (split_keys_disjoint _ _ _ _ Hsplit Hk).
  - intros [Hk Hf]. split; [by rewrite <- sort_Permutation|].
    intros [Hk' _]. by apply (split_keys_disjoint _ _ _ _ Hsplit Hk').
  - intros Hf. rewrite <- sort_Permutation in Hf.
    assert (fns_root_of f ∈ tr ++ te) as [?|?]%elem_of_app; [|by left|by right].
    rewrite Hsplit. apply fns_dict_keys, list_elem_of_fmap. eauto.
Qed.

Lemma label_outcome_subject src_folder r k :
  label_outcome os_listdir train_test_split src_folder r → k ∈ fns_root (ls_fns r) →
  (∀ f, f ∈ ls_fns r → fns_root_of f = k → f ∈ ls_train r ∧ f ∉ ls_test r) ∨
  (∀ f, f ∈ ls_fns r → fns_root_of f = k → f ∈ ls_test r ∧ f ∉ ls_train r).
Proof.
  intros (_ & tr & te & Hsplit & -> & ->) Hk.
  apply train_test_split_spec in Hsplit.
  assert (k ∈ tr ++ te) as [Hin|Hin]%elem_of_app.
  { rewrite Hsplit. apply fns_dict_keys.
    unfold fns_root in *. by rewrite sort_Permutation. }
  - left. intros f Hf <-. rewrite !elem_of_files_of.
    rewrite sort_Permutation. split; [done|].
    intros [Hk' _]. by apply (split_keys_disjoint _ _ _ _ Hsplit Hin).
  - right. intros f Hf <-. rewrite !elem_of_files_of.
    rewrite sort_Permutation. split; [done|].
    intros [Hk' _]. by apply (split_keys_disjoint _ _ _ _ Hsplit Hk').
Qed.

(** C10.  When [train_test_split] returns a rearrangement of the keys it is
    given: a run of [split_images] in which no system call and no split
    raises returns; and every run that returns has, for every label folder,
    copied every file listed under [src_folder/label] into exactly one of
    [tgt_folder/train/label] and [tgt_folder/test/label]: the files copied
    to the two folders together are a rearrangement of the listing, and no
    file is in both. *)
Theorem split_images_total (src_folder tgt_folder : string) (s : @sys World) :
  (run_can_proceed os_listdir os_makedirs shutil_copy2 train_test_split src_folder s →
   ∃ s', split_images os_listdir os_makedirs shutil_copy2 train_test_split
                      src_folder tgt_folder s = (Ok (), s')) ∧
  (∀ s', split_images os_listdir os_makedirs shutil_copy2 train_test_split
                      src_folder tgt_folder s = (Ok (), s') →
         split_is_total os_listdir src_folder tgt_folder s s').
Proof.
  split; [apply split_images_returns|].
  intros s' (rs & Hrun & Houts)%split_images_Ok.
  exists rs. split; [done|].
  eapply Forall_impl; [exact Houts|]. intros r Hr. cbn beta.
  destruct (label_outcome_partition _ _ Hr) as [Hperm Hmem].
  split; [apply Hr|]. split; [done|].
  intros f Hf. destruct (Hmem f) as (Htr & Hte & Hany).
  destruct (Hany Hf) as [Hin|Hin].
  - left. split; [done|]. by apply Htr.
  - right. split; [done|]. by apply Hte.
Qed.

(** C5 (as amended).  Under the same contract, in every run of
    [split_images] that returns, for every label folder, the names listed in
    it that have the same first two ['_']-separated tokens (the key of line
    45) are either all copied under [tgt_folder/train/label] and none under
    [tgt_folder/test/label], or all under [tgt_folder/test/label] and none
    under [tgt_folder/train/label].  The guarantee is per label folder and
    per pair of tokens: it is not one for the subject id of
    [get_subject_id]. *)
Theorem split_images_no_leakage (src_folder tgt_folder : string)
    (s s' : @sys World) :
  split_images os_listdir os_makedirs shutil_copy2 train_test_split
               src_folder tgt_folder s = (Ok (), s') →
  split_keeps_groups_together os_listdir src_folder tgt_folder s s'.
Proof.
  intros (rs & Hrun & Houts)%split_images_Ok.
  exists rs. split; [done|].
  eapply Forall_impl; [exact Houts|]. intros r Hr. cbn beta.
  split; [apply Hr|]. intros f Hf.
  assert (∀ g, take 2 (str_split "_" g) = take 2 (str_split "_" f) →
               fns_root_of g = fns_root_of f) as Hkey.
  { intros g Hg. unfold fns_root_of. by rewrite Hg. }
  destruct (label_outcome_subject src_folder r (fns_root_of f) Hr)
    as [Htrain|Htest].
  - unfold fns_root. apply list_elem_of_fmap. by exists f.
  - left. intros g Hg Htok. by apply Htrain, Hkey.
  - right. intros g Hg Htok. by apply Htest, Hkey.
Qed.

End Run.

Lemma ordered_split_spec : is_train_test_split ordered_split.
Proof.
  intros keys test_size random_state tr te. unfold ordered_split.
  case_decide; [discriminate|]. intros [= <- <-]. by rewrite take_drop.
Qed.

Lemma example_run_Ok :
  split_images (table_listdir example_tree) table_makedirs table_copy2
               ordered_split "data" "out" (Sys () [] []) = (Ok (), example_final).
Proof. vm_compute. reflexivity. Qed.

Lemma example_run_copied :
  copied example_final =
    [("data/Benign/P1_L_CM_MLO.jpg", "out/train/Benign/P1_L_CM_MLO.jpg");
     ("data/Benign/P1_L_DM_MLO.jpg", "out/train/Benign/P1_L_DM_MLO.jpg");
     ("data/Benign/P2_R_CM_CC.jpg", "out/train/Benign/P2_R_CM_CC.jpg");
     ("data/Benign/P2_R_DM_CC.jpg", "out/train/Benign/P2_R_DM_CC.jpg");
     ("data/Benign/P3_L_CM_CC.jpg", "out/test/Benign/P3_L_CM_CC.jpg");
     ("data/Malignant/P4_R_CM_CC.jpg", "out/train/Malignant/P4_R_CM_CC.jpg");
     ("data/Malignant/P4_R_DM_CC.jpg", "out/train/Malignant/P4_R_DM_CC.jpg");
     ("data/Malignant/P5_L_CM_MLO.jpg", "out/test/Malignant/P5_L_CM_MLO.jpg")].
Proof. vm_compute. reflexivity. Qed.

Lemma example_can_proceed :
  run_can_proceed (table_listdir example_tree) table_makedirs table_copy2
                  ordered_split "data" (Sys () [] []).
Proof.
  split_and!.
  - exists ["Benign"; "Malignant"], (). split; [reflexivity|].
    intros label Hlabel w1.
    apply elem_of_cons in Hlabel as [->|Hlabel];
      [|apply list_elem_of_singleton in Hlabel as ->].
    + eexists _, _, _, _. split; [reflexivity|]. vm_compute. reflexivity.
    + eexists _, _, _, _. split; [reflexivity|]. vm_compute. reflexivity.
  - intros path w. by exists (), w.
  - intros src tgt w. by exists (), w.
Qed.

(** C10, witness: a run over two label folders. *)
Lemma split_images_total_witness :
  is_train_test_split ordered_split ∧
  (∃ s', split_images (table_listdir example_tree) table_makedirs table_copy2
                      ordered_split "data" "out" (Sys () [] []) = (Ok (), s')) ∧
  split_is_total (table_listdir example_tree) "data" "out"
                 (Sys () [] []) example_final.
Proof.
  split; [exact ordered_split_spec|].
  destruct (split_images_total (table_listdir example_tree) table_makedirs
              table_copy2 ordered_split ordered_split_spec "data" "out"
              (Sys () [] [])) as [Hreturns Htotal].
  split; [exact (Hreturns example_can_proceed)|].
  exact (Htotal example_final example_run_Ok).
Defined.

(** C5, witness: the same run. *)
Lemma split_images_no_leakage_witness :
  is_train_test_split ordered_split ∧
  split_keeps_groups_together (table_listdir example_tree) "data" "out"
    (Sys () [] []) example_final.
Proof.
  split; [exact ordered_split_spec|].
  exact (split_images_no_leakage (table_listdir example_tree) table_makedirs
           table_copy2 ordered_split ordered_split_spec "data" "out"
           (Sys () [] []) example_final example_run_Ok).
Defined.

(** C5, as stated, fails for the subject key of [get_subject_id].  In the
    run over [leak_tree], with a split that returns a rearrangement of the
    keys, the two files of subject [123] in the folder [Benign] have the
    grouping keys [P12_3] and [P1_23]: the first is copied to the train
    folder and the second to the test folder.  The guarantee does not
    reach across label folders either: the key [P1_23] is a test key in
    [Benign] and a train key in [Malignant]. *)
Lemma split_images_leaks_subject_ids :
  is_train_test_split ordered_split ∧
  (split_images (table_listdir leak_tree) table_makedirs table_copy2
                ordered_split "data" "out" (Sys () [] [])).1 = Ok () ∧
  copied (split_images (table_listdir leak_tree) table_makedirs table_copy2
                       ordered_split "data" "out" (Sys () [] [])).2 =
    [("data/Benign/P12_3_x.jpg", "out/train/Benign/P12_3_x.jpg");
     ("data/Benign/P1_23_x.jpg", "out/test/Benign/P1_23_x.jpg");
     ("data/Malignant/P1_23_y.jpg", "out/train/Malignant/P1_23_y.jpg");
     ("data/Malignant/P2_L_y.jpg", "out/test/Malignant/P2_L_y.jpg")] ∧
  get_subject_id "P12_3_x.jpg" = "123" ∧
  get_subject_id "P1_23_x.jpg" = "123" ∧
  fns_root_of "P12_3_x.jpg" = "P12_3" ∧
  fns_root_of "P1_23_x.jpg" = "P1_23" ∧
  fns_root_of "P1_23_y.jpg" = "P1_23".
Proof.
  split; [exact ordered_split_spec|].
  split_and!; vm_compute; reflexivity.
Qed.

End SplitFacts.

(* ------------------------------------------------------------------ *)
(** *** Label maps                                                      *)
(* ------------------------------------------------------------------ *)

Module LabelMapFacts.
Import DataUtils.

Section Facts.
Context {V : Type} `{Countable V}.

Lemma unique_from_seen (s1 s2 l : list V) :
  (∀ x, x ∈ s1 ↔ x ∈ s2) → unique_from s1 l = unique_from s2 l.
Proof.
  revert s1 s2. induction l as [|x l IH]; intros s1 s2 Hs; cbn; [done|].
  destruct (decide (x ∈ s1)) as [Hx|Hx].
  - rewrite decide_True by by apply Hs. by apply IH.
  - rewrite decide_False by by rewrite <- Hs. f_equal. apply IH.
    intros y. rewrite !elem_of_cons, Hs. done.
Qed.

Lemma elem_of_unique_from (seen l : list V) (x : V) :
  x ∈ unique_from seen l ↔ x ∈ l ∧ x ∉ seen.
Proof.
  revert seen. induction l as [|y l IH]; intros seen; cbn.
  - rewrite !elem_of_nil. tauto.
  - destruct (decide (y ∈ seen)) as [Hy|Hy].
    + rewrite IH, elem_of_cons. split; [tauto|].
      intros [[->|?] ?]; [done|tauto].
    + rewrite !elem_of_cons, IH, not_elem_of_cons.
      destruct (decide (x = y)) as [->|Hne]; tauto.
Qed.

Lemma NoDup_unique_from (seen l : list V) : NoDup (unique_from seen l).
Proof.
  revert seen. induction l as [|y l IH]; intros seen; cbn; [constructor|].
  destruct (decide (y ∈ seen)); [apply IH|].
  constructor; [|apply IH].
  rewrite elem_of_unique_from, not_elem_of_cons. tauto.
Qed.

Lemma elem_of_unique (l : list V) (x : V) : x ∈ unique l ↔ x ∈ l.
Proof.
  unfold unique. rewrite elem_of_unique_from, elem_of_nil. tauto.
Qed.

Lemma NoDup_unique (l : list V) : NoDup (unique l).
Proof. apply NoDup_unique_from. Qed.

(** What was seen in a prefix keeps its place whatever follows. *)
Lemma unique_from_app (seen l1 l2 : list V) :
  unique_from seen (l1 ++ l2) =
    unique_from seen l1 ++ unique_from (l1 ++ seen) l2.
Proof.
  revert seen. induction l1 as [|x l1 IH]; intros seen; cbn; [done|].
  destruct (decide (x ∈ seen)) as [Hx|Hx].
  - rewrite IH. f_equal. apply unique_from_seen.
    intros y. rewrite elem_of_cons, !elem_of_app.
    split; [tauto|]. intros [->|?]; tauto.
  - cbn. f_equal. rewrite IH. f_equal. apply unique_from_seen.
    intros y. rewrite elem_of_cons, !elem_of_app, elem_of_cons. tauto.
Qed.

Lemma unique_app (l1 l2 : list V) :
  unique (l1 ++ l2) = unique l1 ++ unique_from l1 l2.
Proof.
  unfold unique. rewrite unique_from_app. by rewrite (right_id_L [] (++)).
Qed.

Lemma enumerate_maps_snoc (u : list V) (x : V) :
  enumerate_maps (u ++ [x]) =
    (<[x := length u]> (enumerate_maps u).1, <[length u := x]> (enumerate_maps u).2).
Proof.
  unfold enumerate_maps. rewrite imap_app, foldl_app. cbn.
  destruct (foldl _ _ _) as [lm rlm]. cbn. by rewrite Nat.add_0_r.
Qed.

Lemma enumerate_maps_spec (u : list V) :
  NoDup u →
  (∀ v i, (enumerate_maps u).1 !! v = Some i ↔ u !! i = Some v) ∧
  (∀ i v, (enumerate_maps u).2 !! i = Some v ↔ u !! i = Some v) ∧
  size (enumerate_maps u).1 = length u.
Proof.
  induction u as [|x u IH] using rev_ind; intros Hnd.
  - split_and!; [by intros v i|by intros i v|done].
  - apply NoDup_app in Hnd as (Hu & Hdis & _).
    destruct (IH Hu) as (Hlm & Hrlm & Hsize).
    assert (x ∉ u) as Hx.
    { intros Hin. apply (Hdis x Hin), list_elem_of_singleton. done. }
    rewrite enumerate_maps_snoc. cbn [fst snd]. split_and!.
    + intros v i. rewrite lookup_insert_Some, lookup_snoc_Some, Hlm. split.
      * intros [[-> <-]|[Hne Hi]]; [by right|left].
        split; [by eapply lookup_lt_Some|done].
      * intros [[_ Hi]|[-> ->]]; [right|by left].
        split; [|done]. intros ->. apply Hx. by eapply list_elem_of_lookup_2.
    + intros i v. rewrite lookup_insert_Some, lookup_snoc_Some, Hrlm. split.
      * intros [[<- <-]|[Hne Hi]]; [by right|left].
        split; [by eapply lookup_lt_Some|done].
      * intros [[Hlt Hi]|[-> ->]]; [right|by left].
        split; [lia|done].
    + rewrite map_size_insert_None, Hsize, length_app; [cbn; lia|].
      destruct ((enumerate_maps u).1 !! x) as [i|] eqn:Hi; [|done].
      apply Hlm in Hi. destruct Hx. by eapply list_elem_of_lookup_2.
Qed.

Lemma label2map_enumerate_maps (column : list V) :
  label2map column = enumerate_maps (unique column).
Proof. reflexivity. Qed.

(** C9.  For a column with K distinct values, [label2map] returns a
    [label_map] of size K and a [reverse_label_map] that is its exact
    inverse; the indices are [0 .. K-1], and a value seen in a prefix of the
    column has a smaller index than a value first seen after it. *)
Theorem label2map_bijection (column : list V) :
  size (label2map column).1 = size (list_to_set column : gset V) ∧
  (∀ v, v ∈ column →
     ∃ i, (label2map column).1 !! v = Some i ∧
          (label2map column).2 !! i = Some v) ∧
  (∀ v i, (label2map column).1 !! v = Some i ↔
          (label2map column).2 !! i = Some v) ∧
  (∀ i, is_Some ((label2map column).2 !! i) ↔
        (i < size (label2map column).1)%nat) ∧
  (∀ l1 l2 v w i j,
     column = l1 ++ l2 → v ∈ l1 → w ∉ l1 →
     (label2map column).1 !! v = Some i →
     (label2map column).1 !! w = Some j → (i < j)%nat).
Proof.
  rewrite label2map_enumerate_maps.
  destruct (enumerate_maps_spec (unique column) (NoDup_unique column))
    as (Hlm & Hrlm & Hsize).
  split_and!.
  - rewrite Hsize, <- (size_list_to_set (C:=gset V)) by apply NoDup_unique.
    f_equal. apply set_eq. intros x.
    by rewrite !elem_of_list_to_set, elem_of_unique.
  - intros v Hv. apply elem_of_unique, list_elem_of_lookup in Hv as [i Hi].
    exists i. by rewrite Hlm, Hrlm.
  - intros v i. by rewrite Hlm, Hrlm.
  - intros i. rewrite Hsize, <- lookup_lt_is_Some.
    split; intros [v Hv]; exists v; by apply Hrlm.
  - intros l1 l2 v w i j -> Hv Hw Hi Hj.
    apply Hlm in Hi, Hj. rewrite unique_app in Hi, Hj.
    apply lookup_app_Some in Hj as [Hj|[Hj _]].
    { destruct Hw. by eapply elem_of_unique, list_elem_of_lookup_2. }
    apply lookup_app_Some in Hi as [Hi|[_ Hi]].
    { apply lookup_lt_Some in Hi. lia. }
    apply list_elem_of_lookup_2, elem_of_unique_from in Hi as [_ Hi]. done.
Qed.

End Facts.

(** C9 on a column of four rows and three labels. *)
Example label2map_example :
  (label2map ["Benign"; "Malignant"; "Benign"; "Normal"]).1
    = {[ "Benign" := 0%nat; "Malignant" := 1%nat; "Normal" := 2%nat ]} ∧
  (label2map ["Benign"; "Malignant"; "Benign"; "Normal"]).2
    = {[ 0%nat := "Benign"; 1%nat := "Malignant"; 2%nat := "Normal" ]}.
Proof. split; vm_compute; reflexivity. Qed.

End LabelMapFacts.

(* ------------------------------------------------------------------ *)
(** *** Annotations                                                     *)
(* ------------------------------------------------------------------ *)

Module AnnotationFacts.
Import DataUtils StandIn.

Lemma aggregate_resolved df patient_id_list df_new i :
  aggregate df patient_id_list df_new i =
    df_new ++ from_option (λ r, [r]) [] (resolved df patient_id_list i).
Proof.
  unfold aggregate, resolved.
  destruct (unique (label_of <$> filter (λ r, patient_of r = i) df))
    as [|l [|l' ls]]; cbn [length];
    case_decide as Hlen; try discriminate Hlen; try (by destruct Hlen).
  all: destruct patient_id_list; [done|]; cbn; by rewrite (right_id_L [] (++)).
Qed.

(** The loop of lines 104-115 keeps the subjects in order: a subject with
    one distinct label contributes that label and its space-joined texts; a
    subject with several labels contributes the placeholder ["Normal"] when
    a subject list was passed, and nothing otherwise. *)
Theorem aggregate_loop df patient_id_list ids :
  foldl (aggregate df patient_id_list) [] ids =
    omap (resolved df patient_id_list) ids.
Proof.
  induction ids as [|i ids IH] using rev_ind; [done|].
  rewrite foldl_snoc, aggregate_resolved, IH, omap_app. cbn.
  by destruct (resolved df patient_id_list i).
Qed.

(** C8, the code at a subject with two labels.  Without a subject list the
    subject ["1L"] is left out and nothing is printed or recorded: the run
    returns the row of ["2R"] alone and an unchanged trace.  With a subject
    list the same subject is kept under the label ["Normal"]. *)
Lemma read_annotation_file_conflict_silent :
  rows_of (example_read None).1 = Some [Row "Benign" "clear" "2R"] ∧
  printed (example_read None).2 = [] ∧
  copied (example_read None).2 = [] ∧
  rows_of (example_read (Some ["1L"; "2R"])).1
    = Some [Row "Normal" "irregular mass no change" "1L";
            Row "Benign" "clear" "2R"].
Proof. repeat split; vm_compute; reflexivity. Qed.

End AnnotationFacts.

Module TorchvisionModelFacts.
Import TorchvisionModel.

Section Facts.

Context {TorchModel Optimizer History ImageDataset : Type}.
Variable is_hpu_available : bool.
Variable cpu_type : result string.
Variable _check_train_inputs :
  @train_args ImageDataset → option exception.
Variable fit :
  @train_args ImageDataset → pyval → pyval →
  @model TorchModel Optimizer History →
  result History * @model TorchModel Optimizer History.

Lemma first_non_int_None layers :
  first_non_int layers = None → forallb isinstance_int layers = true.
Proof.
  unfold first_non_int. induction layers as [|x l IH]; cbn; [done|].
  destruct (isinstance_int x); cbn; [exact IH|discriminate].
Qed.

Lemma eq_str_PyStr v t : eq_str v t = true → v = PyStr t.
Proof. destruct v; try discriminate. cbn. by intros ->%String.eqb_eq. Qed.

(** C7 (as amended).  When the inputs pass [_check_train_inputs], [train]
    reaches the check of [extra_layers] with an instance whose network,
    optimizer, number of classes and history are as before, whose
    [_distributed] and [_enable_auto_mixed_precision] have been assigned
    from the arguments, and whose [_device] has been resolved: ["hpu"] for
    [device="hpu"] with a Gaudi device and ["cpu"] without, ["cpu"] for
    [device="cpu"], and otherwise the old device, replaced by ["cpu"] when it
    was ["hpu"] and there is no Gaudi device.  With that instance, a truthy
    [extra_layers] that is not a list of integers raises a [TypeError] whose
    message is "The extra_layers parameter must be a list of ints but found "
    followed by the type of the argument, or by "a list containing " and the
    type of its first element that is not an [int], before the framework is
    called; a falsy [extra_layers], like
    a list of integers, is not rejected: the call is handed to the framework
    with that instance, and its outcome is the framework's. *)
Theorem train_rejects_extra_layers (a : train_args)
    (self : @model TorchModel Optimizer History) :
  _check_train_inputs a = None →
  ∃ self',
    _model self' = _model self ∧
    _optimizer self' = _optimizer self ∧
    _num_classes self' = _num_classes self ∧
    _history self' = _history self ∧
    _distributed self' = distributed a ∧
    _enable_auto_mixed_precision self' = resolved_mixed_precision cpu_type a ∧
    _device self' =
      (if eq_str (device a) "hpu"
       then if is_hpu_available then PyStr "hpu" else PyStr "cpu"
       else if eq_str (device a) "cpu" then PyStr "cpu"
       else if eq_str (_device self) "hpu" && negb is_hpu_available
       then PyStr "cpu" else _device self) ∧
    (truthy (extra_layers a) = true → is_int_list (extra_layers a) = false →
     ∃ what,
       train is_hpu_available cpu_type _check_train_inputs fit a self
         = (Raise (Exn TypeError
                     ("The extra_layers parameter must be a list of ints but found "
                        +:+ what)), self') ∧
       (isinstance_list (extra_layers a) = false ∧
        what = type_repr (extra_layers a) ∨
        ∃ layers layer,
          extra_layers a = PyList layers ∧
          first_non_int layers = Some layer ∧
          what = "a list containing " +:+ type_repr layer)) ∧
    (truthy (extra_layers a) = false ∨ is_int_list (extra_layers a) = true →
     train is_hpu_available cpu_type _check_train_inputs fit a self
       = fit a
           (if eq_str (device a) "hpu" && is_hpu_available then PyBool false
            else if eq_str (_device self') "hpu" && truthy (ipex_optimize a)
            then PyBool false else ipex_optimize a)
           (resolved_mixed_precision cpu_type a) self').
Proof.
  intros Hcheck. unfold train. rewrite Hcheck.
  fold (resolved_mixed_precision cpu_type a).
  destruct (if eq_str (device a) "hpu" && negb is_hpu_available
            then (set_device (PyStr "cpu") self, ipex_optimize a)
            else if eq_str (device a) "hpu" && is_hpu_available
            then (set_device (device a) self, PyBool false)
            else if eq_str (device a) "cpu"
            then (set_device (device a) self, ipex_optimize a)
            else (self, ipex_optimize a)) as [self1 ipex1] eqn:Hdev1.
  assert (_model self1 = _model self ∧ _optimizer self1 = _optimizer self ∧
          _num_classes self1 = _num_classes self ∧
          _history self1 = _history self ∧
          _device self1 =
            (if eq_str (device a) "hpu"
             then if is_hpu_available then PyStr "hpu" else PyStr "cpu"
             else if eq_str (device a) "cpu" then PyStr "cpu"
             else _device self) ∧
          ipex1 = (if eq_str (device a) "hpu" && is_hpu_available
                   then PyBool false else ipex_optimize a))
    as (Hm1 & Ho1 & Hn1 & Hh1 & Hd1 & Hi1).
  { destruct (eq_str (device a) "hpu") eqn:Hhpu.
    - apply eq_str_PyStr in Hhpu.
      destruct is_hpu_available; cbn [andb negb] in Hdev1;
        injection Hdev1 as <- <-; cbn; by rewrite ?Hhpu.
    - cbn [andb] in Hdev1. destruct (eq_str (device a) "cpu") eqn:Hcpu.
      + apply eq_str_PyStr in Hcpu. injection Hdev1 as <- <-. cbn.
        by rewrite Hcpu.
      + by injection Hdev1 as <- <-. }
  destruct (if eq_str (_device self1) "hpu" && negb is_hpu_available
            then (set_device (PyStr "cpu") self1, ipex1)
            else if eq_str (_device self1) "hpu" && is_hpu_available
            then (self1, if truthy ipex1 then PyBool false else ipex1)
            else (self1, ipex1)) as [self2 ipex2] eqn:Hdev2.
  assert (_model self2 = _model self ∧ _optimizer self2 = _optimizer self ∧
          _num_classes self2 = _num_classes self ∧
          _history self2 = _history self ∧
          _device self2 =
            (if eq_str (device a) "hpu"
             then if is_hpu_available then PyStr "hpu" else PyStr "cpu"
             else if eq_str (device a) "cpu" then PyStr "cpu"
             else if eq_str (_device self) "hpu" && negb is_hpu_available
             then PyStr "cpu" else _device self) ∧
          ipex2 = (if eq_str (device a) "hpu" && is_hpu_available
                   then PyBool false
                   else if eq_str (_device self2) "hpu" && truthy (ipex_optimize a)
                   then PyBool false else ipex_optimize a))
    as (Hm2 & Ho2 & Hn2 & Hh2 & Hd2 & Hi2).
  { subst ipex1.
    destruct (eq_str (device a) "hpu") eqn:Hhpu,
             is_hpu_available eqn:Havail,
             (eq_str (device a) "cpu") eqn:Hcpu;
      rewrite Hd1 in Hdev2; cbn [andb negb eq_str String.eqb Ascii.eqb
                                 Bool.eqb truthy] in Hdev2;
      try (injection Hdev2 as <- <-; cbn [_device set_device _model _optimizer
                                          _num_classes _history];
           rewrite ?Hd1; by split_and!).
    all: destruct (eq_str (_device self) "hpu") eqn:Hself;
      cbn [andb negb] in Hdev2; injection Hdev2 as <- <-;
      cbn [_device set_device _model _optimizer _num_classes _history];
      rewrite ?Hd1, ?Hself; cbn [andb];
      split_and!; try done; by destruct (truthy (ipex_optimize a)). }
  set (self3 := set_distributed (distributed a)
                  (set_enable_auto_mixed_precision
                     (resolved_mixed_precision cpu_type a) self2)).
  exists self3. split_and!; try done.
  - intros Htruthy Hints. rewrite Htruthy.
    destruct (extra_layers a) as [| | | | |layers] eqn:Hextra;
      try (eexists; split; [reflexivity|by left]).
    destruct (first_non_int layers) as [layer|] eqn:Hfind.
    + eexists. split; [reflexivity|]. right. by exists layers, layer.
    + apply first_non_int_None in Hfind. cbn in Hints. congruence.
  - change (_device self3) with (_device self2). rewrite <- Hi2.
    intros [Hfalsy|Hints]; [by rewrite Hfalsy|].
    destruct (truthy (extra_layers a)); [|done].
    destruct (extra_layers a) as [| | | | |layers]; try discriminate Hints.
    cbn in Hints. unfold first_non_int.
    destruct (List.find _ layers) as [layer|] eqn:Hfind; [|done].
    apply find_some in Hfind as [Hin Hnot].
    rewrite forallb_forall in Hints. rewrite (Hints _ Hin) in Hnot.
    discriminate Hnot.
Qed.

End Facts.

(** C7, witness: a string where a list of integers is expected. *)
Lemma train_rejects_extra_layers_witness :
  ∃ self',
    _model self' = _model fresh_model ∧
    _optimizer self' = _optimizer fresh_model ∧
    _num_classes self' = _num_classes fresh_model ∧
    _history self' = _history fresh_model ∧
    _distributed self' = distributed (example_args (PyStr "1024")) ∧
    _enable_auto_mixed_precision self'
      = resolved_mixed_precision (Ok "SPR") (example_args (PyStr "1024")) ∧
    _device self' =
      (if eq_str (device (example_args (PyStr "1024"))) "hpu"
       then if false then PyStr "hpu" else PyStr "cpu"
       else if eq_str (device (example_args (PyStr "1024"))) "cpu"
       then PyStr "cpu"
       else if eq_str (_device fresh_model) "hpu" && negb false
       then PyStr "cpu" else _device fresh_model) ∧
    (truthy (extra_layers (example_args (PyStr "1024"))) = true →
     is_int_list (extra_layers (example_args (PyStr "1024"))) = false →
     ∃ what,
       train false (Ok "SPR") (λ _, None)
             (λ _ _ _ self, (Ok (_history self), self))
             (example_args (PyStr "1024")) fresh_model
         = (Raise (Exn TypeError
                     ("The extra_layers parameter must be a list of ints but found "
                        +:+ what)), self') ∧
       (isinstance_list (extra_layers (example_args (PyStr "1024"))) = false ∧
        what = type_repr (extra_layers (example_args (PyStr "1024"))) ∨
        ∃ layers layer,
          extra_layers (example_args (PyStr "1024")) = PyList layers ∧
          first_non_int layers = Some layer ∧
          what = "a list containing " +:+ type_repr layer)) ∧
    (truthy (extra_layers (example_args (PyStr "1024"))) = false ∨
     is_int_list (extra_layers (example_args (PyStr "1024"))) = true →
     train false (Ok "SPR") (λ _, None)
           (λ _ _ _ self, (Ok (_history self), self))
           (example_args (PyStr "1024")) fresh_model
       = (λ _ _ _ self, (Ok (_history self), self))
           (example_args (PyStr "1024"))
           (if eq_str (device (example_args (PyStr "1024"))) "hpu" && false
            then PyBool false
            else if eq_str (_device self') "hpu"
                    && truthy (ipex_optimize (example_args (PyStr "1024")))
            then PyBool false
            else ipex_optimize (example_args (PyStr "1024")))
           (resolved_mixed_precision (Ok "SPR") (example_args (PyStr "1024")))
           self').
Proof.
  exact (train_rejects_extra_layers false (Ok "SPR") (λ _, None)
           (λ _ _ _ self, (Ok (_history self), self))
           (example_args (PyStr "1024")) fresh_model eq_refl).
Defined.

(** C7, as stated, fails twice.  The failed call has already assigned
    [_distributed] and [_enable_auto_mixed_precision], so the instance is
    not in its prior state; and an empty string, which is not a list of
    integers, raises nothing. *)
Lemma train_failure_mutates_fields :
  example_train (PyStr "1024")
    = (Raise (Exn TypeError
        "The extra_layers parameter must be a list of ints but found <class 'str'>"),
       Model None None None (PyBool true) (PyStr "cpu") (PyBool true) []) ∧
  (example_train (PyStr "1024")).2 ≠ fresh_model ∧
  is_int_list (PyStr "") = false ∧
  (example_train (PyStr "")).1 = Ok [].
Proof. repeat split; try reflexivity. discriminate. Qed.

End TorchvisionModelFacts.

(* ------------------------------------------------------------------ *)
(** *** Annotation tables read from a system                            *)
(* ------------------------------------------------------------------ *)

Module AnnotationRunFacts.
Import DataUtils StandIn GroupingFacts SplitFacts LabelMapFacts AnnotationFacts.

(** A subject that resolves to a row resolves to a row of its own. *)
Lemma resolved_patient df patient_id_list i r :
  resolved df patient_id_list i = Some r → patient_of r = i.
Proof.
  unfold resolved.
  destruct (unique _) as [|l [|l' ls]]; destruct patient_id_list;
    intros [= <-]; done.
Qed.

Lemma resolved_label df patient_id_list i r :
  resolved df patient_id_list i = Some r →
  (∃ r0, r0 ∈ df ∧ patient_of r0 = i ∧ label_of r0 = label_of r) ∨
  (is_Some patient_id_list ∧ label_of r = "Normal").
Proof.
  unfold resolved.
  destruct (unique (label_of <$> filter (λ r, patient_of r = i) df))
    as [|l [|l' ls]] eqn:Hu.
  - destruct patient_id_list; intros [= <-]. right. eauto.
  - intros [= <-]. left.
    assert (l ∈ label_of <$> filter (λ r, patient_of r = i) df) as Hl.
    { apply elem_of_unique. rewrite Hu. apply list_elem_of_here. }
    apply list_elem_of_fmap in Hl as (r0 & -> & Hr0).
    apply list_elem_of_filter in Hr0 as [Hp Hr0]. eauto.
  - destruct patient_id_list; intros [= <-]. right. eauto.
Qed.

Lemma resolved_data df patient_id_list i r :
  resolved df patient_id_list i = Some r →
  data_of r = str_join " " (data_of <$> filter (λ r, patient_of r = i) df).
Proof.
  unfold resolved.
  destruct (unique _) as [|l [|l' ls]]; destruct patient_id_list;
    intros [= <-]; done.
Qed.

Lemma omap_resolved_patients df patient_id_list (ids : list string) :
  patient_of <$> omap (resolved df patient_id_list) ids =
    filter (λ i, is_Some (resolved df patient_id_list i)) ids.
Proof.
  induction ids as [|i ids IH]; [done|].
  change (omap (resolved df patient_id_list) (i :: ids))
    with (match resolved df patient_id_list i with
          | Some r => r :: omap (resolved df patient_id_list) ids
          | None => omap (resolved df patient_id_list) ids
          end).
  rewrite filter_cons.
  destruct (resolved df patient_id_list i) as [r|] eqn:Hr.
  - rewrite decide_True by eauto. rewrite fmap_cons, IH.
    by rewrite (resolved_patient _ _ _ _ Hr).
  - rewrite decide_False; [done|]. by intros [? ?].
Qed.

(** With a subject list every subject resolves. *)
Lemma resolved_inference df ids i :
  is_Some (resolved df (Some ids) i).
Proof.
  unfold resolved. destruct (unique _) as [|l [|l' ls]]; eauto.
Qed.

(** Without one, a subject resolves exactly when it has one label. *)
Lemma resolved_training df i :
  is_Some (resolved df None i) ↔
  length (unique (label_of <$> filter (λ r, patient_of r = i) df)) = 1%nat.
Proof.
  unfold resolved. destruct (unique _) as [|l [|l' ls]]; cbn.
  - split; [by intros [? ?]|done].
  - split; [done|eauto].
  - split; [by intros [? ?]|done].
Qed.

(** Every label of the column has an index. *)
Lemma label2map_known (column : list string) (l : string) :
  l ∈ column → is_Some ((label2map column).1 !! l).
Proof.
  intros Hl. rewrite label2map_enumerate_maps.
  destruct (enumerate_maps_spec (unique column) (NoDup_unique column))
    as (Hlm & _ & _).
  apply elem_of_unique, list_elem_of_lookup in Hl as [i Hi].
  exists i. by apply Hlm.
Qed.

(** A split of a list in two by exclusive tests. *)
Lemma filter_exclusive {A} (P Q : A → Prop)
    `{∀ x, Decision (P x)} `{∀ x, Decision (Q x)} (l : list A) :
  (∀ x, P x → ¬ Q x) →
  filter P l ++ filter Q l ≡ₚ filter (λ x, P x ∨ Q x) l.
Proof.
  intros Hex. induction l as [|x l IH]; [done|].
  rewrite !filter_cons.
  destruct (decide (P x)) as [HP|HP], (decide (Q x)) as [HQ|HQ].
  - by destruct (Hex x).
  - rewrite decide_True by eauto. cbn. by rewrite IH.
  - rewrite decide_True by eauto.
    rewrite <- Permutation_middle. by rewrite IH.
  - rewrite decide_False by tauto. done.
Qed.

(** The loop of lines 104-115 from any rows already collected. *)
Lemma foldl_aggregate df patient_id_list (acc : list row) (ids : list string) :
  foldl (aggregate df patient_id_list) acc ids =
    acc ++ omap (resolved df patient_id_list) ids.
Proof.
  revert acc. induction ids as [|i ids IH]; intros acc.
  - cbn. by rewrite app_nil_r.
  - cbn [foldl]. rewrite IH, aggregate_resolved.
    change (omap (resolved df patient_id_list) (i :: ids))
      with (match resolved df patient_id_list i with
            | Some r => r :: omap (resolved df patient_id_list) ids
            | None => omap (resolved df patient_id_list) ids
            end).
    destruct (resolved df patient_id_list i); cbn; by rewrite <- app_assoc.
Qed.

Section Run.

Context {World : Type}.
Variable os_listdir : string → World → result (list string) * World.
Variable pd_read_csv : string → World → result (list row) * World.
Variable train_test_split :
  list string → float → Z → result (list string * list string).

Lemma lift_os_Ok {A} (f : World → result A * World) s a s1 :
  lift_os f s = (Ok a, s1) →
  ∃ w, f (os_state s) = (Ok a, w) ∧ s1 = Sys w (copied s) (printed s).
Proof.
  unfold lift_os. destruct (f (os_state s)) as [r w].
  intros [= -> <-]. eauto.
Qed.

Lemma extend_listings_Ok folder labels acc s names s' :
  extend_listings os_listdir folder labels acc s = (Ok names, s') →
  ∃ listings, listings_of os_listdir folder labels listings ∧
              names = acc ++ concat listings.
Proof.
  revert acc s. induction labels as [|label labels IH]; intros acc s;
    cbn [extend_listings].
  - intros [= <- <-]. exists []. split; [constructor|].
    cbn. by rewrite app_nil_r.
  - intros (fns & s1 & Hls & Hrest)%bind_Ok.
    apply listdir_Ok in Hls as [[w Hls] _].
    apply IH in Hrest as (listings & Hall & ->).
    exists (fns :: listings). split.
    + constructor; [by exists (os_state s), w|done].
    + cbn. by rewrite (assoc_L (++)).
Qed.

Lemma collect_patient_ids_Ok folder fldrs acc s ids s' :
  collect_patient_ids os_listdir folder fldrs acc s = (Ok ids, s') →
  ∃ listings, listings_of os_listdir folder fldrs listings ∧
              ids = acc ++ (get_subject_id <$> concat listings).
Proof.
  revert acc s. induction fldrs as [|fldr fldrs IH]; intros acc s;
    cbn [collect_patient_ids].
  - intros [= <- <-]. exists []. split; [constructor|].
    cbn. by rewrite app_nil_r.
  - intros (fns & s1 & Hls & Hrest)%bind_Ok.
    apply listdir_Ok in Hls as [[w Hls] _].
    apply IH in Hrest as (listings & Hall & ->).
    exists (fns :: listings). split.
    + constructor; [by exists (os_state s), w|done].
    + cbn. by rewrite fmap_app, (assoc_L (++)).
Qed.

Lemma filter_ext_elem {A} (P Q : A → Prop)
    `{∀ x, Decision (P x)} `{∀ x, Decision (Q x)} (l : list A) :
  (∀ x, P x ↔ Q x) → filter P l = filter Q l.
Proof.
  intros HPQ. induction l as [|x l IH]; [done|].
  rewrite !filter_cons, IH.
  destruct (decide (P x)) as [HP|HP].
  - by rewrite decide_True by by apply HPQ.
  - by rewrite decide_False by by rewrite <- HPQ.
Qed.

(** The shape of every run of [read_annotation_file] that returns. *)
Lemma read_annotation_file_Ok folder file_name patient_id_list
    image_data_folder s df_new label_map reverse_label_map s' :
  read_annotation_file os_listdir pd_read_csv folder file_name
    patient_id_list image_data_folder s
    = (Ok (df_new, label_map, reverse_label_map), s') →
  ∃ df w kept,
    pd_read_csv (path_join folder file_name) (os_state s) = (Ok df, w) ∧
    (label_map, reverse_label_map) = label2map (label_of <$> df) ∧
    kept_rows os_listdir df patient_id_list image_data_folder kept ∧
    df_new = omap (resolved kept patient_id_list) (unique (patient_of <$> kept)).
Proof.
  unfold read_annotation_file.
  intros (df & s1 & Hread & H)%bind_Ok.
  apply lift_os_Ok in Hread as (w & Hread & ->).
  destruct (label2map (label_of <$> df)) as [lm rlm] eqn:Hmaps.
  apply bind_Ok in H as (kept & s2 & Hkept & H).
  injection H as <- <- <- <-.
  exists df, w, kept. split; [done|]. split; [done|].
  split; [|apply (foldl_aggregate _ _ [])].
  destruct patient_id_list as [ids|]; cbn.
  - by injection Hkept as <- <-.
  - apply bind_Ok in Hkept as (labels & s3 & Hls & Hkept).
    apply bind_Ok in Hkept as (names & s4 & Hnames & Hkept).
    injection Hkept as <- <-.
    apply listdir_Ok in Hls as [[w' Hls] _].
    apply extend_listings_Ok in Hnames as (listings & Hall & ->).
    exists labels, listings. split; [by eexists _, _|]. split; [done|].
    apply filter_ext_elem. intros r. cbn.
    rewrite sort_Permutation. apply elem_of_unique.
Qed.

(** One row per subject.  In every run of [read_annotation_file] that
    returns, no two rows of the result have the same subject; every row's
    subject is a subject of the table read (and of the subject list, when
    one is passed); its text is the space-joined text of the subject's rows
    in table order; and its label is a label the table gives that subject,
    which [label_map] then knows, or else the placeholder ["Normal"], which
    occurs only when a subject list is passed. *)
Theorem read_annotation_file_rows folder file_name patient_id_list
    image_data_folder s df_new label_map reverse_label_map s' :
  read_annotation_file os_listdir pd_read_csv folder file_name
    patient_id_list image_data_folder s
    = (Ok (df_new, label_map, reverse_label_map), s') →
  ∃ df w kept,
    pd_read_csv (path_join folder file_name) (os_state s) = (Ok df, w) ∧
    kept_rows os_listdir df patient_id_list image_data_folder kept ∧
    NoDup (patient_of <$> df_new) ∧
    ∀ r, r ∈ df_new →
      (∀ ids, patient_id_list = Some ids → patient_of r ∈ ids) ∧
      data_of r = str_join " " (data_of <$>
                    filter (λ r0, patient_of r0 = patient_of r) kept) ∧
      ((∃ r0, r0 ∈ df ∧ patient_of r0 = patient_of r ∧
              label_of r0 = label_of r ∧ is_Some (label_map !! label_of r)) ∨
       (is_Some patient_id_list ∧ label_of r = "Normal")).
Proof.
  intros (df & w & kept & Hread & Hmaps & Hkept & ->)%read_annotation_file_Ok.
  exists df, w, kept. split; [done|]. split; [done|].
  assert (∀ r0, r0 ∈ kept → r0 ∈ df ∧
            ∀ ids, patient_id_list = Some ids → patient_of r0 ∈ ids) as Hsub.
  { intros r0. destruct patient_id_list as [ids|]; cbn in Hkept.
    - subst kept. intros [? ?]%list_elem_of_filter.
      split; [done|]. by intros ? [= <-].
    - destruct Hkept as (? & ? & _ & _ & ->).
      intros [? ?]%list_elem_of_filter. by split. }
  split.
  { rewrite omap_resolved_patients. apply NoDup_filter, NoDup_unique. }
  intros r (i & Hi & Hr)%list_elem_of_omap.
  pose proof (resolved_patient _ _ _ _ Hr) as Hp.
  split_and!.
  - intros ids ->. apply elem_of_unique, list_elem_of_fmap in Hi
      as (r0 & -> & Hr0). rewrite Hp. by apply (Hsub r0 Hr0).
  - rewrite Hp. by apply (resolved_data _ _ _ _ Hr).
  - destruct (resolved_label _ _ _ _ Hr) as [(r0 & Hr0 & Hp0 & Hl0)|Hnormal];
      [left|by right].
    exists r0. destruct (Hsub r0 Hr0) as [Hdf _].
    split_and!; [done|congruence|done|].
    rewrite <- Hl0.
    replace label_map with (label2map (label_of <$> df)).1
      by by rewrite <- Hmaps.
    apply label2map_known, list_elem_of_fmap. eauto.
Qed.

(** Who is kept.  The subjects of the result are, in order of first
    appearance, all the subjects of the aggregated rows when a subject list
    is passed, and those with exactly one distinct label otherwise. *)
Theorem read_annotation_file_subjects folder file_name patient_id_list
    image_data_folder s df_new label_map reverse_label_map s' :
  read_annotation_file os_listdir pd_read_csv folder file_name
    patient_id_list image_data_folder s
    = (Ok (df_new, label_map, reverse_label_map), s') →
  ∃ df w kept,
    pd_read_csv (path_join folder file_name) (os_state s) = (Ok df, w) ∧
    kept_rows os_listdir df patient_id_list image_data_folder kept ∧
    patient_of <$> df_new =
      filter (λ i, is_Some patient_id_list ∨
                   length (unique (label_of <$>
                             filter (λ r, patient_of r = i) kept)) = 1%nat)
             (unique (patient_of <$> kept)).
Proof.
  intros (df & w & kept & Hread & Hmaps & Hkept & ->)%read_annotation_file_Ok.
  exists df, w, kept. split; [done|]. split; [done|].
  rewrite omap_resolved_patients. apply filter_ext_elem. intros i.
  destruct patient_id_list as [ids|].
  - split; [eauto|]. intros _. apply resolved_inference.
  - rewrite resolved_training. split; [by right|].
    intros [[? [=]]|?]; done.
Qed.

(** *** The subject list and the split of the table *)

Lemma sort_StronglySorted (l : list string) : StronglySorted String.le (sort l).
Proof. unfold sort. apply (StronglySorted_merge_sort String.le); apply _. Qed.

Lemma create_patient_id_list_Ok image_data_folder folder s ids s' :
  create_patient_id_list os_listdir image_data_folder folder s = (Ok ids, s') →
  ∃ fldrs listings,
    listed_at os_listdir (path_join folder image_data_folder) fldrs ∧
    listings_of os_listdir (path_join folder image_data_folder) fldrs listings ∧
    ids = sort (unique (get_subject_id <$> concat listings)).
Proof.
  unfold create_patient_id_list.
  intros (fldrs & s1 & Hls & H)%bind_Ok.
  apply bind_Ok in H as (l & s2 & Hl & H). injection H as <- <-.
  apply listdir_Ok in Hls as [[w Hls] _].
  apply collect_patient_ids_Ok in Hl as (listings & Hall & ->).
  exists fldrs, listings. split; [by eexists _, _|]. by split.
Qed.

Lemma create_train_test_set_Ok df patient_id_list df_train df_test :
  create_train_test_set train_test_split df patient_id_list
    = Ok (df_train, df_test) →
  ∃ train_label test_label,
    train_test_split patient_id_list 0.33%float 42
      = Ok (train_label, test_label) ∧
    df_train = filter (λ r, patient_of r ∈ train_label) df ∧
    df_test = filter (λ r, patient_of r ∈ test_label) df.
Proof.
  unfold create_train_test_set.
  destruct (train_test_split patient_id_list 0.33%float 42)
    as [[train_label test_label]|e]; [|discriminate].
  intros [= <- <-]. by exists train_label, test_label.
Qed.

Lemma listings_of_stable parent fldrs listings1 listings2 :
  stable_listing os_listdir →
  listings_of os_listdir parent fldrs listings1 →
  listings_of os_listdir parent fldrs listings2 →
  listings1 = listings2.
Proof.
  intros Hstable H1. revert listings2.
  induction H1 as [|fldr fns1 fldrs listings1 (w1 & w1' & Hfns1) _ IH];
    intros listings2 H2; inversion H2 as [|? fns2 ? ? (w2 & w2' & Hfns2)];
    subst; [done|].
  f_equal; [by eapply Hstable|by apply IH].
Qed.

(** The subject list.  When [create_patient_id_list] returns, the list is
    in ascending order and has no duplicates, and its members are exactly
    the subject ids of the files found in the folders of the image
    folder. *)
Theorem create_patient_id_list_sorted image_data_folder folder s ids s' :
  create_patient_id_list os_listdir image_data_folder folder s = (Ok ids, s') →
  StronglySorted String.le ids ∧ NoDup ids ∧
  ∃ fldrs listings,
    listed_at os_listdir (path_join folder image_data_folder) fldrs ∧
    listings_of os_listdir (path_join folder image_data_folder) fldrs listings ∧
    ∀ x, x ∈ ids ↔ ∃ f, f ∈ concat listings ∧ get_subject_id f = x.
Proof.
  intros (fldrs & listings & Hls & Hall & ->)%create_patient_id_list_Ok.
  split; [apply sort_StronglySorted|].
  split; [rewrite sort_Permutation; apply NoDup_unique|].
  exists fldrs, listings. split; [done|]. split; [done|].
  intros x. rewrite sort_Permutation, elem_of_unique, list_elem_of_fmap.
  split; intros (f & ? & ?); eauto.
Qed.

Hypothesis train_test_split_spec : is_train_test_split train_test_split.

(** The split of the table.  For a subject list without duplicates, no
    subject has rows in both frames, the two frames together hold exactly
    the rows of the listed subjects, and each keeps the order of the
    table. *)
Theorem create_train_test_set_no_leakage df patient_id_list df_train df_test :
  NoDup patient_id_list →
  create_train_test_set train_test_split df patient_id_list
    = Ok (df_train, df_test) →
  (∀ r1 r2, r1 ∈ df_train → r2 ∈ df_test → patient_of r1 ≠ patient_of r2) ∧
  df_train ++ df_test ≡ₚ filter (λ r, patient_of r ∈ patient_id_list) df ∧
  df_train `sublist_of` df ∧ df_test `sublist_of` df.
Proof.
  intros Hnd (tr & te & Hsplit & -> & ->)%create_train_test_set_Ok.
  apply train_test_split_spec in Hsplit.
  rewrite <- Hsplit in Hnd. apply NoDup_app in Hnd as (_ & Hdis & _).
  split_and!.
  - intros r1 r2 [H1 _]%list_elem_of_filter [H2 _]%list_elem_of_filter Heq.
    apply (Hdis (patient_of r1)); [done|]. by rewrite Heq.
  - rewrite filter_exclusive by (intros r; apply Hdis).
    erewrite filter_ext_elem; [done|].
    intros r. cbn. by rewrite <- Hsplit, elem_of_app.
  - apply sublist_filter.
  - apply sublist_filter.
Qed.

(** The train frame of [split_annotation].  When the call returns, the
    frame has one row per subject; every row belongs to a subject of the
    train part of the split of the sorted, duplicate-free subject list, and
    to none of the test part; and its label is one the table gives that
    subject. *)
Theorem split_annotation_train_frame folder file_name image_data_folder
    s df_train s' :
  split_annotation os_listdir pd_read_csv train_test_split
    folder file_name image_data_folder s = (Ok df_train, s') →
  NoDup (patient_of <$> df_train) ∧
  ∃ df w patient_id_list train_label test_label,
    pd_read_csv (path_join folder file_name) (os_state s) = (Ok df, w) ∧
    StronglySorted String.le patient_id_list ∧ NoDup patient_id_list ∧
    train_test_split patient_id_list 0.33%float 42
      = Ok (train_label, test_label) ∧
    ∀ r, r ∈ df_train →
      patient_of r ∈ train_label ∧ (patient_of r ∉ test_label) ∧
      ∃ r0, r0 ∈ df ∧ patient_of r0 = patient_of r ∧ label_of r0 = label_of r.
Proof.
  unfold split_annotation.
  intros ([[df_new lm] rlm] & s1 & Hread & H)%bind_Ok.
  apply bind_Ok in H as (ids & s2 & Hids & H).
  apply bind_Ok in H as ([df_tr df_te] & s3 & Hsplit & H).
  injection H as <- <-. injection Hsplit as Hsplit _.
  apply read_annotation_file_Ok
    in Hread as (df & w & kept & Hcsv & _ & Hkept & ->).
  apply create_patient_id_list_Ok in Hids as (fldrs & listings & _ & _ & ->).
  apply create_train_test_set_Ok in Hsplit as (tr & te & Hsplit & -> & _).
  split.
  { eapply sublist_NoDup; [|apply fmap_sublist, sublist_filter].
    rewrite omap_resolved_patients. apply NoDup_filter, NoDup_unique. }
  exists df, w, (sort (unique (get_subject_id <$> concat listings))), tr, te.
  split; [done|]. split; [apply sort_StronglySorted|].
  assert (NoDup (sort (unique (get_subject_id <$> concat listings)))) as Hnd
    by (rewrite sort_Permutation; apply NoDup_unique).
  split; [done|]. split; [done|].
  intros r [Hr Hin]%list_elem_of_filter.
  apply train_test_split_spec in Hsplit.
  rewrite <- Hsplit in Hnd. apply NoDup_app in Hnd as (_ & Hdis & _).
  split; [done|]. split; [by apply Hdis|].
  apply list_elem_of_omap in Hin as (i & Hi & Hres).
  pose proof (resolved_patient _ _ _ _ Hres) as Hp.
  destruct (resolved_label _ _ _ _ Hres) as [(r0 & Hr0 & Hp0 & Hl0)|[[? [=]] _]].
  exists r0. split; [|by rewrite Hp].
  destruct Hkept as (? & ? & _ & _ & ->).
  by apply list_elem_of_filter in Hr0 as [_ ?].
Qed.

(** Every subject takes a side.  When the image folder is the same
    directory with and without the annotation folder in front (an absolute
    path is), and listing a folder twice gives the same names, the frame
    [split_annotation] returns is the train part of the frame
    [read_annotation_file] built, and every row it leaves out belongs to a
    subject of the test part. *)
Theorem split_annotation_covers folder file_name image_data_folder
    s df_train s' :
  stable_listing os_listdir →
  path_join folder image_data_folder = image_data_folder →
  split_annotation os_listdir pd_read_csv train_test_split
    folder file_name image_data_folder s = (Ok df_train, s') →
  ∃ df_new label_map reverse_label_map s1 patient_id_list train_label test_label,
    read_annotation_file os_listdir pd_read_csv folder file_name None
      image_data_folder s = (Ok (df_new, label_map, reverse_label_map), s1) ∧
    train_test_split patient_id_list 0.33%float 42
      = Ok (train_label, test_label) ∧
    df_train = filter (λ r, patient_of r ∈ train_label) df_new ∧
    ∀ r, r ∈ df_new → r ∉ df_train → patient_of r ∈ test_label.
Proof.
  intros Hstable Hsame. unfold split_annotation.
  intros ([[df_new lm] rlm] & s1 & Hread & H)%bind_Ok.
  apply bind_Ok in H as (ids & s2 & Hids & H).
  apply bind_Ok in H as ([df_tr df_te] & s3 & Hsplit & H).
  injection H as <- <-. injection Hsplit as Hsplit _.
  apply create_train_test_set_Ok in Hsplit as (tr & te & Hsplit & -> & _).
  exists df_new, lm, rlm, s1, ids, tr, te.
  split; [done|]. split; [done|]. split; [done|].
  apply read_annotation_file_Ok
    in Hread as (df & w & kept & Hcsv & _ & Hkept & ->).
  apply create_patient_id_list_Ok in Hids as (fldrs & listings & Hls & Hall & ->).
  destruct Hkept as (labels & listings' & Hls' & Hall' & ->).
  rewrite Hsame in Hls, Hall.
  destruct Hls as (w1 & w1' & Hls), Hls' as (w2 & w2' & Hls').
  pose proof (Hstable _ _ _ _ _ _ _ Hls Hls') as ->.
  pose proof (listings_of_stable _ _ _ _ Hstable Hall Hall') as ->.
  intros r Hr Hout.
  assert (patient_of r ∈ tr ++ te) as [Htr|Hte]%elem_of_app; [| |done].
  - rewrite (train_test_split_spec _ _ _ _ _ Hsplit).
    rewrite sort_Permutation, elem_of_unique.
    apply list_elem_of_omap in Hr as (i & Hi & Hres).
    rewrite (resolved_patient _ _ _ _ Hres).
    apply elem_of_unique, list_elem_of_fmap in Hi as (r0 & -> & Hr0).
    by apply list_elem_of_filter in Hr0 as [? _].
  - destruct Hout. by apply list_elem_of_filter.
Qed.

End Run.

(** *** Concrete runs *)

Lemma example_read_inference_Ok :
  read_annotation_file (table_listdir example_images)
    (table_read_csv example_table) "annotation" "annotation.csv"
    (Some ["1L"; "2R"]) "images" (Sys () [] [])
  = (Ok (example_rows_inference, example_maps.1, example_maps.2), Sys () [] []).
Proof. vm_compute. reflexivity. Qed.

Lemma example_read_training_Ok :
  read_annotation_file (table_listdir example_images)
    (table_read_csv example_table) "annotation" "annotation.csv"
    None "images" (Sys () [] [])
  = (Ok (example_rows_training, example_maps.1, example_maps.2), Sys () [] []).
Proof. vm_compute. reflexivity. Qed.

Lemma example_patient_ids_Ok :
  create_patient_id_list (table_listdir example_abs_images)
    "/images" "annotation" (Sys () [] [])
  = (Ok ["1L"; "2R"; "3L"; "4R"], Sys () [] []).
Proof. vm_compute. reflexivity. Qed.

Lemma example_patient_ids_NoDup : NoDup ["1L"; "2R"; "3L"; "4R"].
Proof. apply (bool_decide_unpack (NoDup _)). vm_compute. exact I. Qed.

Lemma example_train_test_set_Ok :
  create_train_test_set ordered_split example_visits ["1L"; "2R"; "3L"; "4R"]
  = Ok (take 4 example_visits, [Row "Malignant" "spiculated" "4R"]).
Proof. vm_compute. reflexivity. Qed.

Lemma example_split_annotation_Ok :
  split_annotation (table_listdir example_abs_images)
    (table_read_csv example_visits) ordered_split
    "annotation" "annotation.csv" "/images" (Sys () [] [])
  = (Ok example_train_frame, Sys () [] []).
Proof. vm_compute. reflexivity. Qed.

Lemma table_listdir_stable tree : stable_listing (table_listdir tree).
Proof.
  intros path w1 w1' w2 w2' fns1 fns2. unfold table_listdir.
  destruct (dict_get path tree); [|discriminate]. by intros [= <- _] [= <- _].
Qed.

(** A read with a subject list: the conflicting subject gets the
    placeholder. *)
Lemma read_annotation_file_rows_witness :
  ∃ df w kept,
    table_read_csv example_table (path_join "annotation" "annotation.csv")
      (os_state (Sys () [] [])) = (Ok df, w) ∧
    kept_rows (table_listdir example_images) df (Some ["1L"; "2R"]) "images" kept ∧
    NoDup (patient_of <$> example_rows_inference) ∧
    ∀ r, r ∈ example_rows_inference →
      (∀ ids, Some ["1L"; "2R"] = Some ids → patient_of r ∈ ids) ∧
      data_of r = str_join " " (data_of <$>
                    filter (λ r0, patient_of r0 = patient_of r) kept) ∧
      ((∃ r0, r0 ∈ df ∧ patient_of r0 = patient_of r ∧
              label_of r0 = label_of r ∧ is_Some (example_maps.1 !! label_of r)) ∨
       (is_Some (Some ["1L"; "2R"]) ∧ label_of r = "Normal")).
Proof.
  exact (read_annotation_file_rows _ _ _ _ _ _ _ _ _ _ _
           example_read_inference_Ok).
Defined.

(** A read without a subject list: the conflicting subject is left out. *)
Lemma read_annotation_file_subjects_witness :
  ∃ df w kept,
    table_read_csv example_table (path_join "annotation" "annotation.csv")
      (os_state (Sys () [] [])) = (Ok df, w) ∧
    kept_rows (table_listdir example_images) df None "images" kept ∧
    patient_of <$> example_rows_training =
      filter (λ i, is_Some (@None (list string)) ∨
                   length (unique (label_of <$>
                             filter (λ r, patient_of r = i) kept)) = 1%nat)
             (unique (patient_of <$> kept)).
Proof.
  exact (read_annotation_file_subjects _ _ _ _ _ _ _ _ _ _ _
           example_read_training_Ok).
Defined.

(** The subject list of five images of four subjects. *)
Lemma create_patient_id_list_sorted_witness :
  StronglySorted String.le ["1L"; "2R"; "3L"; "4R"] ∧
  NoDup ["1L"; "2R"; "3L"; "4R"] ∧
  ∃ fldrs listings,
    listed_at (table_listdir example_abs_images)
      (path_join "annotation" "/images") fldrs ∧
    listings_of (table_listdir example_abs_images)
      (path_join "annotation" "/images") fldrs listings ∧
    ∀ x, x ∈ ["1L"; "2R"; "3L"; "4R"] ↔
         ∃ f, f ∈ concat listings ∧ get_subject_id f = x.
Proof.
  exact (create_patient_id_list_sorted _ _ _ _ _ _ example_patient_ids_Ok).
Defined.

(** Four subjects, the last of which is the test part. *)
Lemma create_train_test_set_no_leakage_witness :
  is_train_test_split ordered_split ∧
  (∀ r1 r2, r1 ∈ take 4 example_visits →
            r2 ∈ [Row "Malignant" "spiculated" "4R"] →
            patient_of r1 ≠ patient_of r2) ∧
  take 4 example_visits ++ [Row "Malignant" "spiculated" "4R"]
    ≡ₚ filter (λ r, patient_of r ∈ ["1L"; "2R"; "3L"; "4R"]) example_visits ∧
  take 4 example_visits `sublist_of` example_visits ∧
  [Row "Malignant" "spiculated" "4R"] `sublist_of` example_visits.
Proof.
  split; [exact ordered_split_spec|].
  exact (create_train_test_set_no_leakage ordered_split ordered_split_spec
           _ _ _ _ example_patient_ids_NoDup example_train_test_set_Ok).
Defined.

(** The train frame of a table of six visits. *)
Lemma split_annotation_train_frame_witness :
  is_train_test_split ordered_split ∧
  NoDup (patient_of <$> example_train_frame) ∧
  ∃ df w patient_id_list train_label test_label,
    table_read_csv example_visits (path_join "annotation" "annotation.csv")
      (os_state (Sys () [] [])) = (Ok df, w) ∧
    StronglySorted String.le patient_id_list ∧ NoDup patient_id_list ∧
    ordered_split patient_id_list 0.33%float 42
      = Ok (train_label, test_label) ∧
    ∀ r, r ∈ example_train_frame →
      patient_of r ∈ train_label ∧ (patient_of r ∉ test_label) ∧
      ∃ r0, r0 ∈ df ∧ patient_of r0 = patient_of r ∧ label_of r0 = label_of r.
Proof.
  split; [exact ordered_split_spec|].
  exact (split_annotation_train_frame _ _ ordered_split ordered_split_spec
           _ _ _ _ _ _ example_split_annotation_Ok).
Defined.

(** The same call: the image folder is given by an absolute path. *)
Lemma split_annotation_covers_witness :
  is_train_test_split ordered_split ∧
  stable_listing (table_listdir example_abs_images) ∧
  path_join "annotation" "/images" = "/images" ∧
  ∃ df_new label_map reverse_label_map s1 patient_id_list train_label test_label,
    read_annotation_file (table_listdir example_abs_images)
      (table_read_csv example_visits) "annotation" "annotation.csv" None
      "/images" (Sys () [] [])
      = (Ok (df_new, label_map, reverse_label_map), s1) ∧
    ordered_split patient_id_list 0.33%float 42
      = Ok (train_label, test_label) ∧
    example_train_frame = filter (λ r, patient_of r ∈ train_label) df_new ∧
    ∀ r, r ∈ df_new → r ∉ example_train_frame → patient_of r ∈ test_label.
Proof.
  split; [exact ordered_split_spec|].
  split; [exact (table_listdir_stable example_abs_images)|].
  split; [reflexivity|].
  exact (split_annotation_covers _ _ ordered_split ordered_split_spec
           _ _ _ _ _ _ (table_listdir_stable example_abs_images) eq_refl
           example_split_annotation_Ok).
Defined.

End AnnotationRunFacts.

(* ------------------------------------------------------------------ *)
(** *** Subject ids of paths                                            *)
(* ------------------------------------------------------------------ *)

Module SubjectIdFacts.
Import DataUtils SubjectKeys.

Lemma append_assoc (a b c : string) : (a +:+ b) +:+ c = a +:+ (b +:+ c).
Proof.
  induction a as [|x a IH]; [done|]. rewrite !append_cons. by rewrite IH.
Qed.

(** Whatever comes before a separator, the tokens of what follows come
    last. *)
Lemma str_split_after sep d f :
  ∃ t ts, str_split sep (d +:+ String sep f) = t :: ts ++ str_split sep f.
Proof.
  induction d as [|c d (t & ts & IH)].
  - rewrite append_nil. cbn [str_split]. rewrite Ascii.eqb_refl.
    by exists "", [].
  - rewrite append_cons. cbn [str_split]. rewrite IH.
    destruct (Ascii.eqb c sep); [by exists "", (t :: ts)|].
    by exists (String c t), ts.
Qed.

Lemma last_str_split_after sep d f :
  last (str_split sep (d +:+ String sep f)) = last (str_split sep f).
Proof.
  destruct (str_split_after sep d f) as (t & ts & ->).
  pose proof (str_split_nonempty sep f) as Hne.
  destruct (str_split sep f) as [|u us]; [done|].
  apply (last_app_cons (t :: ts)).
Qed.

Lemma str_endswith_app c d :
  str_endswith c d = true → ∃ d0, d = d0 +:+ String c "".
Proof.
  induction d as [|x d IH]; [done|]. cbn [str_endswith].
  destruct d as [|y d].
  - intros ->%Ascii.eqb_eq. by exists "".
  - intros [d0 Hd0]%IH. exists (String x d0). by rewrite append_cons, <- Hd0.
Qed.

(** The subject id of a file does not depend on the folder it is in:
    [get_subject_id] gives a path made with [os.path.join] the id it gives
    the file name. *)
Theorem get_subject_id_ignores_directory (d f : string) :
  get_subject_id (path_join d f) = get_subject_id f.
Proof.
  unfold path_join. destruct (String.prefix "/" f); [done|].
  assert (∀ d0, get_subject_id (d0 +:+ String "/" f) = get_subject_id f)
    as Hlast.
  { intros d0. unfold get_subject_id. by rewrite last_str_split_after. }
  destruct (String.eqb_spec d "") as [->|_]; cbn [orb].
  - by rewrite append_nil.
  - destruct (str_endswith "/" d) eqn:Hend.
    + apply str_endswith_app in Hend as [d0 ->].
      rewrite append_assoc. apply Hlast.
    + apply Hlast.
Qed.

Lemma append_inv_head (p a b : string) : p +:+ a = p +:+ b → a = b.
Proof.
  induction p as [|x p IH]; [done|]. rewrite !append_cons.
  intros [= ?]. by apply IH.
Qed.

(** Subject ids are coarser than grouping keys.  Moving the first
    character of the second token of a file name to the end of the first
    token leaves the subject id of [get_subject_id] as it is, and changes
    the key [split_images] groups by: files of one subject id can fall on
    both sides of the physical split. *)
Theorem subject_id_coarser_than_grouping_key (p q r : string) (c : ascii) :
  str_contains "_" p = false → str_contains "/" p = false →
  str_contains "_" q = false → str_contains "/" q = false →
  c ≠ "_"%char → c ≠ "/"%char → str_contains "/" r = false →
  get_subject_id (p +:+ "_" +:+ String c q +:+ "_" +:+ r) =
    get_subject_id ((p +:+ String c "") +:+ "_" +:+ q +:+ "_" +:+ r) ∧
  fns_root_of (p +:+ "_" +:+ String c q +:+ "_" +:+ r) ≠
    fns_root_of ((p +:+ String c "") +:+ "_" +:+ q +:+ "_" +:+ r).
Proof.
  intros Hp Hp' Hq Hq' Hc%Ascii.eqb_neq Hc'%Ascii.eqb_neq Hr.
  assert (str_contains "_" (String c q) = false) as Hcq
    by (cbn; by rewrite Hc, Hq).
  assert (str_contains "_" (p +:+ String c "") = false) as Hpc
    by (rewrite str_contains_app, Hp; cbn; by rewrite Hc).
  assert (str_split "_" (p +:+ "_" +:+ String c q +:+ "_" +:+ r)
          = p :: String c q :: str_split "_" r) as Ha.
  { change (p +:+ "_" +:+ String c q +:+ "_" +:+ r)
      with (p +:+ String "_" (String c q +:+ String "_" r)).
    rewrite str_split_app by done. by rewrite str_split_app. }
  assert (str_split "_" ((p +:+ String c "") +:+ "_" +:+ q +:+ "_" +:+ r)
          = (p +:+ String c "") :: q :: str_split "_" r) as Hb.
  { change ((p +:+ String c "") +:+ "_" +:+ q +:+ "_" +:+ r)
      with ((p +:+ String c "") +:+ String "_" (q +:+ String "_" r)).
    rewrite str_split_app by done. by rewrite str_split_app. }
  split.
  - rewrite !get_subject_id_plain.
    + rewrite Ha, Hb. cbn [take str_join].
      rewrite !append_nil. by rewrite append_assoc.
    + rewrite !str_contains_app. cbn. by rewrite Hp', Hq', Hr, Hc'.
    + rewrite !str_contains_app. cbn. by rewrite Hp', Hq', Hr, Hc'.
  - unfold fns_root_of. rewrite Ha, Hb. cbn [take str_join].
    rewrite append_assoc. intros Heq%append_inv_head.
    injection Heq as Heq _. rewrite Heq in Hc. by rewrite Ascii.eqb_refl in Hc.
Qed.

(** Two files with subject id [123]: the ids agree, the keys differ. *)
Lemma subject_id_coarser_than_grouping_key_witness :
  get_subject_id ("P1" +:+ "_" +:+ String "2" "3" +:+ "_" +:+ "x.jpg") =
    get_subject_id (("P1" +:+ String "2" "") +:+ "_" +:+ "3" +:+ "_" +:+ "x.jpg") ∧
  fns_root_of ("P1" +:+ "_" +:+ String "2" "3" +:+ "_" +:+ "x.jpg") ≠
    fns_root_of (("P1" +:+ String "2" "") +:+ "_" +:+ "3" +:+ "_" +:+ "x.jpg").
Proof.
  apply (subject_id_coarser_than_grouping_key "P1" "3" "x.jpg" "2");
    first [reflexivity | discriminate].
Defined.

End SubjectIdFacts.

(* ------------------------------------------------------------------ *)
(** *** Copying with a sample that is not a key                         *)
(* ------------------------------------------------------------------ *)

Module CopyFacts.
Import DataUtils StandIn GroupingFacts SplitFacts.

Section Run.

Context {World : Type}.
Variable shutil_copy2 : string → string → World → result unit * World.

Lemma for_each_app {A} (l1 l2 : list A) (body : A → @IO World unit) s :
  for_each (l1 ++ l2) body s =
    bind (for_each l1 body) (λ _, for_each l2 body) s.
Proof.
  revert s. induction l1 as [|x l1 IH]; intros s; [done|].
  cbn [app for_each]. unfold bind.
  destruct (body x s) as [[[]|e] s1]; [apply IH|done].
Qed.

(** No rollback.  When copies return, a sample that is not a key of the
    dictionary makes [copy_files_src_to_tgt] raise the [TypeError] of
    iterating over [None]; the files of the samples before it have been
    copied by then, and nothing after it is. *)
Theorem copy_files_missing_key (before : list string) (sample : string)
    (after : list string) (d : fdict) (src_folder tgt_folder : string)
    (s : @sys World) :
  (∀ src tgt, always_returns (shutil_copy2 src tgt)) →
  (∀ k, k ∈ before → k ∈ dict_keys d) →
  sample ∉ dict_keys d →
  ∃ s', copy_files_src_to_tgt shutil_copy2 (before ++ sample :: after) d
          src_folder tgt_folder s
        = (Raise (Exn TypeError "'NoneType' object is not iterable"), s') ∧
        copied s' = copied s ++ copies src_folder tgt_folder (files_of d before).
Proof.
  intros Hcopy Hbefore Hsample.
  destruct (copy_files_returns shutil_copy2 before d src_folder tgt_folder s
              Hcopy Hbefore) as [s1 Hs1].
  exists s1. split; [|by apply (copy_files_Ok shutil_copy2 _ _ _ _ _ _ Hs1)].
  unfold copy_files_src_to_tgt in *.
  rewrite for_each_app. erewrite bind_run; [|exact Hs1].
  cbn [for_each]. apply dict_get_None in Hsample. by rewrite Hsample.
Qed.

End Run.

Lemma table_copy2_returns src tgt : always_returns (table_copy2 src tgt).
Proof. intros w. by exists (), w. Qed.

Lemma example_dict_before k : k ∈ ["P1_L"] → k ∈ dict_keys example_dict.
Proof. intros ->%list_elem_of_singleton. apply list_elem_of_here. Qed.

Lemma example_dict_missing : "P9_L" ∉ dict_keys example_dict.
Proof. apply dict_get_None. reflexivity. Qed.

(** One subject copied, then a sample nobody listed. *)
Lemma copy_files_missing_key_witness :
  ∃ s', copy_files_src_to_tgt table_copy2 (["P1_L"] ++ "P9_L" :: ["P2_R"])
          example_dict "data" "out" (Sys () [] [])
        = (Raise (Exn TypeError "'NoneType' object is not iterable"), s') ∧
        copied s' = copied (Sys () [] [])
                    ++ copies "data" "out" (files_of example_dict ["P1_L"]).
Proof.
  exact (copy_files_missing_key table_copy2 ["P1_L"] "P9_L" ["P2_R"]
           example_dict "data" "out" (Sys () [] [])
           table_copy2_returns example_dict_before example_dict_missing).
Defined.

End CopyFacts.

(* ------------------------------------------------------------------ *)
(** *** The classifier [_get_hub_model] builds                          *)
(* ------------------------------------------------------------------ *)

Module HubModelFacts.
Import TorchvisionModel HubModel.

Lemma length_append classifier m :
  length (append classifier m) = S (length classifier).
Proof. unfold append. rewrite length_app. cbn. lia. Qed.

(** The loop appends to the classifier, two modules a layer, and leaves in
    [num_features] the size the output layer has to take. *)
Lemma add_layers_spec classifier num_features extra_layers :
  ∃ new,
    (add_layers classifier num_features extra_layers).1 = classifier ++ new ∧
    length new = (2 * length extra_layers)%nat ∧
    forallb trainable new.*2 = true ∧
    omap out_features new.*2 = extra_layers ∧
    ∀ n g, chained num_features
             (new.*2 ++ [Linear (add_layers classifier num_features
                                   extra_layers).2 n g]) n = true.
Proof.
  revert classifier num_features.
  induction extra_layers as [|layer extra_layers IH];
    intros classifier num_features; cbn [add_layers].
  - exists []. split_and!; [by rewrite app_nil_r|done|done|done|].
    intros n g. cbn. by rewrite !Z.eqb_refl.
  - destruct (IH (append (append classifier (Linear num_features layer true))
                         (ReLU true)) layer)
      as (new & Hnew & Hlen & Htr & Hsizes & Hch).
    exists ((repr_int (len classifier), Linear num_features layer true)
            :: (repr_int (len (append classifier
                                 (Linear num_features layer true))), ReLU true)
            :: new).
    split_and!.
    + rewrite Hnew. unfold append. by rewrite <- !(assoc_L (++)).
    + cbn [length]. rewrite Hlen. lia.
    + cbn. exact Htr.
    + rewrite !fmap_cons. cbn. by rewrite Hsizes.
    + intros n g. cbn [fmap list_fmap snd app].
      change (chained num_features
                (Linear num_features layer true :: ReLU true
                 :: (new.*2 ++ [Linear (add_layers
                      (append (append classifier
                                 (Linear num_features layer true)) (ReLU true))
                      layer extra_layers).2 n g])) n = true).
      cbn [chained]. rewrite Z.eqb_refl. cbn [andb].
      specialize (Hch n g).
      destruct (new.*2 ++ _) as [|? ?] eqn:Happ; [done|exact Hch].
Qed.

Lemma layers_of_default extra_layers cl nf :
  match layers_of extra_layers with
  | Some extra_layers => add_layers cl nf extra_layers
  | None => (cl, nf)
  end = add_layers cl nf (default [] extra_layers).
Proof. by destruct extra_layers as [[|? ?]|]. Qed.

(** A head that replaces a single layer. *)
Lemma head_only (name : string) num_classes extra_layers nf (m0 m : net) :
  match layers_of extra_layers with
  | Some extra_layers =>
      let '(layers, num_features) := add_layers [] nf extra_layers in
      (None, <[name := Sequential
                          (append layers (Linear num_features num_classes true))]> m0)
  | None =>
      (None, <[name := Sequential (append [] (Linear nf num_classes true))]> m0)
  end = (@None error, m) →
  ∃ head,
    m = <[name := Sequential head]> m0 ∧
    chained nf head.*2 num_classes = true ∧
    length head = S (2 * length (default [] extra_layers)) ∧
    forallb trainable head.*2 = true ∧
    omap out_features head.*2 = default [] extra_layers ++ [num_classes].
Proof.
  intros Hm.
  assert ((let '(layers, num_features) :=
             add_layers [] nf (default [] extra_layers) in
           (@None error,
            <[name := Sequential
                        (append layers (Linear num_features num_classes true))]> m0))
          = (None, m)) as Hm' by by destruct extra_layers as [[|? ?]|].
  clear Hm.
  destruct (add_layers_spec [] nf (default [] extra_layers))
    as (new & Hnew & Hlen & Htr & Hsizes & Hch).
  destruct (add_layers [] nf (default [] extra_layers)) as [layers nf'].
  cbn in Hnew, Hch. subst layers. injection Hm' as <-.
  exists (new ++ [(repr_int (len new), Linear nf' num_classes true)]).
  split_and!; [done| | | |].
  - rewrite fmap_app. apply Hch.
  - rewrite length_app. cbn. lia.
  - rewrite fmap_app, forallb_app, Htr. done.
  - by rewrite fmap_app, omap_app, Hsizes.
Qed.

Section Facts.

Context {Optimizer History : Type}.
Variable _model_name : string.
Variable _do_fine_tuning : pyval.
Variable _classification_layer : string * option Z.
Variable _model_downloader : string → outcome net.
Variable _optimizer_class : net → outcome Optimizer.
Variable ipex : net → Optimizer → bool → outcome (net * Optimizer).

Local Abbreviation get_hub_model :=
  (_get_hub_model _model_name _do_fine_tuning _classification_layer
                  _model_downloader _optimizer_class ipex).
Local Abbreviation head_attr := (head_attribute _classification_layer).

(** What a successful replacement leaves: the kept part of the old
    classifier followed by the new head, under the head's attribute, and
    every other attribute as it was. *)
Lemma replace_classifier_Done num_classes extra_layers (m0 m : net) :
  replace_classifier _classification_layer num_classes extra_layers m0
    = (None, m) →
  ∃ c num_features kept head,
    old_classifier _classification_layer m0 = Done c ∧
    in_features c = Done num_features ∧
    match _classification_layer with
    | (name, Some idx) =>
        ∃ base_model, getattr m0 name = Done base_model ∧
                      getslice base_model 0 idx = Done kept
    | (_, None) => kept = []
    end ∧
    m = <[head_attr := Sequential (kept ++ head)]> m0 ∧
    chained num_features head.*2 num_classes = true ∧
    length head = S (2 * length (default [] extra_layers)) ∧
    forallb trainable head.*2 = true ∧
    omap out_features head.*2 = default [] extra_layers ++ [num_classes].
Proof.
  unfold replace_classifier, old_classifier, head_attribute.
  destruct _classification_layer as [name [idx|]].
  - destruct (getattr m0 name) as [base_model|e]; [|discriminate].
    destruct (getitem base_model idx) as [c|e]; [|discriminate].
    destruct (getslice base_model 0 idx) as [kept|e] eqn:Hslice; [|discriminate].
    destruct (in_features c) as [nf|e] eqn:Hnf; [|discriminate].
    rewrite layers_of_default.
    destruct (add_layers_spec kept nf (default [] extra_layers))
      as (new & Hnew & Hlen & Htr & Hsizes & Hch).
    destruct (add_layers kept nf (default [] extra_layers)) as [layers nf'].
    cbn in Hnew, Hch. subst layers. intros [= <-].
    exists c, nf, kept,
      (new ++ [(repr_int (len (kept ++ new)), Linear nf' num_classes true)]).
    split_and!; [done|done|by exists base_model| | | | |].
    + rewrite insert_insert_eq. unfold append. by rewrite (assoc_L (++)).
    + rewrite fmap_app. apply Hch.
    + rewrite length_app. cbn. lia.
    + rewrite fmap_app, forallb_app, Htr. done.
    + by rewrite fmap_app, omap_app, Hsizes.
  - destruct (getattr m0 name) as [classifier|e]; [|discriminate].
    destruct (name =? "heads")%string.
    + destruct (child classifier "head") as [c|e]; [|discriminate].
      destruct (in_features c) as [nf|e] eqn:Hnf; [|discriminate].
      intros (head & -> & Hch & Hlen & Htr & Hsizes)%head_only.
      by exists c, nf, [], head.
    + destruct (in_features classifier) as [nf|e] eqn:Hnf; [|discriminate].
      intros (head & -> & Hch & Hlen & Htr & Hsizes)%head_only.
      by exists classifier, nf, [], head.
Qed.

(** A call on an instance without a network that returns has downloaded a
    network, replaced its classifier and built an optimizer for it; the
    result goes through IPEX when asked and not distributed. *)
Lemma get_hub_model_Done num_classes ipex_optimize extra_layers
    (self self' : @model net Optimizer History) r :
  _model self = None →
  get_hub_model num_classes ipex_optimize extra_layers self = (Done r, self') →
  ∃ m o,
    built _model_name _do_fine_tuning _classification_layer _model_downloader
          num_classes extra_layers m ∧
    _optimizer_class m = Done o ∧
    (if truthy ipex_optimize && negb (truthy (_distributed self))
     then ∃ m' o',
       ipex m o (truthy (_enable_auto_mixed_precision self)) = Done (m', o') ∧
       r = (m', Some o')
     else r = (m, Some o)) ∧
    _model self' = Some r.1 ∧ _optimizer self' = r.2 ∧
    _num_classes self' = Some num_classes.
Proof.
  intros Hnone. unfold _get_hub_model, built. rewrite Hnone.
  destruct (_model_downloader _model_name) as [base|e]; [|discriminate].
  destruct (replace_classifier _ _ _ _) as [[e|] m] eqn:Hm; [discriminate|].
  destruct (_optimizer_class m) as [o|e] eqn:Ho; [|discriminate].
  cbn [_distributed set_optimizer set_model _enable_auto_mixed_precision].
  destruct (truthy ipex_optimize && negb (truthy (_distributed self))).
  - destruct (ipex m o _) as [[m' o']|e] eqn:Hipex; [|discriminate].
    intros [= <- <-]. exists m, o. split; [by exists base|].
    split; [done|]. split; [by exists m', o'|]. done.
  - intros [= <- <-]. exists m, o. split; [by exists base|]. done.
Qed.

(** The new head.  When [_get_hub_model] returns on an instance without a
    network, the network the optimizer was built for (and returned, unless
    IPEX replaced it) holds under the head's attribute the kept part of the
    old classifier followed by a new head.  The kept part is the slice
    [[0:idx]] of the children of the configured attribute for a
    configuration with an index, and empty for one without.  The head is
    made of [Linear] layers chained from the input size of the layer
    replaced to [num_classes], a [ReLU] after each but the last, with the
    output sizes [extra_layers] followed by [num_classes]: two modules for
    every extra layer and one for the output.  No other attribute of the
    download has changed. *)
Theorem get_hub_model_head num_classes ipex_optimize extra_layers
    (self self' : @model net Optimizer History) r :
  _model self = None →
  get_hub_model num_classes ipex_optimize extra_layers self = (Done r, self') →
  ∃ base m o c num_features kept head,
    _model_downloader _model_name = Done base ∧
    _optimizer_class m = Done o ∧
    (truthy ipex_optimize && negb (truthy (_distributed self)) = false →
     r = (m, Some o)) ∧
    old_classifier _classification_layer
      (if negb (truthy _do_fine_tuning) then freeze <$> base else base)
      = Done c ∧
    in_features c = Done num_features ∧
    match _classification_layer with
    | (name, Some idx) =>
        ∃ children,
          (if negb (truthy _do_fine_tuning) then freeze <$> base else base)
            !! name = Some (Sequential children) ∧
          kept = slice children 0 idx
    | (_, None) => kept = []
    end ∧
    m !! head_attr = Some (Sequential (kept ++ head)) ∧
    (∀ k, k ≠ head_attr →
          m !! k = (if negb (truthy _do_fine_tuning)
                    then freeze <$> base else base) !! k) ∧
    chained num_features head.*2 num_classes = true ∧
    omap out_features head.*2 = default [] extra_layers ++ [num_classes] ∧
    length head = S (2 * length (default [] extra_layers)) ∧
    _num_classes self' = Some num_classes.
Proof.
  intros Hnone Hrun.
  destruct (get_hub_model_Done _ _ _ _ _ _ Hnone Hrun)
    as (m & o & (base & Hbase & Hm) & Ho & Hipex & _ & _ & Hn).
  apply replace_classifier_Done
    in Hm as (c & nf & kept & head & Hc & Hnf & Hkept & -> & Hch & Hlen & _
              & Hsizes).
  eexists base, _, o, c, nf, kept, head.
  split_and!; try done.
  - intros Hoff. by rewrite Hoff in Hipex.
  - destruct _classification_layer as [name [idx|]]; [|done].
    destruct Hkept as (base_model & Hget & Hslice). unfold getattr in Hget.
    destruct (_ !! name) as [b|] eqn:Hb; [|discriminate].
    injection Hget as ->.
    destruct base_model as [| |children|]; try discriminate.
    injection Hslice as <-. by exists children.
  - apply lookup_insert_eq.
  - intros k Hk. by apply lookup_insert_ne.
Qed.

Lemma frozen_freeze m : frozen (freeze m) = true.
Proof.
  revert m. fix IH 1. intros [i o g|b|l|k g]; cbn; try done.
  induction l as [|[n c] l IHl]; cbn; [done|]. by rewrite IH, IHl.
Qed.

Lemma getitem_slice_frozen l a b :
  forallb (λ c : string * module, frozen c.2) l = true →
  forallb (λ c : string * module, frozen c.2) (slice l a b) = true.
Proof.
  rewrite !forallb_forall. intros Hl c Hc. apply Hl.
  apply list_elem_of_In. apply list_elem_of_In in Hc.
  eapply elem_of_sublist; [exact Hc|].
  unfold slice. etrans; [apply sublist_take|apply sublist_drop].
Qed.

(** What is trained.  Without fine-tuning, in the network built by a call
    that returns on an instance without a network, the parameters of the
    new head require gradients and no other parameter does: not those of
    the kept part of the old classifier, nor those under any other
    attribute. *)
Theorem get_hub_model_freezes_base num_classes ipex_optimize extra_layers
    (self self' : @model net Optimizer History) r :
  truthy _do_fine_tuning = false →
  _model self = None →
  get_hub_model num_classes ipex_optimize extra_layers self = (Done r, self') →
  ∃ m o kept head,
    _optimizer_class m = Done o ∧
    (truthy ipex_optimize && negb (truthy (_distributed self)) = false →
     r = (m, Some o)) ∧
    m !! head_attr = Some (Sequential (kept ++ head)) ∧
    length head = S (2 * length (default [] extra_layers)) ∧
    forallb frozen kept.*2 = true ∧
    forallb trainable head.*2 = true ∧
    ∀ k c, k ≠ head_attr → m !! k = Some c → frozen c = true.
Proof.
  intros Hfine Hnone Hrun.
  destruct (get_hub_model_Done _ _ _ _ _ _ Hnone Hrun)
    as (m & o & (base & Hbase & Hm) & Ho & Hipex & _ & _ & Hn).
  rewrite Hfine in Hm. cbn [negb] in Hm.
  apply replace_classifier_Done
    in Hm as (c & nf & kept & head & Hc & Hnf & Hkept & -> & Hch & Hlen & Htr & _).
  eexists _, o, kept, head. split_and!; try done.
  - intros Hoff. by rewrite Hoff in Hipex.
  - apply lookup_insert_eq.
  - destruct _classification_layer as [name [idx|]]; [|by subst kept].
    destruct Hkept as (base_model & Hget & Hslice). unfold getattr in Hget.
    destruct (_ !! name) as [b|] eqn:Hb; [|discriminate].
    injection Hget as ->. rewrite lookup_fmap in Hb.
    destruct (base !! name) as [b0|]; [|discriminate]. injection Hb as <-.
    pose proof (frozen_freeze b0) as Hfrozen.
    destruct (freeze b0) as [| |l|]; try discriminate.
    injection Hslice as <-. cbn [frozen] in Hfrozen.
    rewrite forallb_forall. intros x Hx.
    apply list_elem_of_In, list_elem_of_fmap in Hx as (y & -> & Hy).
    pose proof (getitem_slice_frozen l 0 idx Hfrozen) as Hs.
    rewrite forallb_forall in Hs. by apply Hs, list_elem_of_In.
  - intros k c' Hk. rewrite lookup_insert_ne by done. rewrite lookup_fmap.
    destruct (base !! k) as [c0|]; [|discriminate].
    intros [= <-]. apply frozen_freeze.
Qed.

(** The network is built once.  After a call that returned, every further
    call returns the same network and optimizer, whatever number of classes
    and extra layers it asks for, and only records the new number of
    classes: the head stays sized for the first call. *)
Theorem get_hub_model_builds_once num_classes ipex_optimize extra_layers
    (self self1 : @model net Optimizer History) r
    num_classes' ipex_optimize' extra_layers' :
  get_hub_model num_classes ipex_optimize extra_layers self = (Done r, self1) →
  get_hub_model num_classes' ipex_optimize' extra_layers' self1
    = (Done r, set_num_classes (Some num_classes') self1) ∧
  _model self1 = Some r.1.
Proof.
  intros Hrun.
  assert (_model self1 = Some r.1 ∧ _optimizer self1 = r.2) as [Hm Ho].
  { destruct (_model self) as [m|] eqn:Hself.
    - unfold _get_hub_model in Hrun. rewrite Hself in Hrun.
      injection Hrun as <- <-. done.
    - by destruct (get_hub_model_Done _ _ _ _ _ _ Hself Hrun)
        as (? & ? & _ & _ & _ & ? & ? & _). }
  split; [|done]. unfold _get_hub_model at 1. rewrite Hm, Ho.
  by destruct r.
Qed.

(** A failed build is not retried.  When a call on an instance without a
    network fails after the download, the instance keeps the network as the
    failure left it, its number of classes is not updated, and every later
    call returns that network without building a head. *)
Theorem get_hub_model_failure_sticks num_classes ipex_optimize extra_layers
    (self self1 : @model net Optimizer History) e base :
  _model self = None →
  _model_downloader _model_name = Done base →
  get_hub_model num_classes ipex_optimize extra_layers self = (Failed e, self1) →
  ∃ m, _model self1 = Some m ∧
       _num_classes self1 = _num_classes self ∧
       ∀ num_classes' ipex_optimize' extra_layers',
         get_hub_model num_classes' ipex_optimize' extra_layers' self1
           = (Done (m, _optimizer self1),
              set_num_classes (Some num_classes') self1).
Proof.
  intros Hnone Hbase. unfold _get_hub_model at 1. rewrite Hnone, Hbase.
  assert (∀ m (s : @model net Optimizer History),
            _model s = Some m → _num_classes s = _num_classes self →
            ∃ m, _model s = Some m ∧ _num_classes s = _num_classes self ∧
              ∀ num_classes' ipex_optimize' extra_layers',
                get_hub_model num_classes' ipex_optimize' extra_layers' s
                  = (Done (m, _optimizer s),
                     set_num_classes (Some num_classes') s)) as Hstuck.
  { intros m s Hm Hn. exists m. split; [done|]. split; [done|].
    intros n' i' e'. unfold _get_hub_model. by rewrite Hm. }
  destruct (replace_classifier _ _ _ _) as [[e0|] m] eqn:Hm.
  - intros [= _ <-]. by apply (Hstuck m).
  - destruct (_optimizer_class m) as [o|e0]; [|intros [= _ <-]; by apply (Hstuck m)].
    cbn [_distributed set_optimizer set_model _enable_auto_mixed_precision].
    destruct (truthy ipex_optimize && negb (truthy (_distributed self)));
      [|discriminate].
    destruct (ipex m o _) as [[m' o']|e0]; [discriminate|].
    intros [= _ <-]. by apply (Hstuck m).
Qed.

End Facts.

(** *** A VGG with one extra layer *)

Lemma example_get_hub_model_Ok :
  _get_hub_model "vgg11" (PyBool false) ("classifier", Some 6) example_hub
    (λ _, Done "SGD") (λ m o _, Done (m, o)) 3 (PyBool false) (Some [512])
    example_self
  = (Done (example_built, Some "SGD"), example_after).
Proof. vm_compute. reflexivity. Qed.

Lemma example_get_hub_model_Failed :
  _get_hub_model "vgg11" (PyBool false) ("classifier", Some 2) example_hub
    (λ _, Done "SGD") (λ m o _, Done (m, o)) 3 (PyBool false) (Some [512])
    example_self
  = (Failed (AttributeError "in_features"), example_after_failure).
Proof. vm_compute. reflexivity. Qed.

(** The head of the example: 4096 to 512 to 3. *)
Lemma get_hub_model_head_witness :
  ∃ base m o c num_features kept head,
    example_hub "vgg11" = Done base ∧
    (λ _ : net, Done "SGD") m = Done o ∧
    (truthy (PyBool false) && negb (truthy (_distributed example_self)) = false →
     (example_built, Some "SGD") = (m, Some o)) ∧
    old_classifier ("classifier", Some 6)
      (if negb (truthy (PyBool false)) then freeze <$> base else base)
      = Done c ∧
    in_features c = Done num_features ∧
    (∃ children,
       (if negb (truthy (PyBool false)) then freeze <$> base else base)
         !! "classifier" = Some (Sequential children) ∧
       kept = slice children 0 6) ∧
    m !! head_attribute ("classifier", Some 6)
      = Some (Sequential (kept ++ head)) ∧
    (∀ k, k ≠ head_attribute ("classifier", Some 6) →
          m !! k = (if negb (truthy (PyBool false))
                    then freeze <$> base else base) !! k) ∧
    chained num_features head.*2 3 = true ∧
    omap out_features head.*2 = default [] (Some [512]) ++ [3] ∧
    length head = S (2 * length (default [] (Some [512]))) ∧
    _num_classes example_after = Some 3.
Proof.
  exact (get_hub_model_head "vgg11" (PyBool false) ("classifier", Some 6)
           example_hub (λ _, Done "SGD") (λ m o _, Done (m, o))
           3 (PyBool false) (Some [512]) example_self _ _
           eq_refl example_get_hub_model_Ok).
Defined.

(** The same call trains the two new layers and nothing else. *)
Lemma get_hub_model_freezes_base_witness :
  ∃ m o kept head,
    (λ _ : net, Done "SGD") m = Done o ∧
    (truthy (PyBool false) && negb (truthy (_distributed example_self)) = false →
     (example_built, Some "SGD") = (m, Some o)) ∧
    m !! head_attribute ("classifier", Some 6)
      = Some (Sequential (kept ++ head)) ∧
    length head = S (2 * length (default [] (Some [512]))) ∧
    forallb frozen kept.*2 = true ∧
    forallb trainable head.*2 = true ∧
    ∀ k c, k ≠ head_attribute ("classifier", Some 6) →
           m !! k = Some c → frozen c = true.
Proof.
  exact (get_hub_model_freezes_base "vgg11" (PyBool false)
           ("classifier", Some 6) example_hub (λ _, Done "SGD")
           (λ m o _, Done (m, o)) 3 (PyBool false) (Some [512]) example_self
           _ _ eq_refl eq_refl example_get_hub_model_Ok).
Defined.

(** A second call for ten classes returns the network built for three. *)
Lemma get_hub_model_builds_once_witness :
  _get_hub_model "vgg11" (PyBool false) ("classifier", Some 6) example_hub
    (λ _, Done "SGD") (λ m o _, Done (m, o)) 10 (PyBool true) None
    example_after
  = (Done (example_built, Some "SGD"),
     set_num_classes (Some 10) example_after) ∧
  _model example_after = Some (example_built, Some "SGD").1.
Proof.
  exact (get_hub_model_builds_once "vgg11" (PyBool false)
           ("classifier", Some 6) example_hub (λ _, Done "SGD")
           (λ m o _, Done (m, o)) 3 (PyBool false) (Some [512]) example_self
           _ _ 10 (PyBool true) None example_get_hub_model_Ok).
Defined.

(** A configuration that points at a dropout layer: the cut classifier
    stays. *)
Lemma get_hub_model_failure_sticks_witness :
  ∃ m, _model example_after_failure = Some m ∧
       _num_classes example_after_failure = _num_classes example_self ∧
       ∀ num_classes' ipex_optimize' extra_layers',
         _get_hub_model "vgg11" (PyBool false) ("classifier", Some 2)
           example_hub (λ _, Done "SGD") (λ m o _, Done (m, o))
           num_classes' ipex_optimize' extra_layers' example_after_failure
         = (Done (m, _optimizer example_after_failure),
            set_num_classes (Some num_classes') example_after_failure).
Proof.
  exact (get_hub_model_failure_sticks "vgg11" (PyBool false)
           ("classifier", Some 2) example_hub (λ _, Done "SGD")
           (λ m o _, Done (m, o)) 3 (PyBool false) (Some [512]) example_self
           _ _ example_vgg eq_refl eq_refl example_get_hub_model_Failed).
Defined.

End HubModelFacts.

(* ------------------------------------------------------------------ *)
(** *** The device [train] and [predict] run on                         *)
(* ------------------------------------------------------------------ *)

Module DeviceFacts.
Import TorchvisionModel.

Lemma eq_str_eq v s : eq_str v s = true → v = PyStr s.
Proof. destruct v; try discriminate. cbn. by intros ->%String.eqb_eq. Qed.

Section Facts.

Context {TorchModel Optimizer History ImageDataset : Type}.
Variable is_hpu_available : bool.
Variable cpu_type : result string.
Variable _check_train_inputs :
  @train_args ImageDataset → option exception.
Variable fit :
  @train_args ImageDataset → pyval → pyval →
  @model TorchModel Optimizer History →
  result History * @model TorchModel Optimizer History.

(** Gaudi and IPEX.  When the inputs pass [_check_train_inputs], [train]
    either raises the [TypeError] of [extra_layers] or calls the framework;
    in both cases the device of the instance is not ["hpu"] unless a Gaudi
    device is available, a call for ["cpu"] has set the device to ["cpu"],
    and IPEX is handed to the framework switched off whenever the device is
    ["hpu"] and never switched on by [train] itself. *)
Theorem train_device_interlock (a : train_args)
    (self : @model TorchModel Optimizer History) :
  _check_train_inputs a = None →
  ∃ self1 ipex_optimize,
    (train is_hpu_available cpu_type _check_train_inputs fit a self
       = fit a ipex_optimize (resolved_mixed_precision cpu_type a) self1 ∨
     ∃ msg, train is_hpu_available cpu_type _check_train_inputs fit a self
              = (Raise (Exn TypeError msg), self1)) ∧
    (is_hpu_available = false → eq_str (_device self1) "hpu" = false) ∧
    (eq_str (_device self1) "hpu" = true → truthy ipex_optimize = false) ∧
    (eq_str (device a) "cpu" = true → _device self1 = PyStr "cpu") ∧
    (truthy ipex_optimize = true → ipex_optimize = TorchvisionModel.ipex_optimize a).
Proof.
  intros Hcheck. unfold train. rewrite Hcheck.
  fold (resolved_mixed_precision cpu_type a).
  destruct (if eq_str (device a) "hpu" && negb is_hpu_available
            then (set_device (PyStr "cpu") self, TorchvisionModel.ipex_optimize a)
            else if eq_str (device a) "hpu" && is_hpu_available
            then (set_device (device a) self, PyBool false)
            else if eq_str (device a) "cpu"
            then (set_device (device a) self, TorchvisionModel.ipex_optimize a)
            else (self, TorchvisionModel.ipex_optimize a))
    as [self1 ipex1] eqn:Hdev1.
  assert ((eq_str (device a) "cpu" = true → _device self1 = PyStr "cpu") ∧
          (truthy ipex1 = true → ipex1 = TorchvisionModel.ipex_optimize a))
    as [Hcpu1 Hipex1].
  { destruct (eq_str (device a) "hpu" && negb is_hpu_available);
      [injection Hdev1 as <- <-; by split|].
    destruct (eq_str (device a) "hpu" && is_hpu_available);
      [injection Hdev1 as <- <-; split; [by intros ?%eq_str_eq|done]|].
    destruct (eq_str (device a) "cpu") eqn:Hcpu;
      injection Hdev1 as <- <-; split; try done.
    intros _. by apply eq_str_eq. }
  destruct (if eq_str (_device self1) "hpu" && negb is_hpu_available
            then (set_device (PyStr "cpu") self1, ipex1)
            else if eq_str (_device self1) "hpu" && is_hpu_available
            then (self1, if truthy ipex1 then PyBool false else ipex1)
            else (self1, ipex1)) as [self2 ipex2] eqn:Hdev2.
  assert ((is_hpu_available = false → eq_str (_device self2) "hpu" = false) ∧
          (eq_str (_device self2) "hpu" = true → truthy ipex2 = false) ∧
          (eq_str (device a) "cpu" = true → _device self2 = PyStr "cpu") ∧
          (truthy ipex2 = true → ipex2 = TorchvisionModel.ipex_optimize a))
    as (Hhpu & Hoff & Hcpu & Hipex).
  { destruct (eq_str (_device self1) "hpu") eqn:H1, is_hpu_available;
      cbn [andb negb] in Hdev2; injection Hdev2 as <- <-;
      cbn [_device set_device]; split_and!; try done.
    - intros _. by destruct (truthy ipex1) eqn:?.
    - destruct (truthy ipex1) eqn:Hon; [done|]. intros Hon'. congruence.
    - by rewrite H1.
    - by rewrite H1. }
  set (self3 := set_distributed (distributed a)
                  (set_enable_auto_mixed_precision
                     (resolved_mixed_precision cpu_type a) self2)).
  exists self3, ipex2. split; [|done].
  destruct (truthy (extra_layers a)); [|by left].
  destruct (extra_layers a) as [| | | | |layers]; try (right; by eexists).
  destruct (first_non_int layers); [right; by eexists|by left].
Qed.

End Facts.

(** A call for ["hpu"] on a machine with a Gaudi device: IPEX is off. *)
Lemma train_device_interlock_witness :
  ∃ self1 ipex_optimize,
    (train true (Ok "SPR") (λ _, None)
           (λ _ _ _ self, (Ok (_history self), self)) hpu_args fresh_model
       = (λ _ _ _ self, (Ok (_history self), self)) hpu_args ipex_optimize
           (resolved_mixed_precision (Ok "SPR") hpu_args) self1 ∨
     ∃ msg, train true (Ok "SPR") (λ _, None)
                  (λ _ _ _ self, (Ok (_history self), self)) hpu_args fresh_model
              = (Raise (Exn TypeError msg), self1)) ∧
    (true = false → eq_str (_device self1) "hpu" = false) ∧
    (eq_str (_device self1) "hpu" = true → truthy ipex_optimize = false) ∧
    (eq_str (device hpu_args) "cpu" = true → _device self1 = PyStr "cpu") ∧
    (truthy ipex_optimize = true →
     ipex_optimize = TorchvisionModel.ipex_optimize hpu_args).
Proof.
  exact (train_device_interlock true (Ok "SPR") (λ _, None)
           (λ _ _ _ self, (Ok (_history self), self)) hpu_args fresh_model
           eq_refl).
Defined.

Section PredictFacts.

Context {TorchModel Optimizer History Samples Predictions : Type}.
Variable is_hpu_available : bool.
Variable cpu_type : result string.
Variable py_str : pyval → string.
Variable infer :
  Samples → pyval → pyval → @model TorchModel Optimizer History →
  result Predictions * @model TorchModel Optimizer History.

(** [predict] checks before it assigns.  A [return_type] other than the
    three strings raises a [ValueError] and leaves the instance as it was;
    with one of the three the forward pass runs on an instance whose device
    is not ["hpu"] unless a Gaudi device is available, and whose network,
    optimizer, number of classes, distribution flag and history are
    unchanged. *)
Theorem predict_checks_return_type (input_samples : Samples)
    (return_type enable_auto_mixed_precision device : pyval)
    (self : @model TorchModel Optimizer History) :
  ((∃ t, t ∈ return_types ∧ return_type = PyStr t) →
   ∃ amp self1,
     predict is_hpu_available cpu_type py_str infer input_samples return_type
             enable_auto_mixed_precision device self
       = infer input_samples return_type amp self1 ∧
     (is_none enable_auto_mixed_precision = false →
      amp = enable_auto_mixed_precision) ∧
     _enable_auto_mixed_precision self1 = amp ∧
     (is_hpu_available = false → eq_str (_device self1) "hpu" = false) ∧
     _model self1 = _model self ∧ _optimizer self1 = _optimizer self ∧
     _num_classes self1 = _num_classes self ∧
     _distributed self1 = _distributed self ∧ _history self1 = _history self) ∧
  (¬ (∃ t, t ∈ return_types ∧ return_type = PyStr t) →
   predict is_hpu_available cpu_type py_str infer input_samples return_type
           enable_auto_mixed_precision device self
     = (Raise (Exn ValueError
                 ("Invalid return_type (" +:+ py_str return_type +:+
                  "). Expected one of ['class', 'probabilities', 'scores'].")),
        self)).
Proof.
  assert (isinstance_str return_type && in_return_types return_type = true
          ↔ ∃ t, t ∈ return_types ∧ return_type = PyStr t) as Hvalid.
  { unfold in_return_types. split.
    - destruct return_type as [| | | |s|]; try done. cbn [isinstance_str andb].
      intros (t & Ht%list_elem_of_In & ->%String.eqb_eq)%existsb_exists.
      by exists t.
    - intros (t & Ht & ->). cbn [isinstance_str andb].
      apply existsb_exists. exists t. split; [by apply list_elem_of_In|].
      apply String.eqb_refl. }
  unfold predict.
  destruct (isinstance_str return_type && in_return_types return_type) eqn:Hok.
  - apply andb_prop in Hok as [-> ->]. cbn [negb orb]. split; [intros _|tauto].
    eexists _, _. split; [reflexivity|].
    split; [by intros ->|].
    set (amp := if is_none enable_auto_mixed_precision then _ else _).
    destruct (eq_str device "hpu") eqn:Hhpu, is_hpu_available eqn:Havail,
             (eq_str device "cpu") eqn:Hcpu,
             (eq_str (_device self) "hpu") eqn:Hself;
      cbn [andb negb _device set_device set_enable_auto_mixed_precision
           _model _optimizer _num_classes _distributed _history
           _enable_auto_mixed_precision];
      rewrite ?Hhpu, ?Hself; cbn [andb negb _device set_device
           set_enable_auto_mixed_precision
           _model _optimizer _num_classes _distributed _history
           _enable_auto_mixed_precision];
      try (apply eq_str_eq in Hcpu; subst device; cbn [eq_str String.eqb]);
      split_and!; try done.
  - split; [intros Hyes%Hvalid; congruence|intros _].
    by apply andb_false_iff in Hok as [-> | ->]; cbn [negb orb];
      rewrite ?orb_true_r.
Qed.

End PredictFacts.

End DeviceFacts.

(* ------------------------------------------------------------------ *)
(** *** The directory [export] writes                                   *)
(* ------------------------------------------------------------------ *)

Module ExportFacts.
Import DataUtils StandIn SplitFacts TFModel.

Lemma repr_int_inj a b : repr_int a = repr_int b → a = b.
Proof.
  assert (∀ z, NilZero.int_of_string (repr_int z) = Some (Z.to_int z)) as Hisi.
  { intros z. unfold repr_int. apply NilZero.isi; intros Hz.
    - assert (z = 0) as -> by (by rewrite <- (DecimalZ.of_to z), Hz).
      vm_compute in Hz. discriminate Hz.
    - assert (z = 0) as -> by (by rewrite <- (DecimalZ.of_to z), Hz).
      vm_compute in Hz. discriminate Hz. }
  intros Heq. apply (f_equal NilZero.int_of_string) in Heq.
  rewrite !Hisi in Heq. injection Heq as Heq.
  apply (f_equal Z.of_int) in Heq. by rewrite !DecimalZ.of_to in Heq.
Qed.

Lemma repr_int_fresh n : repr_int (n + 1) ∉ repr_int <$> range 1 (n + 1).
Proof.
  intros (i & Heq%repr_int_inj & Hi%PyFacts.elem_of_range)%list_elem_of_fmap.
  lia.
Qed.

Section Run.

Context {World KerasModel : Type}.
Variable verify_directory : string → World → result unit * World.
Variable validate_model_name : string → result string.
Variable os_path_exists : string → World → bool.
Variable os_listdir : string → World → result (list string) * World.
Variable save : KerasModel → string → World → result unit * World.

(** The numbered directory.  When [export] returns a directory, the
    directory was checked, the model was saved to the directory returned and
    the directory was printed.  With [d] the folder of the validated model
    name under [output_dir]: when [d] does not exist, or exists and is listed
    as empty, the directory is [d/1]; when [d] exists and is listed with
    entries, it is listed once more and the directory is [d/(n+1)] for [n]
    the number of entries of that second listing.  The number is a count,
    not a maximum: it is fresh when the entries are the numbers from 1
    on. *)
Theorem export_numbered_directory (_model : option KerasModel)
    (model_name output_dir : string) (s s' : @sys World) (dir : string) :
  export verify_directory validate_model_name os_path_exists os_listdir save
         _model model_name output_dir s = (Ok dir, s') →
  ∃ model val_model_name w1 w2,
    _model = Some model ∧
    validate_model_name model_name = Ok val_model_name ∧
    verify_directory output_dir (os_state s) = (Ok (), w1) ∧
    save model dir w2 = (Ok (), os_state s') ∧
    printed s' = printed s ++ [[PyStr "Saved model directory:"; PyStr dir]] ∧
    if os_path_exists (path_join output_dir val_model_name) w1
    then
      ∃ entries w,
        os_listdir (path_join output_dir val_model_name) w1 = (Ok entries, w) ∧
        match entries with
        | [] =>
            w2 = w ∧
            dir = path_join (path_join output_dir val_model_name) "1"
        | _ :: _ =>
            ∃ entries',
              os_listdir (path_join output_dir val_model_name) w
                = (Ok entries', w2) ∧
              dir = path_join (path_join output_dir val_model_name)
                              (repr_int (len entries' + 1)) ∧
              (entries' ≡ₚ repr_int <$> range 1 (len entries' + 1) →
               repr_int (len entries' + 1) ∉ entries')
        end
    else
      w2 = w1 ∧ dir = path_join (path_join output_dir val_model_name) "1".
Proof.
  unfold export. destruct _model as [model|]; [|discriminate].
  intros ([] & s1 & Hverify & H)%bind_Ok.
  apply AnnotationRunFacts.lift_os_Ok in Hverify as (w1 & Hverify & ->).
  apply bind_Ok in H as (val_model_name & s2 & Hname & H).
  injection Hname as Hname <-.
  apply bind_Ok in H as (found & s3 & Hfound & H).
  injection Hfound as <- <-. cbn [os_state] in H.
  apply bind_Ok in H as (used & s4 & Hused & H).
  apply bind_Ok in H as (saved & s5 & Hsaved & H).
  apply bind_Ok in H as ([] & s6 & Hsave & H).
  apply AnnotationRunFacts.lift_os_Ok in Hsave as (w6 & Hsave & ->).
  apply bind_Ok in H as ([] & s7 & Hprint & H).
  injection H as <- <-. injection Hprint as <-. cbn [os_state printed].
  exists model, val_model_name, w1, (os_state s5).
  split; [done|]. split; [done|]. split; [done|]. split; [done|].
  destruct (os_path_exists (path_join output_dir val_model_name) w1).
  - apply bind_Ok in Hused as (entries & s8 & Hls & Hused).
    apply AnnotationRunFacts.lift_os_Ok in Hls as (w & Hls & ->).
    injection Hused as <- <-. cbn [os_state] in Hls.
    destruct entries as [|entry entries].
    + injection Hsaved as <- <-. split; [done|]. by exists [], w.
    + apply bind_Ok in Hsaved as (entries' & s9 & Hls' & Hsaved).
      apply AnnotationRunFacts.lift_os_Ok in Hls' as (w' & Hls' & ->).
      injection Hsaved as <- <-. split; [done|].
      exists (entry :: entries), w. split; [done|].
      exists entries'. split; [done|]. split; [done|].
      intros Hperm Hin%list_elem_of_In.
      apply (Permutation_in _ Hperm), list_elem_of_In in Hin.
      by apply repr_int_fresh in Hin.
  - injection Hused as <- <-. injection Hsaved as <- <-. by split.
Qed.

End Run.

Lemma example_export_Ok :
  export (λ _ w, (Ok (), w)) Ok
         (λ path _, bool_decide (is_Some (dict_get path example_exports)))
         (table_listdir example_exports) (λ _ _ w, (Ok (), w))
         (Some ()) "resnet_v1_50" "out" (Sys () [] [])
  = (Ok "out/resnet_v1_50/3",
     Sys () [] [[PyStr "Saved model directory:"; PyStr "out/resnet_v1_50/3"]]).
Proof. vm_compute. reflexivity. Qed.

(** The third export of a model. *)
Lemma export_numbered_directory_witness :
  ∃ model val_model_name w1 w2,
    Some () = Some model ∧
    Ok "resnet_v1_50" = Ok val_model_name ∧
    (λ (_ : string) (w : unit), (Ok (), w)) "out" (os_state (Sys () [] []))
      = (Ok (), w1) ∧
    (λ (_ : unit) (_ : string) (w : unit), (Ok (), w))
      model "out/resnet_v1_50/3" w2
      = (Ok (), os_state (Sys () [] [[PyStr "Saved model directory:";
                                       PyStr "out/resnet_v1_50/3"]])) ∧
    printed (Sys () [] [[PyStr "Saved model directory:";
                         PyStr "out/resnet_v1_50/3"]])
      = printed (Sys () [] [])
        ++ [[PyStr "Saved model directory:"; PyStr "out/resnet_v1_50/3"]] ∧
    if (λ path (_ : unit), bool_decide (is_Some (dict_get path example_exports)))
         (path_join "out" val_model_name) w1
    then
      ∃ entries w,
        table_listdir example_exports (path_join "out" val_model_name) w1
          = (Ok entries, w) ∧
        match entries with
        | [] =>
            w2 = w ∧
            "out/resnet_v1_50/3" = path_join (path_join "out" val_model_name) "1"
        | _ :: _ =>
            ∃ entries',
              table_listdir example_exports (path_join "out" val_model_name) w
                = (Ok entries', w2) ∧
              "out/resnet_v1_50/3"
                = path_join (path_join "out" val_model_name)
                            (repr_int (len entries' + 1)) ∧
              (entries' ≡ₚ repr_int <$> range 1 (len entries' + 1) →
               repr_int (len entries' + 1) ∉ entries')
        end
    else
      w2 = w1 ∧
      "out/resnet_v1_50/3" = path_join (path_join "out" val_model_name) "1".
Proof.
  exact (export_numbered_directory _ _ _ _ _ _ _ _ _ _ _ example_export_Ok).
Defined.

End ExportFacts.

(* ------------------------------------------------------------------ *)
(** *** The option [set_auto_mixed_precision] sets                      *)
(* ------------------------------------------------------------------ *)

Module MixedPrecisionFacts.
Import TFModel.

Section Facts.

Variable VERSION : option string.
Variable int_of_str : string → result Z.
Variable cpu_type : result string.

(** A call that raises has printed and set nothing, and an argument that
    is neither [None] nor a [bool] raises the [TypeError].  A call that
    returns has handed TensorFlow the option [auto_mixed_precision_mkl]
    once when the version is 2.9 or later, major before minor, and not at
    all otherwise; the value is always a [bool]: the argument when one was
    given, and otherwise whether the CPU is an SPR, [False] when that cannot
    be determined. *)
Theorem set_auto_mixed_precision_option (enable_auto_mixed_precision : pyval)
    (st : tf_state) :
  match set_auto_mixed_precision VERSION int_of_str cpu_type
          enable_auto_mixed_precision st with
  | (Raise e, st') =>
      st' = st ∧
      (is_none enable_auto_mixed_precision
       || isinstance_bool enable_auto_mixed_precision = false →
       e = Exn TypeError
             "Invalid type for enable_auto_mixed_precision. Expected None or a bool.")
  | (Ok _, st') =>
      ∃ major minor b,
        tf_version VERSION int_of_str = Ok (major, minor) ∧
        (enable_auto_mixed_precision = PyBool b ∨
         enable_auto_mixed_precision = PyNone ∧
         b = match cpu_type with
             | Ok t => String.eqb t "SPR"
             | Raise _ => false
             end) ∧
        tf_options st' =
          tf_options st ++
          (if decide (2 < major ∨ major = 2 ∧ 9 ≤ minor)
           then [[("auto_mixed_precision_mkl", PyBool b)]] else [])
  end.
Proof.
  unfold set_auto_mixed_precision.
  destruct enable_auto_mixed_precision as [|b| | | |]; cbn [is_none isinstance_bool negb andb orb];
    try (split; done).
  - destruct (tf_version VERSION int_of_str) as [[major minor]|e]; [|by split].
    assert ((major =? 2) && (9 <=? minor) || (2 <? major)
            = bool_decide (2 < major ∨ major = 2 ∧ 9 ≤ minor)) as ->.
    { apply eq_true_iff_eq.
      rewrite orb_true_iff, andb_true_iff, Z.eqb_eq, Z.leb_le, Z.ltb_lt.
      rewrite bool_decide_eq_true. tauto. }
    destruct cpu_type as [t|e]; case_bool_decide as Hsup; cbn [negb];
      try destruct (String.eqb t "SPR") eqn:Hspr; cbn;
      eexists major, minor, _; (split; [done|]);
      (split; [right; split; [done|reflexivity]|]);
      rewrite ?decide_True, ?decide_False by done; cbn;
      rewrite ?app_nil_r; done.
  - destruct (tf_version VERSION int_of_str) as [[major minor]|e]; [|by split].
    assert ((major =? 2) && (9 <=? minor) || (2 <? major)
            = bool_decide (2 < major ∨ major = 2 ∧ 9 ≤ minor)) as ->.
    { apply eq_true_iff_eq.
      rewrite orb_true_iff, andb_true_iff, Z.eqb_eq, Z.leb_le, Z.ltb_lt.
      rewrite bool_decide_eq_true. tauto. }
    case_bool_decide as Hsup; cbn [negb]; destruct b; cbn;
      eexists major, minor, _; (split; [done|]);
      (split; [left; reflexivity|]);
      rewrite ?decide_True, ?decide_False by done; cbn;
      rewrite ?app_nil_r; done.
Qed.

End Facts.

End MixedPrecisionFacts.
